(** * Payment engine

    A shallow embedding of [source/payment_engine.py] and the properties of
    its transaction state machine.

    Amounts are Python floats, that is IEEE 754 binary64 numbers: they are
    modelled by Rocq's primitive [float], whose operations are the same
    round-to-nearest-even operations.  Client and transaction ids are the
    unsigned integers read from the input; the engine only compares them.
    The two dictionaries of the engine keep Python's insertion order, the
    list of disputed ids is a Python list, [logging] calls are collected as
    a list of log records, and a failing subscript raises [KeyError] or
    [IndexError].  The numbers of the report are written as Python writes a
    float in an f-string: the shortest decimal that is read back as the
    number, laid out as [repr] does. *)

From Stdlib Require Import ZArith NArith QArith Qpower List Ascii String Bool Lia Lqa.
From Stdlib Require Import Floats DecimalString.
Import ListNotations.

Set Warnings "-inexact-float".

Local Open Scope string_scope.

(** ** Exceptions *)

Inductive exn : Type :=
| KeyError (key : N)
| ValueError
| IndexError.

Inductive result (A : Type) : Type :=
| Ok (a : A)
| Raise (e : exn).

Arguments Ok {A} a.
Arguments Raise {A} e.

Definition bind {A B : Type} (r : result A) (k : A -> result B) : result B :=
  match r with
  | Ok a => k a
  | Raise e => Raise e
  end.

Notation "x <- r ;; k" := (bind r (fun x => k))
  (at level 61, r at next level, right associativity).

(** ** Logging *)

Inductive levelname : Type := INFO | ERROR.

Definition log_record : Type := (levelname * string)%type.

Module logging.
Definition error (message : string) : list log_record := [(ERROR, message)].
Definition info (message : string) : list log_record := [(INFO, message)].
End logging.

(** ** Python dictionaries keyed by unsigned integers *)

Module PyDict.

Definition t (V : Type) : Type := list (N * V).

Definition empty {V : Type} : t V := [].

(** [d.get(k)]: the value stored under [k], if any. *)
Fixpoint get {V : Type} (d : t V) (k : N) : option V :=
  match d with
  | [] => None
  | (k', v) :: d' => if N.eqb k k' then Some v else get d' k
  end.

(** [k in d] *)
Definition contains {V : Type} (d : t V) (k : N) : bool :=
  match get d k with
  | Some _ => true
  | None => false
  end.

(** [d[k]], which raises [KeyError] on a missing key. *)
Definition getitem {V : Type} (d : t V) (k : N) : result V :=
  match get d k with
  | Some v => Ok v
  | None => Raise (KeyError k)
  end.

(** [d[k] = v]: an existing key keeps its position, a new key goes last. *)
Fixpoint set {V : Type} (d : t V) (k : N) (v : V) : t V :=
  match d with
  | [] => [(k, v)]
  | (k', v') :: d' =>
      if N.eqb k k' then (k', v) :: d' else (k', v') :: set d' k v
  end.

(** [d.setdefault(k, v)]: the dictionary afterwards and the value returned. *)
Definition setdefault {V : Type} (d : t V) (k : N) (v : V) : t V * V :=
  match get d k with
  | Some v0 => (d, v0)
  | None => (set d k v, v)
  end.

Definition keys {V : Type} (d : t V) : list N := map fst d.

Definition values {V : Type} (d : t V) : list V := map snd d.

End PyDict.

(** ** Python lists of ids *)

Module PyList.

(** [x in l] *)
Definition contains (l : list N) (x : N) : bool := existsb (N.eqb x) l.

(** [l.append(x)] *)
Definition append (l : list N) (x : N) : list N := l ++ [x].

(** [l.remove(x)]: drops the first occurrence, [ValueError] when there is none. *)
Fixpoint remove (l : list N) (x : N) : result (list N) :=
  match l with
  | [] => Raise ValueError
  | y :: l' =>
      if N.eqb x y then Ok l'
      else l'' <- remove l' x ;; Ok (y :: l'')
  end.

End PyList.

(** ** The text of a number

    [str] of an unsigned integer, and [repr] of a float: the digits of the
    shortest decimal that is read back as the float, found by trying one
    digit, two digits and so on up to seventeen, and their layout. *)

Module PyInt.

Definition str (n : N) : string := NilZero.string_of_uint (N.to_uint n).

End PyInt.

Module PyFloat.

Local Open Scope Z_scope.

(** [a * 10^ta] compared with [b * 2^eb]. *)
Definition compare_scaled (a ta b eb : Z) : comparison :=
  Z.compare (a * 10 ^ Z.max ta 0 * 2 ^ Z.max (- eb) 0)
            (b * 2 ^ Z.max eb 0 * 10 ^ Z.max (- ta) 0).

(** Whether the decimal [c * 10^t] is read as the binary64 number
    [m * 2^e], the nearest one, the one of even mantissa at a midpoint. *)
Definition reads_back (c t : Z) (m : positive) (e : Z) : bool :=
  let below := if Pos.eqb m 4503599627370496 && (-1074 <? e) then 1 else 2 in
  let even := Z.even (Zpos m) in
  match compare_scaled c t (4 * Zpos m - below) (e - 2) with
  | Gt => true | Eq => even | Lt => false
  end &&
  match compare_scaled c t (4 * Zpos m + 2) (e - 2) with
  | Lt => true | Eq => even | Gt => false
  end.

(** The exponent [k] of the first decimal digit: [10^k <= m * 2^e < 10^(k+1)]. *)
Fixpoint exponent_down (fuel : nat) (m : positive) (e k : Z) : Z :=
  match fuel with
  | O => k
  | S fuel' =>
      match compare_scaled 1 k (Zpos m) e with
      | Gt => exponent_down fuel' m e (k - 1)
      | _ => k
      end
  end.

Fixpoint exponent_up (fuel : nat) (m : positive) (e k : Z) : Z :=
  match fuel with
  | O => k
  | S fuel' =>
      match compare_scaled 1 (k + 1) (Zpos m) e with
      | Gt => k
      | _ => exponent_up fuel' m e (k + 1)
      end
  end.

Definition decimal_exponent (m : positive) (e : Z) : Z :=
  let k := (Z.log2 (Zpos m) + e) * 1233 / 4096 in
  exponent_up 700 m e (exponent_down 700 m e k).

(** The decimal of [n] digits nearest to [m * 2^e] among those that are
    read back as it, if there is one. *)
Definition candidate (m : positive) (e k : Z) (n : Z) : option (Z * Z) :=
  let t := k - n + 1 in
  let below :=
    (Zpos m * 2 ^ Z.max e 0 * 10 ^ Z.max (- t) 0)
    / (2 ^ Z.max (- e) 0 * 10 ^ Z.max t 0) in
  let above := below + 1 in
  match (0 <? below) && reads_back below t m e, reads_back above t m e with
  | true, true =>
      match compare_scaled (2 * below + 1) t (Zpos m) (e + 1) with
      | Gt => Some (below, t)
      | Lt => Some (above, t)
      | Eq => Some (if Z.even below then below else above, t)
      end
  | true, false => Some (below, t)
  | false, true => Some (above, t)
  | false, false => None
  end.

(** The exact decimal of [m * 2^e], for want of a shorter one. *)
Definition exact (m : positive) (e : Z) : Z * Z :=
  if 0 <=? e then (Zpos m * 2 ^ e, 0) else (Zpos m * 5 ^ (- e), e).

Fixpoint search (fuel : nat) (m : positive) (e k n : Z) : Z * Z :=
  match fuel with
  | O => exact m e
  | S fuel' =>
      match candidate m e k n with
      | Some d => d
      | None => search fuel' m e k (n + 1)
      end
  end.

Fixpoint strip (fuel : nat) (c t : Z) : Z * Z :=
  match fuel with
  | O => (c, t)
  | S fuel' => if (c mod 10 =? 0) && (0 <? c) then strip fuel' (c / 10) (t + 1) else (c, t)
  end.

(** The shortest decimal [c * 10^t] that is read back as [m * 2^e], without
    the zeros at its end: 17 digits are enough for a binary64 number. *)
Definition shortest (m : positive) (e : Z) : Z * Z :=
  let '(c, t) := search 17 m e (decimal_exponent m e) 1 in
  strip 400 c t.

Local Close Scope Z_scope.

Fixpoint zeros (n : nat) : string :=
  match n with
  | O => ""
  | S n' => "0" ++ zeros n'
  end.

Definition digits (c : Z) : string := NilZero.string_of_uint (N.to_uint (Z.to_N c)).

(** The exponent of the scientific notation: a sign and two digits at least. *)
Definition exponent_text (x : Z) : string :=
  let d := digits (Z.abs x) in
  (if (x <? 0)%Z then "-" else "+") ++ (if (String.length d <? 2)%nat then "0" ++ d else d).

(** The text of [0.d1d2... * 10^decpt], as [repr] lays it out: scientific
    notation below 1e-4 and from 1e16, a digit after the point at least. *)
Definition layout (d : string) (decpt : Z) : string :=
  let nd := Z.of_nat (String.length d) in
  if ((decpt <=? -4) || (16 <? decpt))%Z then
    substring 0 1 d
    ++ (if (1 <? nd)%Z then "." ++ substring 1 (String.length d - 1) d else "")
    ++ "e" ++ exponent_text (decpt - 1)
  else if (decpt <=? 0)%Z then
    "0." ++ zeros (Z.to_nat (- decpt)) ++ d
  else if (nd <=? decpt)%Z then
    d ++ zeros (Z.to_nat (decpt - nd)) ++ ".0"
  else
    substring 0 (Z.to_nat decpt) d ++ "."
    ++ substring (Z.to_nat decpt) (String.length d - Z.to_nat decpt) d.

(** [repr(x)] of a Python float, which is what an f-string writes for it,
    and for the [numpy.float64] that an amount read from the file is. *)
Definition repr (x : float) : string :=
  match Prim2SF x with
  | S754_nan => "nan"
  | S754_infinity s => if s then "-inf" else "inf"
  | S754_zero s => if s then "-0.0" else "0.0"
  | S754_finite s m e =>
      let '(c, t) := shortest m e in
      let d := digits c in
      (if s then "-" else "") ++ layout d (Z.of_nat (String.length d) + t)
  end.

End PyFloat.

(** ** Accounts and clients *)

Module Account.

Record t : Type := Build {
  available : float;
  held : float;
  locked : bool
}.

Definition init : t :=
  {| available := 0%float; held := 0%float; locked := false |}.

Definition total (self : t) : float := (available self + held self)%float.

Definition set_available (self : t) (x : float) : t :=
  {| available := x; held := held self; locked := locked self |}.

Definition set_held (self : t) (x : float) : t :=
  {| available := available self; held := x; locked := locked self |}.

Definition set_locked (self : t) (b : bool) : t :=
  {| available := available self; held := held self; locked := b |}.

(** [f'{self.available},{self.held},{self.total},{locked}'] *)
Definition get_balance (self : t) : string :=
  let locked := if negb (locked self) then "false" else "true" in
  PyFloat.repr (available self) ++ "," ++ PyFloat.repr (held self) ++ ","
  ++ PyFloat.repr (total self) ++ "," ++ locked.

End Account.

Module Client.

Record t : Type := Build {
  id : N;
  account : Account.t
}.

Definition init (client_id : N) : t :=
  {| id := client_id; account := Account.init |}.

Definition set_account (self : t) (a : Account.t) : t :=
  {| id := id self; account := a |}.

(** [f'{self.id},' + self.account.get_balance()] *)
Definition get_balance (self : t) : string :=
  (PyInt.str (id self) ++ ",") ++ Account.get_balance (account self).

End Client.

(** ** Transactions *)

Module TransactionType.
Definition DEPOSIT : string := "deposit".
Definition WITHDRAWAL : string := "withdrawal".
Definition DISPUTE : string := "dispute".
Definition RESOLVE : string := "resolve".
Definition CHARGEBACK : string := "chargeback".
Definition ALLTYPES : list string :=
  [DEPOSIT; WITHDRAWAL; DISPUTE; RESOLVE; CHARGEBACK].
End TransactionType.

Module Transaction.

Record t : Type := Build {
  type : string;
  client_id : N;
  id : N;
  amount : float
}.

End Transaction.

Definition str_in (s : string) (l : list string) : bool :=
  existsb (String.eqb s) l.

Module TransactionValidator.

Definition _is_valid_type (transaction_type : string) : bool :=
  str_in transaction_type TransactionType.ALLTYPES.

Definition _is_greater_than_zero (transaction : Transaction.t) : bool :=
  if str_in (Transaction.type transaction)
       [TransactionType.DEPOSIT; TransactionType.WITHDRAWAL]
  then (0 <? Transaction.amount transaction)%float
  else true.

Definition is_valid (transaction : Transaction.t) : bool :=
  _is_valid_type (Transaction.type transaction)
  && _is_greater_than_zero transaction.

End TransactionValidator.

(** ** The engine *)

Module PaymentsEngine.

Record t : Type := Build {
  _deposits_withdrawals : PyDict.t Transaction.t;
  _disputed_deposits_ids : list N;
  _clients : PyDict.t Client.t
}.

Definition init : t :=
  {| _deposits_withdrawals := PyDict.empty;
     _disputed_deposits_ids := [];
     _clients := PyDict.empty |}.

Definition set_deposits_withdrawals (self : t) (d : PyDict.t Transaction.t) : t :=
  {| _deposits_withdrawals := d;
     _disputed_deposits_ids := _disputed_deposits_ids self;
     _clients := _clients self |}.

Definition set_disputed_deposits_ids (self : t) (l : list N) : t :=
  {| _deposits_withdrawals := _deposits_withdrawals self;
     _disputed_deposits_ids := l;
     _clients := _clients self |}.

Definition set_clients (self : t) (c : PyDict.t Client.t) : t :=
  {| _deposits_withdrawals := _deposits_withdrawals self;
     _disputed_deposits_ids := _disputed_deposits_ids self;
     _clients := c |}.

(** A [client] handed to a rule is the object that [_clients] holds under
    the transaction's client id: an assignment to one of its account's
    fields is an update of that entry of the dictionary. *)
Definition store_account (self : t) (transaction : Transaction.t)
    (client : Client.t) (a : Account.t) : t :=
  set_clients self
    (PyDict.set (_clients self) (Transaction.client_id transaction)
       (Client.set_account client a)).

Definition _is_transaction_unique (self : t) (transaction_id : N) : bool :=
  negb (PyDict.contains (_deposits_withdrawals self) transaction_id).

Definition _is_under_dispute (self : t) (transaction : Transaction.t) : bool :=
  PyList.contains (_disputed_deposits_ids self) (Transaction.id transaction).

Definition _is_transaction_disputable (self : t) (transaction : Transaction.t) : bool :=
  PyDict.contains (_deposits_withdrawals self) (Transaction.id transaction)
  && negb (_is_under_dispute self transaction).

Definition _is_client_correct (self : t) (transaction : Transaction.t) : result bool :=
  recorded <- PyDict.getitem (_deposits_withdrawals self) (Transaction.id transaction) ;;
  Ok (N.eqb (Transaction.client_id transaction) (Transaction.client_id recorded)).

Definition _are_enough_funds (amount : float) (client : Client.t) : bool :=
  (amount <=? Account.available (Client.account client))%float.

(** Python's [a and b], where evaluating [b] may raise. *)
Definition py_and (a : bool) (b : result bool) : result bool :=
  if a then b else Ok false.

Definition _deposit (self : t) (transaction : Transaction.t) (client : Client.t)
    : result (t * list log_record) :=
  let self := set_deposits_withdrawals self
    (PyDict.set (_deposits_withdrawals self) (Transaction.id transaction) transaction) in
  let account := Client.account client in
  let account := Account.set_available account
    (Account.available account + Transaction.amount transaction)%float in
  Ok (store_account self transaction client account, []).

Definition _withdrawal (self : t) (transaction : Transaction.t) (client : Client.t)
    : result (t * list log_record) :=
  if _are_enough_funds (Transaction.amount transaction) client then
    let self := set_deposits_withdrawals self
      (PyDict.set (_deposits_withdrawals self) (Transaction.id transaction) transaction) in
    let account := Client.account client in
    let account := Account.set_available account
      (Account.available account - Transaction.amount transaction)%float in
    Ok (store_account self transaction client account, [])
  else
    Ok (self, logging.error "Not enough funds available").

Definition _dispute (self : t) (transaction : Transaction.t) (client : Client.t)
    : result (t * list log_record) :=
  possible <- py_and (_is_transaction_disputable self transaction)
                     (_is_client_correct self transaction) ;;
  if possible : bool then
    recorded <- PyDict.getitem (_deposits_withdrawals self) (Transaction.id transaction) ;;
    let amount := Transaction.amount recorded in
    if _are_enough_funds amount client then
      let self := set_disputed_deposits_ids self
        (PyList.append (_disputed_deposits_ids self) (Transaction.id transaction)) in
      let account := Client.account client in
      let account := Account.set_available account (Account.available account - amount)%float in
      let account := Account.set_held account (Account.held account + amount)%float in
      Ok (store_account self transaction client account, [])
    else
      Ok (self, [])
  else
    Ok (self, logging.error "Dispute not possible").

Definition _resolve (self : t) (transaction : Transaction.t) (client : Client.t)
    : result (t * list log_record) :=
  possible <- py_and (_is_under_dispute self transaction)
                     (_is_client_correct self transaction) ;;
  if possible : bool then
    ids <- PyList.remove (_disputed_deposits_ids self) (Transaction.id transaction) ;;
    let self := set_disputed_deposits_ids self ids in
    recorded <- PyDict.getitem (_deposits_withdrawals self) (Transaction.id transaction) ;;
    let amount := Transaction.amount recorded in
    let account := Client.account client in
    let account := Account.set_held account (Account.held account - amount)%float in
    let account := Account.set_available account (Account.available account + amount)%float in
    Ok (store_account self transaction client account, [])
  else
    Ok (self, logging.error "Resolve not possible").

Definition _chargeback (self : t) (transaction : Transaction.t) (client : Client.t)
    : result (t * list log_record) :=
  possible <- py_and (_is_under_dispute self transaction)
                     (_is_client_correct self transaction) ;;
  if possible : bool then
    ids <- PyList.remove (_disputed_deposits_ids self) (Transaction.id transaction) ;;
    let self := set_disputed_deposits_ids self ids in
    recorded <- PyDict.getitem (_deposits_withdrawals self) (Transaction.id transaction) ;;
    let account := Client.account client in
    let account := Account.set_held account
      (Account.held account - Transaction.amount recorded)%float in
    let account := Account.set_locked account true in
    Ok (store_account self transaction client account, [])
  else
    Ok (self, logging.error "Chargeback not possible").

(** The account of the transaction's client, created on first reference:
    [self._clients.setdefault(transaction.client_id, Client(...))]. *)
Definition resolve_client (self : t) (client_id : N) : t * Client.t :=
  let '(clients, client) :=
    PyDict.setdefault (_clients self) client_id (Client.init client_id) in
  (set_clients self clients, client).

Definition _handle_transaction (self : t) (transaction : Transaction.t)
    : result (t * list log_record) :=
  let '(self, client) := resolve_client self (Transaction.client_id transaction) in
  if negb (Account.locked (Client.account client)) then
    if String.eqb (Transaction.type transaction) TransactionType.DEPOSIT then
      if _is_transaction_unique self (Transaction.id transaction) then
        _deposit self transaction client
      else
        Ok (self, logging.error "Duplicated transaction id")
    else if String.eqb (Transaction.type transaction) TransactionType.WITHDRAWAL then
      if _is_transaction_unique self (Transaction.id transaction) then
        _withdrawal self transaction client
      else
        Ok (self, logging.error "Duplicated transaction id")
    else if String.eqb (Transaction.type transaction) TransactionType.DISPUTE then
      _dispute self transaction client
    else if String.eqb (Transaction.type transaction) TransactionType.RESOLVE then
      _resolve self transaction client
    else if String.eqb (Transaction.type transaction) TransactionType.CHARGEBACK then
      _chargeback self transaction client
    else
      Ok (self, [])
  else
    Ok (self, logging.error "Client account is locked, could not perform operation").

(** The loop of [run] over the records of the input: [TransactionsCreator.get]
    drops the records the validator rejects, the others are handled in order. *)
Fixpoint handle_all (self : t) (records : list Transaction.t)
    : result (t * list log_record) :=
  match records with
  | [] => Ok (self, [])
  | record :: records' =>
      if TransactionValidator.is_valid record then
        r <- _handle_transaction self record ;;
        r' <- handle_all (fst r) records' ;;
        Ok (fst r', (snd r ++ snd r')%list)
      else
        handle_all self records'
  end.

End PaymentsEngine.

(** ** The report *)

Module ClientsBalancesReporter.

Definition get_header : string := "client,available,held,total,locked".

Definition get_balances (clients : PyDict.t Client.t) : list string :=
  map Client.get_balance (PyDict.values clients).

End ClientsBalancesReporter.

(** ** The reader *)

Module CsvTransactionsReader.

(** [_get_record_from_file], for the rows that the file has below its
    header: the records it yields, and what it logs once it is exhausted.
    Of a file that has its header only, pandas gives one chunk without a
    row, and the subscript [values[0]] of that chunk raises [IndexError]
    before anything is yielded. *)
Definition _get_record_from_file (rows : list Transaction.t)
    : result (list Transaction.t * list log_record) :=
  match rows with
  | [] => Raise IndexError
  | _ :: _ => Ok (rows, logging.info "All transactions processed")
  end.

Definition get (rows : list Transaction.t)
    : result (list Transaction.t * list log_record) :=
  _get_record_from_file rows.

End CsvTransactionsReader.

(** [PaymentsEngine.run] on the reader of a file with the given rows: the
    lines written to the output and what is logged. *)
Definition run (rows : list Transaction.t)
    : result (list string * list log_record) :=
  input <- CsvTransactionsReader.get rows ;;
  r <- PaymentsEngine.handle_all PaymentsEngine.init (fst input) ;;
  let log := (snd r ++ snd input)%list in
  let balances := ClientsBalancesReporter.get_balances (PaymentsEngine._clients (fst r)) in
  Ok (ClientsBalancesReporter.get_header :: balances, log).

(** The states the engine can be in: those [run] goes through. *)
Inductive reachable : PaymentsEngine.t -> Prop :=
| reachable_init : reachable PaymentsEngine.init
| reachable_step (self self' : PaymentsEngine.t) (record : Transaction.t)
    (log : list log_record) :
    reachable self ->
    TransactionValidator.is_valid record = true ->
    PaymentsEngine._handle_transaction self record = Ok (self', log) ->
    reachable self'.

(** ** The rows of the input *)

(** A row [type,client,tx,amount] as the reader yields it; the amount of a
    row that leaves the field empty is read as NaN. *)
Definition row (type : string) (client tx : N) (amount : float) : Transaction.t :=
  {| Transaction.type := type; Transaction.client_id := client;
     Transaction.id := tx; Transaction.amount := amount |}.

Definition deposit := row TransactionType.DEPOSIT.
Definition withdrawal := row TransactionType.WITHDRAWAL.
Definition dispute (client tx : N) := row TransactionType.DISPUTE client tx nan.
Definition resolve (client tx : N) := row TransactionType.RESOLVE client tx nan.
Definition chargeback (client tx : N) := row TransactionType.CHARGEBACK client tx nan.

(** ** Running the engine on an input *)

(** The lines that [PaymentsEngine.run] writes once the records that its
    reader yields have been handled. *)
Definition report_of (records : list Transaction.t) : option (list string) :=
  match PaymentsEngine.handle_all PaymentsEngine.init records with
  | Ok (self, _) =>
      Some (ClientsBalancesReporter.get_header
            :: ClientsBalancesReporter.get_balances (PaymentsEngine._clients self))
  | Raise _ => None
  end.

Definition header_line : string := "client,available,held,total,locked".

(** The lines that the run on a file writes. *)
Definition output (rows : list Transaction.t) : result (list string) :=
  r <- run rows ;; Ok (fst r).

(** The engine after the records of an input, when none of them raises. *)
Definition state_after (records : list Transaction.t) : PaymentsEngine.t :=
  match PaymentsEngine.handle_all PaymentsEngine.init records with
  | Ok (self, _) => self
  | Raise _ => PaymentsEngine.init
  end.

(** A list of ids without the first occurrence of [x]. *)
Fixpoint without_first (l : list N) (x : N) : list N :=
  match l with
  | [] => []
  | y :: l' => if N.eqb x y then l' else y :: without_first l' x
  end.

(** Every id under dispute has a recorded deposit or withdrawal. *)
Definition disputes_recorded (self : PaymentsEngine.t) : bool :=
  forallb (PyDict.contains (PaymentsEngine._deposits_withdrawals self))
    (PaymentsEngine._disputed_deposits_ids self).

(** ** The transitions of the engine

    What handling one record can do to an engine whose [_clients] holds
    [client] for the record: nothing, or the effect of one of the five
    rules, each under the conditions the code checks before it. *)
Inductive effect (self : PaymentsEngine.t) (transaction : Transaction.t)
    (client : Client.t) : PaymentsEngine.t -> Prop :=
| effect_none :
    effect self transaction client self
| effect_deposit :
    Transaction.type transaction = TransactionType.DEPOSIT ->
    Account.locked (Client.account client) = false ->
    PyDict.get (PaymentsEngine._deposits_withdrawals self) (Transaction.id transaction)
      = None ->
    effect self transaction client
      {| PaymentsEngine._deposits_withdrawals :=
           PyDict.set (PaymentsEngine._deposits_withdrawals self)
             (Transaction.id transaction) transaction;
         PaymentsEngine._disputed_deposits_ids := PaymentsEngine._disputed_deposits_ids self;
         PaymentsEngine._clients :=
           PyDict.set (PaymentsEngine._clients self) (Transaction.client_id transaction)
             (Client.set_account client
                {| Account.available :=
                     (Account.available (Client.account client)
                      + Transaction.amount transaction)%float;
                   Account.held := Account.held (Client.account client);
                   Account.locked := Account.locked (Client.account client) |}) |}
| effect_withdrawal :
    Transaction.type transaction = TransactionType.WITHDRAWAL ->
    Account.locked (Client.account client) = false ->
    PyDict.get (PaymentsEngine._deposits_withdrawals self) (Transaction.id transaction)
      = None ->
    (Transaction.amount transaction
     <=? Account.available (Client.account client))%float = true ->
    effect self transaction client
      {| PaymentsEngine._deposits_withdrawals :=
           PyDict.set (PaymentsEngine._deposits_withdrawals self)
             (Transaction.id transaction) transaction;
         PaymentsEngine._disputed_deposits_ids := PaymentsEngine._disputed_deposits_ids self;
         PaymentsEngine._clients :=
           PyDict.set (PaymentsEngine._clients self) (Transaction.client_id transaction)
             (Client.set_account client
                {| Account.available :=
                     (Account.available (Client.account client)
                      - Transaction.amount transaction)%float;
                   Account.held := Account.held (Client.account client);
                   Account.locked := Account.locked (Client.account client) |}) |}
| effect_dispute (recorded : Transaction.t) :
    Transaction.type transaction = TransactionType.DISPUTE ->
    Account.locked (Client.account client) = false ->
    PyDict.get (PaymentsEngine._deposits_withdrawals self) (Transaction.id transaction)
      = Some recorded ->
    Transaction.client_id recorded = Transaction.client_id transaction ->
    PyList.contains (PaymentsEngine._disputed_deposits_ids self)
      (Transaction.id transaction) = false ->
    (Transaction.amount recorded
     <=? Account.available (Client.account client))%float = true ->
    effect self transaction client
      {| PaymentsEngine._deposits_withdrawals := PaymentsEngine._deposits_withdrawals self;
         PaymentsEngine._disputed_deposits_ids :=
           PaymentsEngine._disputed_deposits_ids self ++ [Transaction.id transaction];
         PaymentsEngine._clients :=
           PyDict.set (PaymentsEngine._clients self) (Transaction.client_id transaction)
             (Client.set_account client
                {| Account.available :=
                     (Account.available (Client.account client)
                      - Transaction.amount recorded)%float;
                   Account.held :=
                     (Account.held (Client.account client)
                      + Transaction.amount recorded)%float;
                   Account.locked := Account.locked (Client.account client) |}) |}
| effect_resolve (recorded : Transaction.t) :
    Transaction.type transaction = TransactionType.RESOLVE ->
    Account.locked (Client.account client) = false ->
    PyList.contains (PaymentsEngine._disputed_deposits_ids self)
      (Transaction.id transaction) = true ->
    PyDict.get (PaymentsEngine._deposits_withdrawals self) (Transaction.id transaction)
      = Some recorded ->
    Transaction.client_id recorded = Transaction.client_id transaction ->
    effect self transaction client
      {| PaymentsEngine._deposits_withdrawals := PaymentsEngine._deposits_withdrawals self;
         PaymentsEngine._disputed_deposits_ids :=
           without_first (PaymentsEngine._disputed_deposits_ids self)
             (Transaction.id transaction);
         PaymentsEngine._clients :=
           PyDict.set (PaymentsEngine._clients self) (Transaction.client_id transaction)
             (Client.set_account client
                {| Account.available :=
                     (Account.available (Client.account client)
                      + Transaction.amount recorded)%float;
                   Account.held :=
                     (Account.held (Client.account client)
                      - Transaction.amount recorded)%float;
                   Account.locked := Account.locked (Client.account client) |}) |}
| effect_chargeback (recorded : Transaction.t) :
    Transaction.type transaction = TransactionType.CHARGEBACK ->
    Account.locked (Client.account client) = false ->
    PyList.contains (PaymentsEngine._disputed_deposits_ids self)
      (Transaction.id transaction) = true ->
    PyDict.get (PaymentsEngine._deposits_withdrawals self) (Transaction.id transaction)
      = Some recorded ->
    Transaction.client_id recorded = Transaction.client_id transaction ->
    effect self transaction client
      {| PaymentsEngine._deposits_withdrawals := PaymentsEngine._deposits_withdrawals self;
         PaymentsEngine._disputed_deposits_ids :=
           without_first (PaymentsEngine._disputed_deposits_ids self)
             (Transaction.id transaction);
         PaymentsEngine._clients :=
           PyDict.set (PaymentsEngine._clients self) (Transaction.client_id transaction)
             (Client.set_account client
                {| Account.available := Account.available (Client.account client);
                   Account.held :=
                     (Account.held (Client.account client)
                      - Transaction.amount recorded)%float;
                   Account.locked := true |}) |}.

(** ** The invariant of the reachable engines *)

Record well_formed (self : PaymentsEngine.t) : Prop := {
  (** an id is under dispute at most once, *)
  wf_disputes_distinct : NoDup (PaymentsEngine._disputed_deposits_ids self);
  (** for a recorded deposit or withdrawal, *)
  wf_disputes_recorded : disputes_recorded self = true;
  (** a ledger entry is a valid deposit or withdrawal stored under its own id, *)
  wf_ledger_entry :
    forall id recorded,
      PyDict.get (PaymentsEngine._deposits_withdrawals self) id = Some recorded ->
      Transaction.id recorded = id /\
      (0 <? Transaction.amount recorded)%float = true /\
      str_in (Transaction.type recorded)
        [TransactionType.DEPOSIT; TransactionType.WITHDRAWAL] = true;
  (** of a client that has an account. *)
  wf_ledger_client :
    forall id recorded,
      PyDict.get (PaymentsEngine._deposits_withdrawals self) id = Some recorded ->
      PyDict.contains (PaymentsEngine._clients self) (Transaction.client_id recorded) = true
}.

(** No account has an available balance below zero. *)
Definition funds_not_negative (self : PaymentsEngine.t) : Prop :=
  forall client_id client,
    PyDict.get (PaymentsEngine._clients self) client_id = Some client ->
    (Account.available (Client.account client) <? 0)%float = false.

(** The amount a withdrawal or a dispute asks to take from [available]:
    its own amount, or the amount of the ledger entry it refers to. *)
Definition amount_to_subtract (self : PaymentsEngine.t) (transaction : Transaction.t)
    : option float :=
  if String.eqb (Transaction.type transaction) TransactionType.WITHDRAWAL then
    Some (Transaction.amount transaction)
  else if String.eqb (Transaction.type transaction) TransactionType.DISPUTE then
    option_map Transaction.amount
      (PyDict.get (PaymentsEngine._deposits_withdrawals self) (Transaction.id transaction))
  else None.

(** A binary64 number, as the specification of the format gives it, that
    is not less than zero: a zero, a positive number, +infinity or NaN. *)
Definition not_below_zero (r : spec_float) : Prop :=
  SFltb r (S754_zero false) = false.

(** ** Decimals and binary64 numbers *)

(** The decimal of digits [c] in units of [10^t], and the binary number of
    mantissa [m] in units of [2^e]. *)
Definition decimal (c t : Z) : Q := (inject_Z c * 10 ^ t)%Q.

Definition binary (m e : Z) : Q := (inject_Z m * 2 ^ e)%Q.

(** The reals that are rounded to the binary64 number [m * 2^e], to nearest
    and to the even mantissa at a midpoint: those between the midpoints
    from it to the binary64 numbers next to it.  The number below a power
    of two is half as far as the number above. *)
Definition rounds_to (q : Q) (m : positive) (e : Z) : Prop :=
  let below :=
    if (Pos.eqb m 4503599627370496 && (-1074 <? e)%Z)%bool then 1%Z else 2%Z in
  let lo := binary (4 * Zpos m - below) (e - 2) in
  let hi := binary (4 * Zpos m + 2) (e - 2) in
  if Z.even (Zpos m) then (lo <= q /\ q <= hi)%Q else (lo < q /\ q < hi)%Q.

(** A text of value [q] is read as the binary64 number [x]. *)
Definition reads_as (q : Q) (x : float) : Prop :=
  match Prim2SF x with
  | S754_finite false m e => rounds_to q m e
  | S754_finite true m e => rounds_to (- q) m e
  | S754_zero _ => (- binary 1 (-1075) <= q /\ q <= binary 1 (-1075))%Q
  | _ => False
  end.

(** The number of characters after the point of a text in which the point
    is followed by digits only. *)
Fixpoint digits_after_point (text : string) : nat :=
  match text with
  | EmptyString => 0
  | String c rest =>
      if Ascii.eqb c "."%char then String.length rest else digits_after_point rest
  end.

(** The line of the report for an account, as [Client.get_balance] and
    [Account.get_balance] compose it: the client id, the texts of the
    account's numbers and of their sum, and the lock. *)
Definition balance_line (client : Client.t) : string :=
  PyInt.str (Client.id client) ++ ","
  ++ PyFloat.repr (Account.available (Client.account client)) ++ ","
  ++ PyFloat.repr (Account.held (Client.account client)) ++ ","
  ++ PyFloat.repr (Account.available (Client.account client)
                   + Account.held (Client.account client))%float ++ ","
  ++ (if Account.locked (Client.account client) then "true" else "false").

(** The line of an account whose client has made one deposit and nothing
    else. *)
Definition deposited (record : Transaction.t) : string :=
  PyInt.str (Transaction.client_id record) ++ ","
  ++ PyFloat.repr (Transaction.amount record) ++ ",0.0,"
  ++ PyFloat.repr (Transaction.amount record) ++ ",false".

(** The account that one deposit leaves to a client seen for the first time. *)
Definition deposited_client (record : Transaction.t) : N * Client.t :=
  (Transaction.client_id record,
   {| Client.id := Transaction.client_id record;
      Client.account := {| Account.available := Transaction.amount record;
                           Account.held := 0%float;
                           Account.locked := false |} |}).

(** The ids of a list in the order in which they are first seen, after
    those already [seen]. *)
Fixpoint first_seen (seen ids : list N) : list N :=
  match ids with
  | [] => seen
  | id :: ids' =>
      if PyList.contains seen id then first_seen seen ids'
      else first_seen (seen ++ [id]) ids'
  end.

(** A client with the given balances. *)
Definition client_with (client_id : N) (available held : float) (locked : bool)
    : Client.t :=
  {| Client.id := client_id;
     Client.account :=
       {| Account.available := available; Account.held := held;
          Account.locked := locked |} |}.

(** The account of a client in an engine, the fresh account when there is none. *)
Definition account_of (self : PaymentsEngine.t) (client_id : N) : Account.t :=
  match PyDict.get (PaymentsEngine._clients self) client_id with
  | Some client => Client.account client
  | None => Account.init
  end.

(** ** The scenarios of the test suite *)

Example test_deposit_withdrawal_dispute_happy_path :
  output [deposit 1 100 10.0; deposit 1 101 20.0; deposit 2 201 10.0;
          withdrawal 1 102 5.0; dispute 2 201]
  = Ok ["client,available,held,total,locked";
        "1,25.0,0.0,25.0,false";
        "2,0.0,10.0,10.0,false"].
Proof. vm_compute. reflexivity. Qed.

Example test_resolve_pushes_money_back_to_available :
  output [deposit 1 100 10.0; dispute 1 100; resolve 1 100]
  = Ok ["client,available,held,total,locked"; "1,10.0,0.0,10.0,false"].
Proof. vm_compute. reflexivity. Qed.

Example test_dispute_possible_after_resolve :
  output [deposit 1 100 10.0; dispute 1 100; resolve 1 100; dispute 1 100]
  = Ok ["client,available,held,total,locked"; "1,0.0,10.0,10.0,false"].
Proof. vm_compute. reflexivity. Qed.

Example test_dispute_fails_if_wrong_transaction_id :
  output [deposit 1 100 10.0; dispute 1 101]
  = Ok ["client,available,held,total,locked"; "1,10.0,0.0,10.0,false"].
Proof. vm_compute. reflexivity. Qed.

Example test_resolve_fails_if_wrong_transaction_id_or_no_dispute :
  output [deposit 1 100 10.0; resolve 1 100; dispute 1 100; resolve 1 101;
          deposit 1 101 10.0]
  = Ok ["client,available,held,total,locked"; "1,10.0,10.0,20.0,false"].
Proof. vm_compute. reflexivity. Qed.

Example test_chargeback_fails_if_wrong_transaction_id_or_no_dispute :
  output [deposit 1 100 10.0; chargeback 1 100; dispute 1 100; chargeback 1 101;
          deposit 1 101 10.0]
  = Ok ["client,available,held,total,locked"; "1,10.0,10.0,20.0,false"].
Proof. vm_compute. reflexivity. Qed.

Example test_chargeback_withdraws_funds_and_locks_client :
  output [deposit 1 100 10.0; dispute 1 100; chargeback 1 100; deposit 1 101 20.0]
  = Ok ["client,available,held,total,locked"; "1,0.0,0.0,0.0,true"].
Proof. vm_compute. reflexivity. Qed.

Example test_withdrawal_or_dispute_fails_if_no_funds :
  output [withdrawal 1 100 15.0; deposit 1 100 10.0; withdrawal 1 101 15.0;
          deposit 2 200 10.0; withdrawal 2 201 5.0; dispute 2 200]
  = Ok ["client,available,held,total,locked";
        "1,10.0,0.0,10.0,false";
        "2,5.0,0.0,5.0,false"].
Proof. vm_compute. reflexivity. Qed.

Example test_deposits_and_withdrawals_fail_if_duplicated_transaction_id :
  output [deposit 1 100 10.0; withdrawal 1 100 5.0; deposit 2 100 10.0]
  = Ok ["client,available,held,total,locked";
        "1,10.0,0.0,10.0,false";
        "2,0.0,0.0,0.0,false"].
Proof. vm_compute. reflexivity. Qed.

Example test_deposits_and_withdrawals_fail_if_wrong_amount :
  output [deposit 1 100 10.0; withdrawal 1 101 (-5.0); deposit 2 102 (-10.0);
          deposit 3 103 0.0; withdrawal 1 101 0.0]
  = Ok ["client,available,held,total,locked"; "1,10.0,0.0,10.0,false"].
Proof. vm_compute. reflexivity. Qed.

Example test_correct_output_formatting :
  output [deposit 1 101 10.1; deposit 2 102 10.12; deposit 3 103 10.123;
          deposit 4 104 10.1234]
  = Ok ["client,available,held,total,locked";
        "1,10.1,0.0,10.1,false";
        "2,10.12,0.0,10.12,false";
        "3,10.123,0.0,10.123,false";
        "4,10.1234,0.0,10.1234,false"].
Proof. vm_compute. reflexivity. Qed.

(** A file that has its header only: the reader raises, nothing is written
    and nothing is logged. *)
Example run_of_a_file_without_rows : run [] = Raise IndexError.
Proof. reflexivity. Qed.

(** ** Dictionaries and lists *)

Lemma get_set_same {V : Type} (d : PyDict.t V) (k : N) (v : V) :
  PyDict.get (PyDict.set d k v) k = Some v.
Proof.
  induction d as [|[k' v'] d IH]; simpl.
  - now rewrite N.eqb_refl.
  - destruct (N.eqb k k') eqn:E; simpl; rewrite E; auto.
Qed.

Lemma get_set_other {V : Type} (d : PyDict.t V) (k k' : N) (v : V) :
  k' <> k -> PyDict.get (PyDict.set d k v) k' = PyDict.get d k'.
Proof.
  intros Hne. induction d as [|[k0 v0] d IH]; simpl.
  - apply N.eqb_neq in Hne. now rewrite Hne.
  - destruct (N.eqb k k0) eqn:E; simpl.
    + apply N.eqb_eq in E. subst k0.
      apply N.eqb_neq in Hne. now rewrite Hne.
    + now rewrite IH.
Qed.

Lemma set_get_same {V : Type} (d : PyDict.t V) (k : N) (v : V) :
  PyDict.get d k = Some v -> PyDict.set d k v = d.
Proof.
  induction d as [|[k' v'] d IH]; simpl; [discriminate|].
  destruct (N.eqb k k') eqn:E.
  - intros [= ->]. reflexivity.
  - intros H. now rewrite IH.
Qed.

Lemma set_clients_same (self : PaymentsEngine.t) :
  PaymentsEngine.set_clients self (PaymentsEngine._clients self) = self.
Proof. now destruct self. Qed.

Lemma resolve_client_known (self : PaymentsEngine.t) (client_id : N) (client : Client.t) :
  PyDict.get (PaymentsEngine._clients self) client_id = Some client ->
  PaymentsEngine.resolve_client self client_id = (self, client).
Proof.
  intros H. unfold PaymentsEngine.resolve_client, PyDict.setdefault.
  rewrite H. now rewrite set_clients_same.
Qed.

(** ** A locked account refuses everything *)

Lemma handle_transaction_locked
    (self : PaymentsEngine.t) (transaction : Transaction.t) (client : Client.t) :
  PyDict.get (PaymentsEngine._clients self) (Transaction.client_id transaction)
    = Some client ->
  Account.locked (Client.account client) = true ->
  PaymentsEngine._handle_transaction self transaction
  = Ok (self, logging.error "Client account is locked, could not perform operation").
Proof.
  intros Hget Hlocked. unfold PaymentsEngine._handle_transaction.
  rewrite (resolve_client_known _ _ _ Hget), Hlocked. reflexivity.
Qed.

(** C5. A record whose target account is locked is refused whatever its
    kind: the engine is left exactly as it was (ledger, disputed ids and
    every account), and the refusal is logged. *)
Theorem locked_account_refuses_every_record
    (self : PaymentsEngine.t) (transaction : Transaction.t) (client : Client.t) :
  PyDict.get (PaymentsEngine._clients self) (Transaction.client_id transaction)
    = Some client ->
  Account.locked (Client.account client) = true ->
  PaymentsEngine._handle_transaction self transaction
  = Ok (self, [(ERROR, "Client account is locked, could not perform operation")]).
Proof.
  intros Hget Hlocked. unfold PaymentsEngine._handle_transaction.
  rewrite (resolve_client_known _ _ _ Hget), Hlocked. reflexivity.
Qed.

(** ** The rules of an unlocked account *)

(** The tests on the kind of a record, once the kind is known. *)
Ltac kind_tests :=
  repeat match goal with
  | |- context [String.eqb ?a ?b] =>
      let v := eval vm_compute in (String.eqb a b) in
      match v with
      | true => change (String.eqb a b) with true
      | false => change (String.eqb a b) with false
      end
  end;
  cbv iota.

Ltac kind_tests_in H :=
  repeat match type of H with
  | context [String.eqb ?a ?b] =>
      let v := eval vm_compute in (String.eqb a b) in
      match v with
      | true => change (String.eqb a b) with true in H
      | false => change (String.eqb a b) with false in H
      end
  end;
  cbv iota in H.

Lemma handle_transaction_unlocked
    (self : PaymentsEngine.t) (transaction : Transaction.t) (client : Client.t) :
  PyDict.get (PaymentsEngine._clients self) (Transaction.client_id transaction)
    = Some client ->
  Account.locked (Client.account client) = false ->
  PaymentsEngine._handle_transaction self transaction
  = let type := Transaction.type transaction in
    if String.eqb type TransactionType.DEPOSIT then
      if PaymentsEngine._is_transaction_unique self (Transaction.id transaction)
      then PaymentsEngine._deposit self transaction client
      else Ok (self, logging.error "Duplicated transaction id")
    else if String.eqb type TransactionType.WITHDRAWAL then
      if PaymentsEngine._is_transaction_unique self (Transaction.id transaction)
      then PaymentsEngine._withdrawal self transaction client
      else Ok (self, logging.error "Duplicated transaction id")
    else if String.eqb type TransactionType.DISPUTE then
      PaymentsEngine._dispute self transaction client
    else if String.eqb type TransactionType.RESOLVE then
      PaymentsEngine._resolve self transaction client
    else if String.eqb type TransactionType.CHARGEBACK then
      PaymentsEngine._chargeback self transaction client
    else Ok (self, []).
Proof.
  intros Hget Hlocked. unfold PaymentsEngine._handle_transaction.
  rewrite (resolve_client_known _ _ _ Hget), Hlocked. reflexivity.
Qed.

Lemma set_changes_missing {V : Type} (d : PyDict.t V) (k : N) (v : V) :
  PyDict.get d k = None -> PyDict.set d k v <> d.
Proof.
  intros Hnone Heq.
  pose proof (get_set_same d k v) as H. rewrite Heq, Hnone in H. discriminate.
Qed.

Lemma append_changes (l : list N) (x : N) : PyList.append l x <> l.
Proof.
  unfold PyList.append. intros H. apply (f_equal (@List.length N)) in H.
  rewrite length_app in H. simpl in H. lia.
Qed.

Lemma remove_present (l : list N) (x : N) :
  PyList.contains l x = true -> PyList.remove l x = Ok (without_first l x).
Proof.
  unfold PyList.contains. induction l as [|y l IH]; simpl; [discriminate|].
  destruct (N.eqb x y); simpl; [reflexivity|].
  intros H. now rewrite (IH H).
Qed.

Lemma without_first_shorter (l : list N) (x : N) :
  PyList.contains l x = true -> S (List.length (without_first l x)) = List.length l.
Proof.
  unfold PyList.contains. induction l as [|y l IH]; simpl; [discriminate|].
  destruct (N.eqb x y); simpl; [reflexivity|].
  intros H. now rewrite (IH H).
Qed.

Lemma without_first_changes (l : list N) (x : N) :
  PyList.contains l x = true -> without_first l x <> l.
Proof.
  intros Hin Heq. apply without_first_shorter in Hin. rewrite Heq in Hin. lia.
Qed.

(** An accepted withdrawal of 1 from an account that has 2^54 available
    records its entry and leaves 2^54 available: the binary64 difference
    is rounded to the nearest number, which is 2^54 again. *)
Lemma withdrawal_of_one_leaves_available_as_it_was :
  let self := state_after [deposit 1 1 18014398509481984.0] in
  let transaction := withdrawal 1 2 1.0 in
  exists self',
    PaymentsEngine._handle_transaction self transaction = Ok (self', []) /\
    PyDict.get (PaymentsEngine._deposits_withdrawals self) 2 = None /\
    PyDict.get (PaymentsEngine._deposits_withdrawals self') 2 = Some transaction /\
    Account.locked (account_of self 1) = false /\
    Account.available (account_of self 1) = 18014398509481984.0%float /\
    Account.available (account_of self' 1) = 18014398509481984.0%float /\
    output [deposit 1 1 18014398509481984.0; withdrawal 1 2 1.0]
    = Ok ["client,available,held,total,locked";
          "1,1.8014398509481984e+16,0.0,1.8014398509481984e+16,false"].
Proof.
  cbv zeta. eexists. split; [vm_compute; reflexivity|].
  repeat split; vm_compute; reflexivity.
Qed.

(** C2, as the code has it.  A withdrawal on an unlocked account is accepted
    exactly when its id has no ledger entry and the available funds cover
    the amount.  Accepted, it is recorded in the ledger and [available]
    becomes the binary64 difference of [available] and the amount, the rest
    of the account and of the engine being as before; otherwise it is
    refused with a diagnostic, and the engine is unchanged. *)
Theorem withdrawal_rule
    (self : PaymentsEngine.t) (transaction : Transaction.t) (client : Client.t) :
  Transaction.type transaction = TransactionType.WITHDRAWAL ->
  PyDict.get (PaymentsEngine._clients self) (Transaction.client_id transaction)
    = Some client ->
  Account.locked (Client.account client) = false ->
  let ledger := PaymentsEngine._deposits_withdrawals self in
  let account := Client.account client in
  let amount := Transaction.amount transaction in
  let accepted :=
    {| PaymentsEngine._deposits_withdrawals :=
         PyDict.set ledger (Transaction.id transaction) transaction;
       PaymentsEngine._disputed_deposits_ids := PaymentsEngine._disputed_deposits_ids self;
       PaymentsEngine._clients :=
         PyDict.set (PaymentsEngine._clients self) (Transaction.client_id transaction)
           {| Client.id := Client.id client;
              Client.account :=
                {| Account.available := (Account.available account - amount)%float;
                   Account.held := Account.held account;
                   Account.locked := false |} |} |} in
  (PyDict.get ledger (Transaction.id transaction) = None /\
   (amount <=? Account.available account)%float = true ->
   PaymentsEngine._handle_transaction self transaction = Ok (accepted, []) /\
   accepted <> self) /\
  (~ (PyDict.get ledger (Transaction.id transaction) = None /\
      (amount <=? Account.available account)%float = true) ->
   PaymentsEngine._handle_transaction self transaction
   = Ok (self, [(ERROR, if PyDict.contains ledger (Transaction.id transaction)
                        then "Duplicated transaction id"
                        else "Not enough funds available")])).
Proof.
  intros Htype Hget Hlocked ledger account amount accepted.
  rewrite (handle_transaction_unlocked _ _ _ Hget Hlocked). cbv zeta.
  rewrite Htype.
  kind_tests.
  unfold PaymentsEngine._is_transaction_unique, PyDict.contains,
    PaymentsEngine._withdrawal, PaymentsEngine._are_enough_funds.
  fold ledger account amount. split.
  - intros [Hnone Hfunds]. rewrite Hnone, Hfunds. simpl. split.
    + unfold PaymentsEngine.store_account, PaymentsEngine.set_clients,
        Client.set_account, Account.set_available. simpl.
      unfold account. now rewrite Hlocked.
    + intros Heq. apply (f_equal PaymentsEngine._deposits_withdrawals) in Heq.
      simpl in Heq. exact (set_changes_missing _ _ _ Hnone Heq).
  - intros Hnot. destruct (PyDict.get ledger (Transaction.id transaction)) eqn:Hled.
    + reflexivity.
    + simpl. destruct (amount <=? Account.available account)%float eqn:Hfunds.
      * exfalso. apply Hnot. now split.
      * reflexivity.
Qed.

Lemma dispute_possible
    (self : PaymentsEngine.t) (transaction recorded : Transaction.t) (client : Client.t) :
  PyDict.get (PaymentsEngine._deposits_withdrawals self) (Transaction.id transaction)
    = Some recorded ->
  Transaction.client_id recorded = Transaction.client_id transaction ->
  PyList.contains (PaymentsEngine._disputed_deposits_ids self) (Transaction.id transaction)
    = false ->
  (Transaction.amount recorded <=? Account.available (Client.account client))%float = true ->
  PaymentsEngine._dispute self transaction client
  = Ok ({| PaymentsEngine._deposits_withdrawals := PaymentsEngine._deposits_withdrawals self;
           PaymentsEngine._disputed_deposits_ids :=
             PaymentsEngine._disputed_deposits_ids self ++ [Transaction.id transaction];
           PaymentsEngine._clients :=
             PyDict.set (PaymentsEngine._clients self) (Transaction.client_id transaction)
               (Client.set_account client
                  {| Account.available :=
                       (Account.available (Client.account client)
                        - Transaction.amount recorded)%float;
                     Account.held :=
                       (Account.held (Client.account client)
                        + Transaction.amount recorded)%float;
                     Account.locked := Account.locked (Client.account client) |}) |}, []).
Proof.
  intros Hled Hclient Hfree Hfunds.
  unfold PaymentsEngine._dispute, PaymentsEngine._is_transaction_disputable,
    PaymentsEngine._is_under_dispute, PaymentsEngine._is_client_correct,
    PaymentsEngine._are_enough_funds, PyDict.contains, PyDict.getitem.
  rewrite Hled, Hfree. simpl. rewrite Hclient, N.eqb_refl. simpl.
  rewrite Hfunds. reflexivity.
Qed.

Lemma dispute_impossible
    (self : PaymentsEngine.t) (transaction : Transaction.t) (client : Client.t) :
  (forall recorded,
     ~ (PyDict.get (PaymentsEngine._deposits_withdrawals self) (Transaction.id transaction)
          = Some recorded /\
        Transaction.client_id recorded = Transaction.client_id transaction /\
        PyList.contains (PaymentsEngine._disputed_deposits_ids self)
          (Transaction.id transaction) = false /\
        (Transaction.amount recorded
         <=? Account.available (Client.account client))%float = true)) ->
  PaymentsEngine._dispute self transaction client
    = Ok (self, logging.error "Dispute not possible") \/
  PaymentsEngine._dispute self transaction client = Ok (self, []).
Proof.
  intros Hnot.
  unfold PaymentsEngine._dispute, PaymentsEngine._is_transaction_disputable,
    PaymentsEngine._is_under_dispute, PaymentsEngine._is_client_correct,
    PaymentsEngine._are_enough_funds, PyDict.contains, PyDict.getitem.
  destruct (PyDict.get (PaymentsEngine._deposits_withdrawals self)
              (Transaction.id transaction)) as [recorded|] eqn:Hled; simpl; [|now left].
  destruct (PyList.contains (PaymentsEngine._disputed_deposits_ids self)
              (Transaction.id transaction)) eqn:Hfree; simpl; [now left|].
  destruct (N.eqb (Transaction.client_id transaction) (Transaction.client_id recorded))
    eqn:Hclient; simpl; [|now left].
  destruct (Transaction.amount recorded
            <=? Account.available (Client.account client))%float eqn:Hfunds;
    [|now right].
  exfalso. apply (Hnot recorded). apply N.eqb_eq in Hclient. auto.
Qed.

(** An accepted dispute of a deposit of 1, on an account that has 2^54
    available, adds 1 to [held] and leaves 2^54 available: the binary64
    difference is rounded to the nearest number, which is 2^54 again. *)
Lemma dispute_of_one_leaves_available_as_it_was :
  let self := state_after [deposit 1 1 18014398509481984.0; deposit 1 2 1.0] in
  exists self',
    PaymentsEngine._handle_transaction self (dispute 1 2) = Ok (self', []) /\
    PyDict.get (PaymentsEngine._deposits_withdrawals self) 2 = Some (deposit 1 2 1.0) /\
    PaymentsEngine._disputed_deposits_ids self = [] /\
    PaymentsEngine._disputed_deposits_ids self' = [2%N] /\
    account_of self 1
    = {| Account.available := 18014398509481984.0; Account.held := 0.0;
         Account.locked := false |} /\
    account_of self' 1
    = {| Account.available := 18014398509481984.0; Account.held := 1.0;
         Account.locked := false |} /\
    output [deposit 1 1 18014398509481984.0; deposit 1 2 1.0; dispute 1 2]
    = Ok ["client,available,held,total,locked";
          "1,1.8014398509481984e+16,1.0,1.8014398509481984e+16,false"].
Proof.
  cbv zeta. eexists. split; [vm_compute; reflexivity|].
  repeat split; vm_compute; reflexivity.
Qed.

(** C1, as the code has it.  A dispute on an unlocked account is accepted
    exactly when (a) the referenced id has a ledger entry, (b) recorded for
    the same client, (c) not already under dispute, and (d) the available
    funds cover the entry's amount.  Accepted, the id joins the disputed
    ids, [available] becomes the binary64 difference of [available] and the
    amount and [held] the binary64 sum of [held] and the amount, the rest of
    the account and of the engine being as before; otherwise the engine is
    unchanged: there is no partial effect. *)
Theorem dispute_rule
    (self : PaymentsEngine.t) (transaction : Transaction.t) (client : Client.t) :
  Transaction.type transaction = TransactionType.DISPUTE ->
  PyDict.get (PaymentsEngine._clients self) (Transaction.client_id transaction)
    = Some client ->
  Account.locked (Client.account client) = false ->
  let ledger := PaymentsEngine._deposits_withdrawals self in
  let disputed := PaymentsEngine._disputed_deposits_ids self in
  let account := Client.account client in
  let possible (recorded : Transaction.t) :=
    PyDict.get ledger (Transaction.id transaction) = Some recorded /\
    Transaction.client_id recorded = Transaction.client_id transaction /\
    PyList.contains disputed (Transaction.id transaction) = false /\
    (Transaction.amount recorded <=? Account.available account)%float = true in
  let accepted (recorded : Transaction.t) :=
    {| PaymentsEngine._deposits_withdrawals := ledger;
       PaymentsEngine._disputed_deposits_ids := disputed ++ [Transaction.id transaction];
       PaymentsEngine._clients :=
         PyDict.set (PaymentsEngine._clients self) (Transaction.client_id transaction)
           {| Client.id := Client.id client;
              Client.account :=
                {| Account.available :=
                     (Account.available account - Transaction.amount recorded)%float;
                   Account.held :=
                     (Account.held account + Transaction.amount recorded)%float;
                   Account.locked := false |} |} |} in
  (forall recorded, possible recorded ->
     PaymentsEngine._handle_transaction self transaction = Ok (accepted recorded, []) /\
     accepted recorded <> self) /\
  ((forall recorded, ~ possible recorded) ->
     PaymentsEngine._handle_transaction self transaction
       = Ok (self, [(ERROR, "Dispute not possible")]) \/
     PaymentsEngine._handle_transaction self transaction = Ok (self, [])).
Proof.
  intros Htype Hget Hlocked ledger disputed account possible accepted.
  rewrite (handle_transaction_unlocked _ _ _ Hget Hlocked). cbv zeta.
  rewrite Htype.
  kind_tests. split.
  - intros recorded (Hled & Hclient & Hfree & Hfunds). split.
    + rewrite (dispute_possible _ _ _ _ Hled Hclient Hfree Hfunds).
      unfold accepted, Client.set_account, account. now rewrite Hlocked.
    + intros Heq. apply (f_equal PaymentsEngine._disputed_deposits_ids) in Heq.
      simpl in Heq. exact (append_changes _ _ Heq).
  - intros Hnot. exact (dispute_impossible self transaction client Hnot).
Qed.

Lemma contains_In (l : list N) (x : N) : PyList.contains l x = true <-> In x l.
Proof.
  unfold PyList.contains. rewrite existsb_exists. split.
  - intros (y & Hy & E). apply N.eqb_eq in E. now subst.
  - intros H. exists x. split; [assumption | apply N.eqb_refl].
Qed.

Lemma recorded_dispute (self : PaymentsEngine.t) (id : N) :
  disputes_recorded self = true ->
  PyList.contains (PaymentsEngine._disputed_deposits_ids self) id = true ->
  exists recorded,
    PyDict.get (PaymentsEngine._deposits_withdrawals self) id = Some recorded.
Proof.
  unfold disputes_recorded. rewrite forallb_forall. intros Hall Hin.
  apply contains_In in Hin. specialize (Hall id Hin).
  unfold PyDict.contains in Hall.
  destruct (PyDict.get (PaymentsEngine._deposits_withdrawals self) id) as [recorded|];
    [now exists recorded | discriminate].
Qed.

Lemma without_first_not_In (l : list N) (x y : N) :
  ~ In y l -> ~ In y (without_first l x).
Proof.
  induction l as [|z l IH]; simpl; [auto|].
  intros Hnot. destruct (N.eqb x z); simpl; intuition.
Qed.

Lemma without_first_NoDup (l : list N) (x : N) :
  NoDup l -> NoDup (without_first l x) /\ ~ In x (without_first l x).
Proof.
  induction 1 as [|y l Hy Hl IH]; simpl.
  - split; [constructor | auto].
  - destruct (N.eqb x y) eqn:E.
    + apply N.eqb_eq in E. subst y. now split.
    + apply N.eqb_neq in E. destruct IH as [IH1 IH2]. split.
      * constructor; [now apply without_first_not_In | assumption].
      * simpl. intros [H|H]; [now apply E | now apply IH2].
Qed.

Lemma chargeback_possible
    (self : PaymentsEngine.t) (transaction recorded : Transaction.t) (client : Client.t) :
  PyList.contains (PaymentsEngine._disputed_deposits_ids self) (Transaction.id transaction)
    = true ->
  PyDict.get (PaymentsEngine._deposits_withdrawals self) (Transaction.id transaction)
    = Some recorded ->
  Transaction.client_id recorded = Transaction.client_id transaction ->
  PaymentsEngine._chargeback self transaction client
  = Ok ({| PaymentsEngine._deposits_withdrawals := PaymentsEngine._deposits_withdrawals self;
           PaymentsEngine._disputed_deposits_ids :=
             without_first (PaymentsEngine._disputed_deposits_ids self)
               (Transaction.id transaction);
           PaymentsEngine._clients :=
             PyDict.set (PaymentsEngine._clients self) (Transaction.client_id transaction)
               (Client.set_account client
                  {| Account.available := Account.available (Client.account client);
                     Account.held :=
                       (Account.held (Client.account client)
                        - Transaction.amount recorded)%float;
                     Account.locked := true |}) |}, []).
Proof.
  intros Hin Hled Hclient.
  unfold PaymentsEngine._chargeback, PaymentsEngine._is_under_dispute,
    PaymentsEngine._is_client_correct, PyDict.getitem.
  rewrite Hin, Hled. simpl. rewrite Hclient, N.eqb_refl. simpl.
  rewrite (remove_present _ _ Hin). simpl. rewrite Hled. reflexivity.
Qed.

Lemma resolve_possible
    (self : PaymentsEngine.t) (transaction recorded : Transaction.t) (client : Client.t) :
  PyList.contains (PaymentsEngine._disputed_deposits_ids self) (Transaction.id transaction)
    = true ->
  PyDict.get (PaymentsEngine._deposits_withdrawals self) (Transaction.id transaction)
    = Some recorded ->
  Transaction.client_id recorded = Transaction.client_id transaction ->
  PaymentsEngine._resolve self transaction client
  = Ok ({| PaymentsEngine._deposits_withdrawals := PaymentsEngine._deposits_withdrawals self;
           PaymentsEngine._disputed_deposits_ids :=
             without_first (PaymentsEngine._disputed_deposits_ids self)
               (Transaction.id transaction);
           PaymentsEngine._clients :=
             PyDict.set (PaymentsEngine._clients self) (Transaction.client_id transaction)
               (Client.set_account client
                  {| Account.available :=
                       (Account.available (Client.account client)
                        + Transaction.amount recorded)%float;
                     Account.held :=
                       (Account.held (Client.account client)
                        - Transaction.amount recorded)%float;
                     Account.locked := Account.locked (Client.account client) |}) |}, []).
Proof.
  intros Hin Hled Hclient.
  unfold PaymentsEngine._resolve, PaymentsEngine._is_under_dispute,
    PaymentsEngine._is_client_correct, PyDict.getitem.
  rewrite Hin, Hled. simpl. rewrite Hclient, N.eqb_refl. simpl.
  rewrite (remove_present _ _ Hin). simpl. rewrite Hled. reflexivity.
Qed.

(** Without an active dispute of the id recorded for the same client,
    [_resolve] and [_chargeback] leave the engine as it is and log why. *)
Lemma settlement_impossible
    (self : PaymentsEngine.t) (transaction : Transaction.t) (client : Client.t) :
  disputes_recorded self = true ->
  (forall recorded,
     ~ (PyList.contains (PaymentsEngine._disputed_deposits_ids self)
          (Transaction.id transaction) = true /\
        PyDict.get (PaymentsEngine._deposits_withdrawals self) (Transaction.id transaction)
          = Some recorded /\
        Transaction.client_id recorded = Transaction.client_id transaction)) ->
  PaymentsEngine._resolve self transaction client
    = Ok (self, logging.error "Resolve not possible") /\
  PaymentsEngine._chargeback self transaction client
    = Ok (self, logging.error "Chargeback not possible").
Proof.
  intros Hrec Hnot.
  unfold PaymentsEngine._resolve, PaymentsEngine._chargeback,
    PaymentsEngine._is_under_dispute, PaymentsEngine._is_client_correct, PyDict.getitem.
  destruct (PyList.contains (PaymentsEngine._disputed_deposits_ids self)
              (Transaction.id transaction)) eqn:Hin; simpl; [|now split].
  destruct (recorded_dispute _ _ Hrec Hin) as [recorded Hled]. rewrite Hled. simpl.
  destruct (N.eqb (Transaction.client_id transaction) (Transaction.client_id recorded))
    eqn:Hclient; simpl; [|now split].
  exfalso. apply (Hnot recorded). apply N.eqb_eq in Hclient. auto.
Qed.

(** Whether an active dispute of the id, recorded for the same client, is there. *)
Lemma settlement_decision (self : PaymentsEngine.t) (transaction : Transaction.t) :
  disputes_recorded self = true ->
  (exists recorded,
     PyList.contains (PaymentsEngine._disputed_deposits_ids self)
       (Transaction.id transaction) = true /\
     PyDict.get (PaymentsEngine._deposits_withdrawals self) (Transaction.id transaction)
       = Some recorded /\
     Transaction.client_id recorded = Transaction.client_id transaction) \/
  (forall recorded,
     ~ (PyList.contains (PaymentsEngine._disputed_deposits_ids self)
          (Transaction.id transaction) = true /\
        PyDict.get (PaymentsEngine._deposits_withdrawals self) (Transaction.id transaction)
          = Some recorded /\
        Transaction.client_id recorded = Transaction.client_id transaction)).
Proof.
  intros Hrec.
  destruct (PyList.contains (PaymentsEngine._disputed_deposits_ids self)
              (Transaction.id transaction)) eqn:Hin;
    [|right; intros r (H & _); discriminate].
  destruct (recorded_dispute _ _ Hrec Hin) as [recorded Hled].
  destruct (N.eq_dec (Transaction.client_id recorded) (Transaction.client_id transaction))
    as [Hclient|Hclient].
  - left. now exists recorded.
  - right. intros r (_ & H2 & H3). congruence.
Qed.

(** An accepted chargeback of a deposit of 1, on an account that holds
    2^54, locks the account and leaves 2^54 held: the binary64 difference
    is rounded to the nearest number, which is 2^54 again. *)
Lemma chargeback_of_one_leaves_held_as_it_was :
  let self :=
    state_after [deposit 1 1 18014398509481984.0; dispute 1 1; deposit 1 2 1.0;
                 dispute 1 2] in
  exists self',
    PaymentsEngine._handle_transaction self (chargeback 1 2) = Ok (self', []) /\
    PyDict.get (PaymentsEngine._deposits_withdrawals self) 2 = Some (deposit 1 2 1.0) /\
    PaymentsEngine._disputed_deposits_ids self = [1%N; 2%N] /\
    PaymentsEngine._disputed_deposits_ids self' = [1%N] /\
    account_of self 1
    = {| Account.available := 0.0; Account.held := 18014398509481984.0;
         Account.locked := false |} /\
    account_of self' 1
    = {| Account.available := 0.0; Account.held := 18014398509481984.0;
         Account.locked := true |} /\
    output [deposit 1 1 18014398509481984.0; dispute 1 1; deposit 1 2 1.0;
            dispute 1 2; chargeback 1 2]
    = Ok ["client,available,held,total,locked";
          "1,0.0,1.8014398509481984e+16,1.8014398509481984e+16,true"].
Proof.
  cbv zeta. eexists. split; [vm_compute; reflexivity|].
  repeat split; vm_compute; reflexivity.
Qed.

(** C3, as the code has it.  A chargeback on an unlocked account is accepted
    exactly when the referenced id is under active dispute and its ledger
    entry was recorded for the same client.  Accepted, the id leaves the
    disputed ids, [held] becomes the binary64 difference of [held] and the
    entry's amount, whatever [held] is, and the account is locked, the rest
    of the account and of the engine being as before; otherwise the record
    is refused, with a diagnostic, and the engine is unchanged. *)
Theorem chargeback_rule
    (self : PaymentsEngine.t) (transaction : Transaction.t) (client : Client.t) :
  disputes_recorded self = true ->
  Transaction.type transaction = TransactionType.CHARGEBACK ->
  PyDict.get (PaymentsEngine._clients self) (Transaction.client_id transaction)
    = Some client ->
  Account.locked (Client.account client) = false ->
  let ledger := PaymentsEngine._deposits_withdrawals self in
  let disputed := PaymentsEngine._disputed_deposits_ids self in
  let account := Client.account client in
  let possible (recorded : Transaction.t) :=
    PyList.contains disputed (Transaction.id transaction) = true /\
    PyDict.get ledger (Transaction.id transaction) = Some recorded /\
    Transaction.client_id recorded = Transaction.client_id transaction in
  let accepted (recorded : Transaction.t) :=
    {| PaymentsEngine._deposits_withdrawals := ledger;
       PaymentsEngine._disputed_deposits_ids :=
         without_first disputed (Transaction.id transaction);
       PaymentsEngine._clients :=
         PyDict.set (PaymentsEngine._clients self) (Transaction.client_id transaction)
           {| Client.id := Client.id client;
              Client.account :=
                {| Account.available := Account.available account;
                   Account.held :=
                     (Account.held account - Transaction.amount recorded)%float;
                   Account.locked := true |} |} |} in
  (forall recorded, possible recorded ->
     PaymentsEngine._handle_transaction self transaction = Ok (accepted recorded, []) /\
     accepted recorded <> self) /\
  ((forall recorded, ~ possible recorded) ->
     PaymentsEngine._handle_transaction self transaction
     = Ok (self, [(ERROR, "Chargeback not possible")])).
Proof.
  intros Hrec Htype Hget Hlocked ledger disputed account possible accepted.
  rewrite (handle_transaction_unlocked _ _ _ Hget Hlocked). cbv zeta.
  rewrite Htype.
  kind_tests. split.
  - intros recorded (Hin & Hled & Hclient). split.
    + exact (chargeback_possible _ _ _ _ Hin Hled Hclient).
    + intros Heq. apply (f_equal PaymentsEngine._disputed_deposits_ids) in Heq.
      simpl in Heq. exact (without_first_changes _ _ Hin Heq).
  - intros Hnot. exact (proj2 (settlement_impossible self transaction client Hrec Hnot)).
Qed.

(** ** Every record is handled, by one of the transitions *)

Lemma resolve_client_spec (self : PaymentsEngine.t) (client_id : N) :
  let self1 := fst (PaymentsEngine.resolve_client self client_id) in
  let client := snd (PaymentsEngine.resolve_client self client_id) in
  PaymentsEngine._deposits_withdrawals self1 = PaymentsEngine._deposits_withdrawals self /\
  PaymentsEngine._disputed_deposits_ids self1 = PaymentsEngine._disputed_deposits_ids self /\
  PyDict.get (PaymentsEngine._clients self1) client_id = Some client /\
  (forall k, k <> client_id ->
     PyDict.get (PaymentsEngine._clients self1) k
     = PyDict.get (PaymentsEngine._clients self) k) /\
  (PyDict.get (PaymentsEngine._clients self) client_id = Some client /\ self1 = self \/
   PyDict.get (PaymentsEngine._clients self) client_id = None /\
   client = Client.init client_id).
Proof.
  unfold PaymentsEngine.resolve_client, PyDict.setdefault.
  destruct (PyDict.get (PaymentsEngine._clients self) client_id) as [c|] eqn:Hget; simpl.
  - rewrite set_clients_same. repeat split; auto.
  - repeat split; auto using get_set_same, get_set_other.
Qed.

(** The engine handles a record as it handles it once the account of its
    client is there. *)
Lemma handle_transaction_resolved (self : PaymentsEngine.t) (transaction : Transaction.t) :
  PaymentsEngine._handle_transaction self transaction
  = PaymentsEngine._handle_transaction
      (fst (PaymentsEngine.resolve_client self (Transaction.client_id transaction)))
      transaction.
Proof.
  pose proof (resolve_client_spec self (Transaction.client_id transaction)) as H.
  cbv zeta in H. destruct H as (_ & _ & Hget & _).
  unfold PaymentsEngine._handle_transaction at 2.
  rewrite (resolve_client_known _ _ _ Hget).
  unfold PaymentsEngine._handle_transaction.
  now destruct (PaymentsEngine.resolve_client self (Transaction.client_id transaction)).
Qed.

Lemma handle_transaction_known_effect
    (self : PaymentsEngine.t) (transaction : Transaction.t) (client : Client.t) :
  disputes_recorded self = true ->
  PyDict.get (PaymentsEngine._clients self) (Transaction.client_id transaction)
    = Some client ->
  exists self' log,
    PaymentsEngine._handle_transaction self transaction = Ok (self', log) /\
    effect self transaction client self'.
Proof.
  intros Hrec Hget.
  destruct (Account.locked (Client.account client)) eqn:Hlocked.
  { rewrite (handle_transaction_locked _ _ _ Hget Hlocked).
    do 2 eexists. split; [reflexivity | constructor]. }
  rewrite (handle_transaction_unlocked _ _ _ Hget Hlocked). cbv zeta.
  destruct (String.eqb (Transaction.type transaction) TransactionType.DEPOSIT) eqn:Ed.
  { apply String.eqb_eq in Ed.
    unfold PaymentsEngine._is_transaction_unique, PyDict.contains.
    destruct (PyDict.get (PaymentsEngine._deposits_withdrawals self)
                (Transaction.id transaction)) eqn:Hled; simpl.
    - do 2 eexists. split; [reflexivity | constructor].
    - do 2 eexists. split; [reflexivity | now apply effect_deposit]. }
  destruct (String.eqb (Transaction.type transaction) TransactionType.WITHDRAWAL) eqn:Ew.
  { apply String.eqb_eq in Ew.
    unfold PaymentsEngine._is_transaction_unique, PyDict.contains,
      PaymentsEngine._withdrawal, PaymentsEngine._are_enough_funds.
    destruct (PyDict.get (PaymentsEngine._deposits_withdrawals self)
                (Transaction.id transaction)) eqn:Hled; simpl.
    - do 2 eexists. split; [reflexivity | constructor].
    - destruct (Transaction.amount transaction
                <=? Account.available (Client.account client))%float eqn:Hfunds.
      + do 2 eexists. split; [reflexivity | now apply effect_withdrawal].
      + do 2 eexists. split; [reflexivity | constructor]. }
  destruct (String.eqb (Transaction.type transaction) TransactionType.DISPUTE) eqn:Ei.
  { apply String.eqb_eq in Ei.
    destruct (PyDict.get (PaymentsEngine._deposits_withdrawals self)
                (Transaction.id transaction)) as [recorded|] eqn:Hled.
    2:{ destruct (dispute_impossible self transaction client) as [H|H].
        - intros recorded (H & _). congruence.
        - rewrite H. do 2 eexists. split; [reflexivity | constructor].
        - rewrite H. do 2 eexists. split; [reflexivity | constructor]. }
    destruct (N.eq_dec (Transaction.client_id recorded) (Transaction.client_id transaction))
      as [Hclient|Hclient].
    2:{ destruct (dispute_impossible self transaction client) as [H|H].
        - intros r (H1 & H2 & _). congruence.
        - rewrite H. do 2 eexists. split; [reflexivity | constructor].
        - rewrite H. do 2 eexists. split; [reflexivity | constructor]. }
    destruct (PyList.contains (PaymentsEngine._disputed_deposits_ids self)
                (Transaction.id transaction)) eqn:Hin.
    { destruct (dispute_impossible self transaction client) as [H|H].
      - intros r (_ & _ & H3 & _). congruence.
      - rewrite H. do 2 eexists. split; [reflexivity | constructor].
      - rewrite H. do 2 eexists. split; [reflexivity | constructor]. }
    destruct (Transaction.amount recorded
              <=? Account.available (Client.account client))%float eqn:Hfunds.
    - rewrite (dispute_possible _ _ _ _ Hled Hclient Hin Hfunds).
      do 2 eexists. split; [reflexivity | now apply effect_dispute].
    - destruct (dispute_impossible self transaction client) as [H|H].
      + intros r (H1 & _ & _ & H4). congruence.
      + rewrite H. do 2 eexists. split; [reflexivity | constructor].
      + rewrite H. do 2 eexists. split; [reflexivity | constructor]. }
  pose proof (settlement_decision self transaction Hrec) as Hsettle.
  destruct (String.eqb (Transaction.type transaction) TransactionType.RESOLVE) eqn:Er.
  { apply String.eqb_eq in Er. destruct Hsettle as [(recorded & Hin & Hled & Hclient)|Hnot].
    - rewrite (resolve_possible _ _ _ _ Hin Hled Hclient).
      do 2 eexists. split; [reflexivity | now apply effect_resolve].
    - rewrite (proj1 (settlement_impossible self transaction client Hrec Hnot)).
      do 2 eexists. split; [reflexivity | constructor]. }
  destruct (String.eqb (Transaction.type transaction) TransactionType.CHARGEBACK) eqn:Ec.
  { apply String.eqb_eq in Ec. destruct Hsettle as [(recorded & Hin & Hled & Hclient)|Hnot].
    - rewrite (chargeback_possible _ _ _ _ Hin Hled Hclient).
      do 2 eexists. split; [reflexivity | now apply effect_chargeback].
    - rewrite (proj2 (settlement_impossible self transaction client Hrec Hnot)).
      do 2 eexists. split; [reflexivity | constructor]. }
  do 2 eexists. split; [reflexivity | constructor].
Qed.

Lemma resolve_client_disputes_recorded (self : PaymentsEngine.t) (client_id : N) :
  disputes_recorded (fst (PaymentsEngine.resolve_client self client_id))
  = disputes_recorded self.
Proof.
  pose proof (resolve_client_spec self client_id) as H. cbv zeta in H.
  destruct H as (Hled & Hdis & _). unfold disputes_recorded. now rewrite Hled, Hdis.
Qed.

Lemma handle_transaction_effect (self : PaymentsEngine.t) (transaction : Transaction.t) :
  disputes_recorded self = true ->
  exists self' log,
    PaymentsEngine._handle_transaction self transaction = Ok (self', log) /\
    effect (fst (PaymentsEngine.resolve_client self (Transaction.client_id transaction)))
      transaction
      (snd (PaymentsEngine.resolve_client self (Transaction.client_id transaction)))
      self'.
Proof.
  intros Hrec. rewrite handle_transaction_resolved.
  apply handle_transaction_known_effect.
  - now rewrite resolve_client_disputes_recorded.
  - pose proof (resolve_client_spec self (Transaction.client_id transaction)) as H.
    cbv zeta in H. now destruct H as (_ & _ & Hget & _).
Qed.

(** ** The invariant holds in every reachable engine *)

Lemma contains_set_mono {V : Type} (d : PyDict.t V) (k k' : N) (v : V) :
  PyDict.contains d k' = true -> PyDict.contains (PyDict.set d k v) k' = true.
Proof.
  unfold PyDict.contains. destruct (N.eq_dec k' k) as [->|Hne].
  - now rewrite get_set_same.
  - now rewrite get_set_other.
Qed.

Lemma contains_set_same {V : Type} (d : PyDict.t V) (k : N) (v : V) :
  PyDict.contains (PyDict.set d k v) k = true.
Proof. unfold PyDict.contains. now rewrite get_set_same. Qed.

Lemma NoDup_append (l : list N) (x : N) :
  NoDup l -> ~ In x l -> NoDup (PyList.append l x).
Proof.
  unfold PyList.append. induction 1 as [|y l Hy Hl IH]; simpl; intros Hx.
  - constructor; [auto | constructor].
  - constructor.
    + rewrite in_app_iff. simpl. intuition.
    + apply IH. intuition.
Qed.

Lemma without_first_In (l : list N) (x y : N) :
  In y (without_first l x) -> In y l.
Proof.
  induction l as [|z l IH]; simpl; [auto|].
  destruct (N.eqb x z); simpl; intuition.
Qed.

Lemma valid_recorded (transaction : Transaction.t) :
  TransactionValidator.is_valid transaction = true ->
  Transaction.type transaction = TransactionType.DEPOSIT \/
  Transaction.type transaction = TransactionType.WITHDRAWAL ->
  (0 <? Transaction.amount transaction)%float = true /\
  str_in (Transaction.type transaction)
    [TransactionType.DEPOSIT; TransactionType.WITHDRAWAL] = true.
Proof.
  unfold TransactionValidator.is_valid, TransactionValidator._is_greater_than_zero.
  intros Hvalid Htype. apply andb_true_iff in Hvalid. destruct Hvalid as [_ Hpos].
  assert (Hin : str_in (Transaction.type transaction)
                  [TransactionType.DEPOSIT; TransactionType.WITHDRAWAL] = true)
    by (destruct Htype as [-> | ->]; reflexivity).
  rewrite Hin in Hpos. now split.
Qed.

Lemma well_formed_init : well_formed PaymentsEngine.init.
Proof.
  split; simpl; try discriminate.
  - constructor.
  - reflexivity.
Qed.

Lemma well_formed_resolve_client (self : PaymentsEngine.t) (client_id : N) :
  well_formed self -> well_formed (fst (PaymentsEngine.resolve_client self client_id)).
Proof.
  intros [Hnd Hrec Hent Hcl].
  pose proof (resolve_client_spec self client_id) as H. cbv zeta in H.
  destruct H as (Hled & Hdis & Hget & Hother & _). split.
  - now rewrite Hdis.
  - now rewrite resolve_client_disputes_recorded.
  - rewrite Hled. exact Hent.
  - rewrite Hled. intros id recorded Hid. specialize (Hcl id recorded Hid).
    unfold PyDict.contains in *.
    destruct (N.eq_dec (Transaction.client_id recorded) client_id) as [->|Hne].
    + now rewrite Hget.
    + now rewrite Hother.
Qed.

Lemma disputes_recorded_In (self : PaymentsEngine.t) :
  disputes_recorded self = true <->
  (forall id, In id (PaymentsEngine._disputed_deposits_ids self) ->
     PyDict.contains (PaymentsEngine._deposits_withdrawals self) id = true).
Proof. unfold disputes_recorded. apply forallb_forall. Qed.

Lemma well_formed_effect
    (self self' : PaymentsEngine.t) (transaction : Transaction.t) (client : Client.t) :
  TransactionValidator.is_valid transaction = true ->
  effect self transaction client self' ->
  well_formed self -> well_formed self'.
Proof.
  intros Hvalid Heff [Hnd Hrec Hent Hcl].
  pose proof (proj1 (disputes_recorded_In self) Hrec) as Hrec'.
  destruct Heff as [ | Htype Hlocked Hnone | Htype Hlocked Hnone Hfunds
                   | recorded Htype Hlocked Hled Hclient Hfree Hfunds
                   | recorded Htype Hlocked Hin Hled Hclient
                   | recorded Htype Hlocked Hin Hled Hclient ].
  - now split.
  - split; simpl.
    + assumption.
    + apply disputes_recorded_In. simpl. intros id Hid.
      apply contains_set_mono. auto.
    + intros id recorded.
      destruct (N.eq_dec id (Transaction.id transaction)) as [->|Hne].
      * rewrite get_set_same. intros [= <-]. split; [reflexivity|].
        apply valid_recorded; auto.
      * rewrite get_set_other by assumption. apply Hent.
    + intros id recorded.
      destruct (N.eq_dec id (Transaction.id transaction)) as [->|Hne].
      * rewrite get_set_same. intros [= <-]. apply contains_set_same.
      * rewrite get_set_other by assumption. intros Hid.
        apply contains_set_mono. eauto.
  - split; simpl.
    + assumption.
    + apply disputes_recorded_In. simpl. intros id Hid.
      apply contains_set_mono. auto.
    + intros id recorded.
      destruct (N.eq_dec id (Transaction.id transaction)) as [->|Hne].
      * rewrite get_set_same. intros [= <-]. split; [reflexivity|].
        apply valid_recorded; auto.
      * rewrite get_set_other by assumption. apply Hent.
    + intros id recorded.
      destruct (N.eq_dec id (Transaction.id transaction)) as [->|Hne].
      * rewrite get_set_same. intros [= <-]. apply contains_set_same.
      * rewrite get_set_other by assumption. intros Hid.
        apply contains_set_mono. eauto.
  - split; simpl.
    + apply NoDup_append; [assumption|].
      intros Hin. apply contains_In in Hin. congruence.
    + apply disputes_recorded_In. simpl. intros id Hid.
      apply in_app_iff in Hid. destruct Hid as [Hid|[<-|[]]]; [auto|].
      unfold PyDict.contains. now rewrite Hled.
    + exact Hent.
    + intros id r Hid. apply contains_set_mono. eauto.
  - split; simpl.
    + now apply without_first_NoDup.
    + apply disputes_recorded_In. simpl. intros id Hid.
      apply Hrec'. eapply without_first_In; eauto.
    + exact Hent.
    + intros id r Hid. apply contains_set_mono. eauto.
  - split; simpl.
    + now apply without_first_NoDup.
    + apply disputes_recorded_In. simpl. intros id Hid.
      apply Hrec'. eapply without_first_In; eauto.
    + exact Hent.
    + intros id r Hid. apply contains_set_mono. eauto.
Qed.

Lemma well_formed_handle_transaction
    (self self' : PaymentsEngine.t) (transaction : Transaction.t) (log : list log_record) :
  TransactionValidator.is_valid transaction = true ->
  PaymentsEngine._handle_transaction self transaction = Ok (self', log) ->
  well_formed self -> well_formed self'.
Proof.
  intros Hvalid Hrun Hwf.
  destruct (handle_transaction_effect self transaction (wf_disputes_recorded _ Hwf))
    as (self'' & log' & Hrun' & Heff).
  rewrite Hrun in Hrun'. injection Hrun' as <- <-.
  eapply well_formed_effect; eauto using well_formed_resolve_client.
Qed.

Lemma reachable_well_formed (self : PaymentsEngine.t) :
  reachable self -> well_formed self.
Proof.
  induction 1 as [|self self' record log _ IH Hvalid Hrun].
  - exact well_formed_init.
  - eapply well_formed_handle_transaction; eauto.
Qed.

(** No record makes a reachable engine raise: the run goes on to the next record. *)
Lemma reachable_handles_every_record
    (self : PaymentsEngine.t) (transaction : Transaction.t) :
  reachable self ->
  exists self' log, PaymentsEngine._handle_transaction self transaction = Ok (self', log).
Proof.
  intros Hreach.
  destruct (handle_transaction_effect self transaction
              (wf_disputes_recorded _ (reachable_well_formed _ Hreach)))
    as (self' & log & Hrun & _).
  eauto.
Qed.

Lemma handle_all_reachable
    (records : list Transaction.t) (self : PaymentsEngine.t) :
  reachable self ->
  exists self' log,
    PaymentsEngine.handle_all self records = Ok (self', log) /\ reachable self'.
Proof.
  revert self. induction records as [|record records IH]; intros self Hreach; simpl.
  - eauto.
  - destruct (TransactionValidator.is_valid record) eqn:Hvalid; [|auto].
    destruct (reachable_handles_every_record self record Hreach) as (self1 & log1 & Hrun).
    rewrite Hrun. simpl.
    destruct (IH self1) as (self2 & log2 & Hrest & Hreach2).
    + eapply reachable_step; eauto.
    + rewrite Hrest. simpl. eauto.
Qed.

Lemma append_assoc (a b c : string) : (a ++ b) ++ c = a ++ b ++ c.
Proof. induction a as [|x a IH]; simpl; [reflexivity | now rewrite IH]. Qed.

(** The line of an account is the text that [Client.get_balance] composes. *)
Lemma get_balance_line (client : Client.t) :
  Client.get_balance client = balance_line client.
Proof.
  unfold Client.get_balance, Account.get_balance, Account.total, balance_line.
  rewrite append_assoc.
  now destruct (Account.locked (Client.account client)).
Qed.

(** The run on a file that has rows completes with a report: the header,
    the line of each account in the order of the dictionary, and in the log
    what the records have logged, then the reader's last word. *)
Lemma run_of_rows (rows : list Transaction.t) :
  rows <> [] ->
  exists self log,
    PaymentsEngine.handle_all PaymentsEngine.init rows = Ok (self, log) /\
    reachable self /\
    run rows
    = Ok (header_line :: map balance_line (PyDict.values (PaymentsEngine._clients self)),
          (log ++ [(INFO, "All transactions processed")])%list).
Proof.
  intros Hrows.
  destruct (handle_all_reachable rows PaymentsEngine.init reachable_init)
    as (self & log & Hrun & Hreach).
  exists self, log. split; [exact Hrun|]. split; [exact Hreach|].
  unfold run, CsvTransactionsReader.get, CsvTransactionsReader._get_record_from_file.
  destruct rows as [|row rows]; [contradiction|].
  cbn [bind fst snd]. rewrite Hrun. cbn [bind fst snd].
  unfold ClientsBalancesReporter.get_balances.
  now rewrite (map_ext _ _ get_balance_line).
Qed.

Lemma state_after_reachable (records : list Transaction.t) :
  reachable (state_after records).
Proof.
  unfold state_after.
  destruct (handle_all_reachable records PaymentsEngine.init reachable_init)
    as (self & log & Hrun & Hreach).
  now rewrite Hrun.
Qed.

(** ** Binary64 arithmetic

    The primitive operations are specified by their effect on [spec_float]:
    the facts below are read off the IEEE 754 definitions of [SFsub],
    [SFadd] and [SFcompare]. *)

Lemma digits2_pos_bounds (m : positive) :
  (2 ^ (Zpos (digits2_pos m) - 1) <= Zpos m < 2 ^ Zpos (digits2_pos m))%Z.
Proof.
  induction m as [m IH|m IH|]; simpl digits2_pos.
  - rewrite Pos2Z.inj_succ. change (Zpos m~1) with (2 * Zpos m + 1)%Z.
    replace (Z.succ (Zpos (digits2_pos m)) - 1)%Z
      with (Z.succ (Zpos (digits2_pos m) - 1))%Z by lia.
    rewrite !Z.pow_succ_r by lia.
    generalize dependent (2 ^ (Zpos (digits2_pos m) - 1))%Z.
    generalize (2 ^ Zpos (digits2_pos m))%Z. intros; lia.
  - rewrite Pos2Z.inj_succ. change (Zpos m~0) with (2 * Zpos m)%Z.
    replace (Z.succ (Zpos (digits2_pos m)) - 1)%Z
      with (Z.succ (Zpos (digits2_pos m) - 1))%Z by lia.
    rewrite !Z.pow_succ_r by lia.
    generalize dependent (2 ^ (Zpos (digits2_pos m) - 1))%Z.
    generalize (2 ^ Zpos (digits2_pos m))%Z. intros; lia.
  - simpl. lia.
Qed.

Lemma iter_xO_value (m d : positive) :
  Zpos (Pos.iter xO m d) = (Zpos m * 2 ^ Zpos d)%Z.
Proof.
  induction d as [|d IH] using Pos.peano_ind.
  - simpl. lia.
  - rewrite Pos.iter_succ, Pos2Z.inj_xO, IH, Pos2Z.inj_succ, Z.pow_succ_r by lia. lia.
Qed.

Lemma shl_align_value (m : positive) (e e' : Z) :
  (e' <= e)%Z -> Zpos (fst (shl_align m e e')) = (Zpos m * 2 ^ (e - e'))%Z.
Proof.
  intros Hle. unfold shl_align.
  destruct (e' - e)%Z as [|d|d] eqn:Hd; simpl fst.
  - replace (e - e')%Z with 0%Z by lia. simpl. lia.
  - lia.
  - rewrite iter_xO_value. f_equal. f_equal. lia.
Qed.

Lemma bounded_digits (m : positive) (e : Z) :
  bounded prec emax m e = true ->
  (emin <= e /\ Zpos (digits2_pos m) <= prec /\
   (emin < e -> Zpos (digits2_pos m) = prec))%Z.
Proof.
  unfold bounded, canonical_mantissa, fexp. intros H.
  apply andb_true_iff in H. destruct H as [H _]. apply Z.eqb_eq in H.
  unfold SpecFloat.emin in *. lia.
Qed.

(** Of two binary64 numbers, the one with the larger exponent has the
    larger mantissa once both are written with the smaller exponent. *)
Lemma aligned_mantissa_le (mx my : positive) (ex ey : Z) :
  bounded prec emax mx ex = true ->
  bounded prec emax my ey = true ->
  (ex < ey)%Z ->
  (Zpos mx <= Zpos my * 2 ^ (ey - ex))%Z.
Proof.
  intros Hx Hy Hlt.
  destruct (bounded_digits _ _ Hx) as (Hex & Hdx & _).
  destruct (bounded_digits _ _ Hy) as (_ & _ & Hdy).
  specialize (Hdy ltac:(lia)).
  pose proof (digits2_pos_bounds mx) as [_ Hmx].
  pose proof (digits2_pos_bounds my) as [Hmy _].
  rewrite Hdy in Hmy.
  assert (2 ^ Zpos (digits2_pos mx) <= 2 ^ prec)%Z by (apply Z.pow_le_mono_r; lia).
  assert (2 ^ 1 <= 2 ^ (ey - ex))%Z by (apply Z.pow_le_mono_r; lia).
  change (2 ^ prec)%Z with (2 * 2 ^ (prec - 1))%Z in *.
  change (2 ^ 1)%Z with 2%Z in *.
  nia.
Qed.

Lemma binary_round_aux_not_below_zero (m e : Z) (l : location) :
  not_below_zero (binary_round_aux prec emax false m e l).
Proof.
  unfold not_below_zero, binary_round_aux.
  destruct (shr_fexp prec emax m e l) as [mrs' e'].
  destruct (shr_fexp prec emax _ e' loc_Exact) as [mrs'' e''].
  destruct (shr_m mrs''); [reflexivity | | reflexivity].
  destruct (Z.leb e'' (emax - prec)); reflexivity.
Qed.

Lemma binary_normalize_not_below_zero (m e : Z) :
  (0 <= m)%Z -> not_below_zero (binary_normalize prec emax m e false).
Proof.
  intros Hm. unfold binary_normalize. destruct m as [|p|p]; [reflexivity | | lia].
  unfold binary_round.
  destruct (shl_align p e _) as [mz ez].
  apply binary_round_aux_not_below_zero.
Qed.

Lemma SFsub_not_below_zero (a x : spec_float) :
  valid_binary a = true -> valid_binary x = true ->
  SFleb x a = true -> not_below_zero (SF64sub a x).
Proof.
  intros Va Vx Hle.
  destruct a as [sa|sa| |sa ma ea], x as [sx|sx| |sx mx ex];
    try discriminate Hle;
    try (destruct sa, sx; try discriminate Hle; reflexivity);
    try (destruct sa; try discriminate Hle; reflexivity);
    try (destruct sx; try discriminate Hle; reflexivity).
  unfold SF64sub, SFsub. apply binary_normalize_not_below_zero.
  simpl in Va, Vx. unfold SFleb, SFcompare in Hle.
  destruct sa, sx; try discriminate Hle; unfold cond_Zopp.
  - (* both negative: |x| >= |a| *)
    destruct (Z.compare_spec ex ea) as [Heq|Hlt|Hgt]; try discriminate Hle.
    + subst ea. rewrite Z.min_id, !shl_align_value by lia.
      rewrite Z.sub_diag. simpl (2 ^ 0)%Z.
      destruct (Pos.compare_cont Eq mx ma) eqn:Hc; try discriminate Hle.
      * apply Pos.compare_eq in Hc. subst. lia.
      * apply Pos.compare_gt_iff in Hc. lia.
    + rewrite Z.min_l, !shl_align_value by lia.
      rewrite Z.sub_diag. simpl (2 ^ 0)%Z.
      pose proof (aligned_mantissa_le _ _ _ _ Va Vx Hgt). lia.
  - (* a positive, x negative *)
    lia.
  - destruct (Z.compare_spec ex ea) as [Heq|Hlt|Hgt]; try discriminate Hle.
    + subst ea. rewrite Z.min_id, !shl_align_value by lia.
      rewrite Z.sub_diag. simpl (2 ^ 0)%Z.
      destruct (Pos.compare_cont Eq mx ma) eqn:Hc; try discriminate Hle.
      * apply Pos.compare_eq in Hc. subst. lia.
      * assert (mx < ma)%positive by exact Hc. lia.
    + rewrite Z.min_r, !shl_align_value by lia.
      rewrite Z.sub_diag. simpl (2 ^ 0)%Z.
      pose proof (aligned_mantissa_le _ _ _ _ Vx Va Hlt). lia.
Qed.

Lemma SFadd_not_below_zero (a x : spec_float) :
  not_below_zero a -> SFltb (S754_zero false) x = true ->
  not_below_zero (SF64add a x).
Proof.
  unfold not_below_zero. intros Ha Hx.
  destruct a as [sa|sa| |sa ma ea], x as [sx|sx| |sx mx ex];
    try discriminate Hx; try discriminate Ha;
    try (destruct sa, sx; try discriminate Hx; try discriminate Ha; reflexivity);
    try (destruct sa; try discriminate Ha; reflexivity);
    try (destruct sx; try discriminate Hx; reflexivity).
  destruct sa, sx; try discriminate Hx; try discriminate Ha.
  unfold SF64add, SFadd. apply binary_normalize_not_below_zero.
  unfold cond_Zopp. lia.
Qed.

Lemma SFcompare_antisym (x y : spec_float) :
  SFcompare y x = option_map CompOpp (SFcompare x y).
Proof.
  destruct x as [sx|sx| |sx mx ex], y as [sy|sy| |sy my ey]; simpl;
    try reflexivity;
    try (destruct sx, sy; reflexivity);
    try (destruct sx; reflexivity);
    try (destruct sy; reflexivity).
  destruct sx, sy; try reflexivity;
    rewrite (Z.compare_antisym ex ey);
    destruct (Z.compare ex ey); simpl; try reflexivity;
    pose proof (Pos.compare_cont_antisym mx my Eq) as H; simpl in H;
    rewrite <- H; now destruct (Pos.compare_cont Eq mx my).
Qed.

(** What the engine needs of binary64 arithmetic. *)

Lemma sub_not_below_zero (a x : float) :
  (x <=? a)%float = true -> (a - x <? 0)%float = false.
Proof.
  rewrite leb_spec, ltb_spec, sub_spec. intros Hle.
  change (Prim2SF 0) with (S754_zero false).
  apply SFsub_not_below_zero; auto using Prim2SF_valid.
Qed.

Lemma add_not_below_zero (a x : float) :
  (a <? 0)%float = false -> (0 <? x)%float = true -> (a + x <? 0)%float = false.
Proof.
  rewrite !ltb_spec, add_spec. change (Prim2SF 0) with (S754_zero false).
  apply SFadd_not_below_zero.
Qed.

Lemma ltb_not_leb (a x : float) :
  (a <? x)%float = true -> (x <=? a)%float = false.
Proof.
  rewrite ltb_spec, leb_spec. unfold SFltb, SFleb.
  rewrite (SFcompare_antisym (Prim2SF a) (Prim2SF x)).
  now destruct (SFcompare (Prim2SF a) (Prim2SF x)) as [[| |]|].
Qed.

(** ** Available funds never go below zero *)

Lemma funds_not_negative_store
    (self : PaymentsEngine.t) (ledger : PyDict.t Transaction.t) (ids : list N)
    (key : N) (client : Client.t) :
  funds_not_negative self ->
  (Account.available (Client.account client) <? 0)%float = false ->
  funds_not_negative
    {| PaymentsEngine._deposits_withdrawals := ledger;
       PaymentsEngine._disputed_deposits_ids := ids;
       PaymentsEngine._clients := PyDict.set (PaymentsEngine._clients self) key client |}.
Proof.
  intros Hfunds Hclient k c. simpl.
  destruct (N.eq_dec k key) as [->|Hne].
  - rewrite get_set_same. now intros [= <-].
  - rewrite get_set_other by assumption. apply Hfunds.
Qed.

Lemma funds_not_negative_resolve_client (self : PaymentsEngine.t) (client_id : N) :
  funds_not_negative self ->
  funds_not_negative (fst (PaymentsEngine.resolve_client self client_id)).
Proof.
  intros Hfunds.
  pose proof (resolve_client_spec self client_id) as H. cbv zeta in H.
  destruct H as (_ & _ & Hget & Hother & Hcase). intros k c.
  destruct (N.eq_dec k client_id) as [->|Hne].
  - rewrite Hget. intros [= <-].
    destruct Hcase as [[Hknown _] | [_ ->]]; [eauto | reflexivity].
  - rewrite Hother by assumption. apply Hfunds.
Qed.

(** A withdrawal or a dispute leaves no account below zero, whatever the
    amounts are: the funds check of the code is enough. *)
Lemma funds_not_negative_subtracting
    (self self' : PaymentsEngine.t) (transaction : Transaction.t) (client : Client.t) :
  Transaction.type transaction = TransactionType.WITHDRAWAL \/
  Transaction.type transaction = TransactionType.DISPUTE ->
  effect self transaction client self' ->
  funds_not_negative self -> funds_not_negative self'.
Proof.
  intros Htype Heff Hfunds.
  destruct Heff as [ | Ht _ _ | _ _ _ Hle | recorded _ _ _ _ _ Hle
                   | recorded Ht _ _ _ _ | recorded Ht _ _ _ _ ];
    try (destruct Htype as [Hw|Hd]; rewrite Ht in *; discriminate).
  - assumption.
  - apply funds_not_negative_store; [assumption|]. simpl.
    now apply sub_not_below_zero.
  - apply funds_not_negative_store; [assumption|]. simpl.
    now apply sub_not_below_zero.
Qed.

Lemma funds_not_negative_effect
    (self self' : PaymentsEngine.t) (transaction : Transaction.t) (client : Client.t) :
  TransactionValidator.is_valid transaction = true ->
  PyDict.get (PaymentsEngine._clients self) (Transaction.client_id transaction)
    = Some client ->
  effect self transaction client self' ->
  well_formed self -> funds_not_negative self -> funds_not_negative self'.
Proof.
  intros Hvalid Hget Heff Hwf Hfunds.
  pose proof (Hfunds _ _ Hget) as Hclient.
  destruct Heff as [ | Ht _ _ | Ht _ _ Hle | recorded Ht _ _ _ _ Hle
                   | recorded Ht _ _ Hled _ | recorded Ht _ _ _ _ ].
  - assumption.
  - apply funds_not_negative_store; [assumption|]. simpl.
    apply add_not_below_zero; [assumption|].
    apply valid_recorded; auto.
  - apply funds_not_negative_store; [assumption|]. simpl.
    now apply sub_not_below_zero.
  - apply funds_not_negative_store; [assumption|]. simpl.
    now apply sub_not_below_zero.
  - apply funds_not_negative_store; [assumption|]. simpl.
    apply add_not_below_zero; [assumption|].
    now apply (wf_ledger_entry _ Hwf _ _ Hled).
  - apply funds_not_negative_store; assumption.
Qed.

Lemma reachable_funds_not_negative (self : PaymentsEngine.t) :
  reachable self -> funds_not_negative self.
Proof.
  induction 1 as [|self self' record log Hreach IH Hvalid Hrun].
  - intros k c. discriminate.
  - pose proof (reachable_well_formed _ Hreach) as Hwf.
    destruct (handle_transaction_effect self record (wf_disputes_recorded _ Hwf))
      as (self'' & log' & Hrun' & Heff).
    rewrite Hrun in Hrun'. injection Hrun' as <- <-.
    pose proof (resolve_client_spec self (Transaction.client_id record)) as Hres.
    cbv zeta in Hres. destruct Hres as (_ & _ & Hget & _).
    eapply funds_not_negative_effect; eauto
      using well_formed_resolve_client, funds_not_negative_resolve_client.
Qed.

Lemma insufficient_funds_refused
    (self : PaymentsEngine.t) (transaction : Transaction.t) (client : Client.t)
    (amount : float) :
  PyDict.get (PaymentsEngine._clients self) (Transaction.client_id transaction)
    = Some client ->
  amount_to_subtract self transaction = Some amount ->
  (Account.available (Client.account client) <? amount)%float = true ->
  exists log, PaymentsEngine._handle_transaction self transaction = Ok (self, log).
Proof.
  intros Hget Hamount Hlt. apply ltb_not_leb in Hlt.
  destruct (Account.locked (Client.account client)) eqn:Hlocked.
  { rewrite (handle_transaction_locked _ _ _ Hget Hlocked). eauto. }
  rewrite (handle_transaction_unlocked _ _ _ Hget Hlocked). cbv zeta.
  unfold amount_to_subtract in Hamount.
  destruct (String.eqb (Transaction.type transaction) TransactionType.WITHDRAWAL) eqn:Ew.
  - injection Hamount as <-. apply String.eqb_eq in Ew. rewrite Ew.
    kind_tests. unfold PaymentsEngine._withdrawal, PaymentsEngine._are_enough_funds.
    rewrite Hlt.
    destruct (PaymentsEngine._is_transaction_unique self (Transaction.id transaction)); eauto.
  - destruct (String.eqb (Transaction.type transaction) TransactionType.DISPUTE) eqn:Ed;
      [|discriminate].
    apply String.eqb_eq in Ed. rewrite Ed.
    kind_tests.
    destruct (dispute_impossible self transaction client) as [H|H];
      [|rewrite H; eauto|rewrite H; eauto].
    intros recorded (Hled & _ & _ & Hle). rewrite Hled in Hamount.
    simpl in Hamount. injection Hamount as <-. congruence.
Qed.

(** C7. No withdrawal and no dispute takes the available balance of an
    account below zero: after the record, no account of the engine is below
    zero, and the record is refused, the engine staying as it is, whenever
    the amount to subtract exceeds the available balance. *)
Theorem available_never_below_zero
    (self : PaymentsEngine.t) (transaction : Transaction.t) :
  reachable self ->
  Transaction.type transaction = TransactionType.WITHDRAWAL \/
  Transaction.type transaction = TransactionType.DISPUTE ->
  exists self' log,
    PaymentsEngine._handle_transaction self transaction = Ok (self', log) /\
    (forall client_id client,
       PyDict.get (PaymentsEngine._clients self') client_id = Some client ->
       (Account.available (Client.account client) <? 0)%float = false) /\
    (forall client amount,
       PyDict.get (PaymentsEngine._clients self) (Transaction.client_id transaction)
         = Some client ->
       amount_to_subtract self transaction = Some amount ->
       (Account.available (Client.account client) <? amount)%float = true ->
       self' = self).
Proof.
  intros Hreach Htype.
  pose proof (reachable_well_formed _ Hreach) as Hwf.
  destruct (handle_transaction_effect self transaction (wf_disputes_recorded _ Hwf))
    as (self' & log & Hrun & Heff).
  exists self', log. split; [exact Hrun|]. split.
  - eapply funds_not_negative_subtracting; eauto.
    apply funds_not_negative_resolve_client.
    now apply reachable_funds_not_negative.
  - intros client amount Hget Hamount Hlt.
    destruct (insufficient_funds_refused _ _ _ _ Hget Hamount Hlt) as [log' Hrun'].
    rewrite Hrun in Hrun'. now injection Hrun'.
Qed.

(** ** Resolving a dispute *)

(** C4. A resolve on an unlocked account is accepted exactly when the
    referenced id is under active dispute and its ledger entry was recorded
    for the same client.  Accepted, the id leaves the disputed ids, the
    entry's amount is taken from [held] and added to [available], and the id
    is free to be disputed again: a later dispute of it by the same client
    is accepted as soon as the available funds cover the amount.  Otherwise
    the record is refused, with a diagnostic, and the engine is unchanged.
    The two balances are binary64 results: nothing is said of their being
    the balances from before the dispute. *)
Theorem resolve_rule
    (self : PaymentsEngine.t) (transaction : Transaction.t) (client : Client.t) :
  NoDup (PaymentsEngine._disputed_deposits_ids self) ->
  disputes_recorded self = true ->
  Transaction.type transaction = TransactionType.RESOLVE ->
  PyDict.get (PaymentsEngine._clients self) (Transaction.client_id transaction)
    = Some client ->
  Account.locked (Client.account client) = false ->
  let ledger := PaymentsEngine._deposits_withdrawals self in
  let disputed := PaymentsEngine._disputed_deposits_ids self in
  let account := Client.account client in
  let possible (recorded : Transaction.t) :=
    PyList.contains disputed (Transaction.id transaction) = true /\
    PyDict.get ledger (Transaction.id transaction) = Some recorded /\
    Transaction.client_id recorded = Transaction.client_id transaction in
  let accepted (recorded : Transaction.t) :=
    {| PaymentsEngine._deposits_withdrawals := ledger;
       PaymentsEngine._disputed_deposits_ids :=
         without_first disputed (Transaction.id transaction);
       PaymentsEngine._clients :=
         PyDict.set (PaymentsEngine._clients self) (Transaction.client_id transaction)
           (Client.set_account client
              {| Account.available :=
                   (Account.available account + Transaction.amount recorded)%float;
                 Account.held :=
                   (Account.held account - Transaction.amount recorded)%float;
                 Account.locked := Account.locked account |}) |} in
  (forall recorded, possible recorded ->
     PaymentsEngine._handle_transaction self transaction = Ok (accepted recorded, []) /\
     accepted recorded <> self /\
     PyList.contains (PaymentsEngine._disputed_deposits_ids (accepted recorded))
       (Transaction.id transaction) = false /\
     (forall again,
        Transaction.type again = TransactionType.DISPUTE ->
        Transaction.client_id again = Transaction.client_id transaction ->
        Transaction.id again = Transaction.id transaction ->
        (Transaction.amount recorded
         <=? Account.available account + Transaction.amount recorded)%float = true ->
        exists self'',
          PaymentsEngine._handle_transaction (accepted recorded) again = Ok (self'', []) /\
          PyList.contains (PaymentsEngine._disputed_deposits_ids self'')
            (Transaction.id transaction) = true)) /\
  ((forall recorded, ~ possible recorded) ->
     PaymentsEngine._handle_transaction self transaction
     = Ok (self, [(ERROR, "Resolve not possible")])).
Proof.
  intros Hnd Hrec Htype Hget Hlocked ledger disputed account possible accepted.
  rewrite (handle_transaction_unlocked _ _ _ Hget Hlocked). cbv zeta.
  rewrite Htype.
  kind_tests. split.
  - intros recorded (Hin & Hled & Hclient).
    assert (Hfree : PyList.contains (without_first disputed (Transaction.id transaction))
                      (Transaction.id transaction) = false).
    { destruct (PyList.contains (without_first disputed (Transaction.id transaction))
                  (Transaction.id transaction)) eqn:E; [|reflexivity].
      apply contains_In in E.
      now destruct (proj2 (without_first_NoDup disputed (Transaction.id transaction) Hnd)). }
    split; [|split; [|split]].
    + exact (resolve_possible _ _ _ _ Hin Hled Hclient).
    + intros Heq. apply (f_equal PaymentsEngine._disputed_deposits_ids) in Heq.
      simpl in Heq. exact (without_first_changes _ _ Hin Heq).
    + exact Hfree.
    + intros again Hagain Hsame Hid Hfunds.
      erewrite handle_transaction_unlocked.
      2:{ simpl. rewrite Hsame. apply get_set_same. }
      2:{ exact Hlocked. }
      cbv zeta. rewrite Hagain.
      kind_tests.
      erewrite dispute_possible.
      * eexists. split; [reflexivity|]. simpl.
        apply contains_In. apply in_app_iff. right. rewrite Hid. now left.
      * simpl. rewrite Hid. exact Hled.
      * congruence.
      * simpl. rewrite Hid. exact Hfree.
      * exact Hfunds.
  - intros Hnot. exact (proj1 (settlement_impossible self transaction client Hrec Hnot)).
Qed.

(** The balances after a dispute and its resolve need not be the balances
    from before the dispute: 0.1 is held, then 0.2 is disputed and resolved,
    and 0.10000000000000003 is held. *)
Lemma resolve_does_not_restore_balances :
  let before := state_after [deposit 1 1 0.1; dispute 1 1; deposit 1 2 0.2] in
  exists disputed resolved,
    PaymentsEngine._handle_transaction before (dispute 1 2) = Ok (disputed, []) /\
    PaymentsEngine._handle_transaction disputed (resolve 1 2) = Ok (resolved, []) /\
    Account.held (account_of before 1) = 0.1%float /\
    Account.held (account_of resolved 1) = 0.10000000000000003%float /\
    Account.held (account_of resolved 1) <> Account.held (account_of before 1).
Proof.
  do 2 eexists. split; [reflexivity|]. split; [reflexivity|].
  split; [reflexivity|]. split; [reflexivity|].
  intros H. apply (f_equal (fun x => PrimFloat.eqb x 0.1)) in H.
  vm_compute in H. discriminate.
Qed.

(** ** Transaction ids are unique *)

Lemma get_None_keys {V : Type} (d : PyDict.t V) (k : N) :
  PyDict.get d k = None <-> ~ In k (PyDict.keys d).
Proof.
  induction d as [|[k' v] d IH]; simpl.
  - tauto.
  - destruct (N.eqb k k') eqn:E.
    + apply N.eqb_eq in E. subst. split; [discriminate | tauto].
    + apply N.eqb_neq in E. rewrite IH. intuition.
Qed.

Lemma set_missing {V : Type} (d : PyDict.t V) (k : N) (v : V) :
  PyDict.get d k = None -> PyDict.set d k v = (d ++ [(k, v)])%list.
Proof.
  induction d as [|[k' v'] d IH]; simpl; [reflexivity|].
  destruct (N.eqb k k'); [discriminate|]. intros H. now rewrite IH.
Qed.

Lemma ledger_ids_effect
    (self self' : PaymentsEngine.t) (transaction : Transaction.t) (client : Client.t) :
  effect self transaction client self' ->
  NoDup (map Transaction.id (PyDict.values (PaymentsEngine._deposits_withdrawals self))) /\
  PyDict.keys (PaymentsEngine._deposits_withdrawals self)
  = map Transaction.id (PyDict.values (PaymentsEngine._deposits_withdrawals self)) ->
  NoDup (map Transaction.id (PyDict.values (PaymentsEngine._deposits_withdrawals self'))) /\
  PyDict.keys (PaymentsEngine._deposits_withdrawals self')
  = map Transaction.id (PyDict.values (PaymentsEngine._deposits_withdrawals self')).
Proof.
  intros Heff [Hnd Hkeys].
  assert (Hnew : forall (ledger : PyDict.t Transaction.t),
            ledger = PaymentsEngine._deposits_withdrawals self ->
            PyDict.get ledger (Transaction.id transaction) = None ->
            NoDup (map Transaction.id
                     (PyDict.values (PyDict.set ledger (Transaction.id transaction)
                                       transaction))) /\
            PyDict.keys (PyDict.set ledger (Transaction.id transaction) transaction)
            = map Transaction.id
                (PyDict.values (PyDict.set ledger (Transaction.id transaction) transaction))).
  { intros ledger -> Hnone. rewrite (set_missing _ _ _ Hnone).
    unfold PyDict.values, PyDict.keys in *. rewrite !map_app. simpl.
    rewrite <- Hkeys. split; [|reflexivity].
    apply NoDup_append; [now rewrite Hkeys|]. now apply get_None_keys. }
  destruct Heff; simpl; auto.
Qed.

Lemma reachable_ledger_ids (self : PaymentsEngine.t) :
  reachable self ->
  NoDup (map Transaction.id (PyDict.values (PaymentsEngine._deposits_withdrawals self))) /\
  PyDict.keys (PaymentsEngine._deposits_withdrawals self)
  = map Transaction.id (PyDict.values (PaymentsEngine._deposits_withdrawals self)).
Proof.
  induction 1 as [|self self' record log Hreach IH Hvalid Hrun].
  - split; [constructor | reflexivity].
  - pose proof (reachable_well_formed _ Hreach) as Hwf.
    destruct (handle_transaction_effect self record (wf_disputes_recorded _ Hwf))
      as (self'' & log' & Hrun' & Heff).
    rewrite Hrun in Hrun'. injection Hrun' as <- <-.
    apply (ledger_ids_effect _ _ _ _ Heff).
    pose proof (resolve_client_spec self (Transaction.client_id record)) as Hres.
    cbv zeta in Hres. destruct Hres as (-> & _). exact IH.
Qed.

Lemma effect_keeps_entry
    (self self' : PaymentsEngine.t) (transaction : Transaction.t) (client : Client.t)
    (id : N) (recorded : Transaction.t) :
  effect self transaction client self' ->
  PyDict.get (PaymentsEngine._deposits_withdrawals self) id = Some recorded ->
  PyDict.get (PaymentsEngine._deposits_withdrawals self') id = Some recorded.
Proof.
  intros Heff Hled.
  destruct Heff as [ | _ _ Hnone | _ _ Hnone _ | | | ]; simpl; auto;
    (rewrite get_set_other; [assumption | congruence]).
Qed.

Lemma handle_all_keeps_entry
    (records : list Transaction.t) (self self' : PaymentsEngine.t)
    (log : list log_record) (id : N) (recorded : Transaction.t) :
  reachable self ->
  PyDict.get (PaymentsEngine._deposits_withdrawals self) id = Some recorded ->
  PaymentsEngine.handle_all self records = Ok (self', log) ->
  PyDict.get (PaymentsEngine._deposits_withdrawals self') id = Some recorded.
Proof.
  revert self log. induction records as [|record records IH];
    intros self log Hreach Hled; simpl.
  - now intros [= <- _].
  - destruct (TransactionValidator.is_valid record) eqn:Hvalid; [|now apply IH].
    pose proof (reachable_well_formed _ Hreach) as Hwf.
    destruct (handle_transaction_effect self record (wf_disputes_recorded _ Hwf))
      as (self1 & log1 & Hrun & Heff).
    rewrite Hrun. simpl.
    destruct (PaymentsEngine.handle_all self1 records) as [[self2 log2]|e] eqn:Hrest;
      simpl; [|discriminate].
    intros [= <- _]. apply (IH self1 log2).
    + eapply reachable_step; eauto.
    + apply (effect_keeps_entry _ _ _ _ _ _ Heff).
      pose proof (resolve_client_spec self (Transaction.client_id record)) as Hres.
      cbv zeta in Hres. destruct Hres as (-> & _). exact Hled.
    + exact Hrest.
Qed.

(** The first record of the test on duplicated ids has been accepted, and
    a deposit of another client comes under the same id: it is refused,
    and the engine is not as it was, for the account of the new client has
    been created; the report has a line for it. *)
Lemma refused_duplicate_creates_the_account_of_a_new_client :
  let self := state_after [deposit 1 100 10.0] in
  exists self',
    PaymentsEngine._handle_transaction self (deposit 2 100 10.0)
    = Ok (self', [(ERROR, "Duplicated transaction id")]) /\
    PyDict.get (PaymentsEngine._deposits_withdrawals self) 100
    = Some (deposit 1 100 10.0) /\
    PaymentsEngine._clients self = [(1%N, client_with 1 10.0 0.0 false)] /\
    PaymentsEngine._clients self'
    = [(1%N, client_with 1 10.0 0.0 false); (2%N, client_with 2 0.0 0.0 false)] /\
    self' <> self /\
    output [deposit 1 100 10.0; deposit 2 100 10.0]
    = Ok ["client,available,held,total,locked"; "1,10.0,0.0,10.0,false";
          "2,0.0,0.0,0.0,false"].
Proof.
  cbv zeta. eexists. split; [vm_compute; reflexivity|].
  split; [reflexivity|]. split; [reflexivity|]. split; [reflexivity|].
  split; [discriminate | vm_compute; reflexivity].
Qed.

(** C6, as the code has it.  In a reachable engine the recorded deposits and
    withdrawals have pairwise distinct transaction ids, whoever their
    clients are.  A deposit or withdrawal that reuses a recorded id, from
    the same or from another client, is refused with a diagnostic.  The
    engine is then the very same when the client of the record has an
    account; when the client is seen for the first time, the engine is the
    same but for the account of that client, which has been created with
    zero balances before the rule is applied.  The recorded entry stays as
    it is through whatever the run handles next. *)
Theorem transaction_ids_are_unique
    (self : PaymentsEngine.t) (transaction recorded : Transaction.t) :
  reachable self ->
  Transaction.type transaction = TransactionType.DEPOSIT \/
  Transaction.type transaction = TransactionType.WITHDRAWAL ->
  PyDict.get (PaymentsEngine._deposits_withdrawals self) (Transaction.id transaction)
    = Some recorded ->
  let client_id := Transaction.client_id transaction in
  let refused :=
    match PyDict.get (PaymentsEngine._clients self) client_id with
    | Some _ => self
    | None =>
        {| PaymentsEngine._deposits_withdrawals := PaymentsEngine._deposits_withdrawals self;
           PaymentsEngine._disputed_deposits_ids :=
             PaymentsEngine._disputed_deposits_ids self;
           PaymentsEngine._clients :=
             (PaymentsEngine._clients self
              ++ [(client_id,
                   {| Client.id := client_id;
                      Client.account :=
                        {| Account.available := 0; Account.held := 0;
                           Account.locked := false |} |})])%list |}
    end in
  let reason :=
    if Account.locked (account_of self client_id)
    then "Client account is locked, could not perform operation"
    else "Duplicated transaction id" in
  NoDup (map Transaction.id (PyDict.values (PaymentsEngine._deposits_withdrawals self))) /\
  PaymentsEngine._handle_transaction self transaction = Ok (refused, [(ERROR, reason)]) /\
  (forall records,
   exists self'' log,
     PaymentsEngine.handle_all self records = Ok (self'', log) /\
     PyDict.get (PaymentsEngine._deposits_withdrawals self'') (Transaction.id transaction)
       = Some recorded).
Proof.
  intros Hreach Htype Hled client_id refused reason. split; [|split].
  - apply (reachable_ledger_ids _ Hreach).
  - unfold refused, reason, account_of. fold client_id.
    destruct (PyDict.get (PaymentsEngine._clients self) client_id) as [client|] eqn:Hget.
    + destruct (Account.locked (Client.account client)) eqn:Hlocked.
      * exact (handle_transaction_locked _ _ _ Hget Hlocked).
      * rewrite (handle_transaction_unlocked _ _ _ Hget Hlocked). cbv zeta.
        unfold PaymentsEngine._is_transaction_unique, PyDict.contains.
        rewrite Hled. simpl.
        destruct Htype as [-> | ->]; kind_tests; reflexivity.
    + unfold PaymentsEngine._handle_transaction, PaymentsEngine.resolve_client,
        PyDict.setdefault.
      fold client_id. rewrite Hget, (set_missing _ _ _ Hget). simpl.
      unfold PaymentsEngine._is_transaction_unique, PyDict.contains. simpl.
      rewrite Hled. simpl.
      destruct Htype as [-> | ->]; kind_tests; reflexivity.
  - intros records.
    destruct (handle_all_reachable records self Hreach) as (self'' & log & Hrun & _).
    exists self'', log. split; [exact Hrun|].
    exact (handle_all_keeps_entry _ _ _ _ _ _ Hreach Hled Hrun).
Qed.

(** ** Records of a client seen for the first time *)

(** The account of a client is created by the first record that names it,
    whatever becomes of the record.  In a reachable engine only a deposit
    can do more than that: a withdrawal finds no funds, and no ledger entry
    belongs to the client yet. *)
Lemma first_seen_client (self : PaymentsEngine.t) (transaction : Transaction.t) :
  reachable self ->
  TransactionValidator.is_valid transaction = true ->
  PyDict.get (PaymentsEngine._clients self) (Transaction.client_id transaction) = None ->
  Transaction.type transaction <> TransactionType.DEPOSIT ->
  exists log,
    PaymentsEngine._handle_transaction self transaction
    = Ok (PaymentsEngine.set_clients self
            (PaymentsEngine._clients self
             ++ [(Transaction.client_id transaction,
                  Client.init (Transaction.client_id transaction))])%list, log).
Proof.
  intros Hreach Hvalid Hnone Hkind.
  pose proof (reachable_well_formed _ Hreach) as Hwf.
  destruct (handle_transaction_effect self transaction (wf_disputes_recorded _ Hwf))
    as (self' & log & Hrun & Heff).
  exists log. rewrite Hrun. f_equal. f_equal.
  unfold PaymentsEngine.resolve_client, PyDict.setdefault in Heff.
  rewrite Hnone in Heff. simpl in Heff. rewrite (set_missing _ _ _ Hnone) in Heff.
  assert (Hforeign : forall recorded,
            PyDict.get (PaymentsEngine._deposits_withdrawals self)
              (Transaction.id transaction) = Some recorded ->
            Transaction.client_id recorded = Transaction.client_id transaction ->
            False).
  { intros recorded Hled Hclient.
    pose proof (wf_ledger_client _ Hwf _ _ Hled) as Hknown.
    unfold PyDict.contains in Hknown. rewrite Hclient, Hnone in Hknown. discriminate. }
  inversion Heff as [ Hsame | Ht _ _ Hstate | Ht _ _ Hle Hstate
                    | recorded _ _ Hled Hclient _ _ Hstate
                    | recorded _ _ _ Hled Hclient Hstate
                    | recorded _ _ _ Hled Hclient Hstate ].
  - reflexivity.
  - contradiction.
  - exfalso. simpl in Hle.
    destruct (valid_recorded transaction Hvalid (or_intror Ht)) as [Hpos _].
    apply ltb_not_leb in Hpos. congruence.
  - exfalso. exact (Hforeign recorded Hled Hclient).
  - exfalso. exact (Hforeign recorded Hled Hclient).
  - exfalso. exact (Hforeign recorded Hled Hclient).
Qed.

(** ** Refusals that log nothing *)

(** A record of one of the five kinds that neither changes the engine nor
    logs anything is a dispute that the available funds do not cover: every
    other refusal logs an error. *)
Lemma silent_refusal
    (self : PaymentsEngine.t) (transaction : Transaction.t) (client : Client.t) :
  disputes_recorded self = true ->
  TransactionValidator._is_valid_type (Transaction.type transaction) = true ->
  PyDict.get (PaymentsEngine._clients self) (Transaction.client_id transaction)
    = Some client ->
  PaymentsEngine._handle_transaction self transaction = Ok (self, []) ->
  Transaction.type transaction = TransactionType.DISPUTE /\
  exists recorded,
    PyDict.get (PaymentsEngine._deposits_withdrawals self) (Transaction.id transaction)
      = Some recorded /\
    (Transaction.amount recorded
     <=? Account.available (Client.account client))%float = false.
Proof.
  intros Hrec Hkind Hget Hrun.
  destruct (Account.locked (Client.account client)) eqn:Hlocked.
  { rewrite (handle_transaction_locked _ _ _ Hget Hlocked) in Hrun. discriminate. }
  rewrite (handle_transaction_unlocked _ _ _ Hget Hlocked) in Hrun. cbv zeta in Hrun.
  unfold PaymentsEngine._is_transaction_unique, PyDict.contains in Hrun.
  destruct (String.eqb (Transaction.type transaction) TransactionType.DEPOSIT) eqn:Ed.
  { exfalso.
    destruct (PyDict.get (PaymentsEngine._deposits_withdrawals self)
                (Transaction.id transaction)) eqn:Hled; simpl in Hrun; [discriminate|].
    injection Hrun as Hrun. apply (f_equal PaymentsEngine._deposits_withdrawals) in Hrun.
    simpl in Hrun. exact (set_changes_missing _ _ _ Hled Hrun). }
  destruct (String.eqb (Transaction.type transaction) TransactionType.WITHDRAWAL) eqn:Ew.
  { exfalso. unfold PaymentsEngine._withdrawal in Hrun.
    destruct (PyDict.get (PaymentsEngine._deposits_withdrawals self)
                (Transaction.id transaction)) eqn:Hled; simpl in Hrun; [discriminate|].
    destruct (PaymentsEngine._are_enough_funds (Transaction.amount transaction) client);
      [|discriminate].
    injection Hrun as Hrun. apply (f_equal PaymentsEngine._deposits_withdrawals) in Hrun.
    simpl in Hrun. exact (set_changes_missing _ _ _ Hled Hrun). }
  destruct (String.eqb (Transaction.type transaction) TransactionType.DISPUTE) eqn:Ei.
  { apply String.eqb_eq in Ei. split; [exact Ei|].
    unfold PaymentsEngine._dispute, PaymentsEngine._is_transaction_disputable,
      PaymentsEngine._is_under_dispute, PaymentsEngine._is_client_correct,
      PaymentsEngine._are_enough_funds, PyDict.contains, PyDict.getitem in Hrun.
    destruct (PyDict.get (PaymentsEngine._deposits_withdrawals self)
                (Transaction.id transaction)) as [recorded|] eqn:Hled;
      simpl in Hrun; [|discriminate].
    destruct (PyList.contains (PaymentsEngine._disputed_deposits_ids self)
                (Transaction.id transaction)); simpl in Hrun; [discriminate|].
    destruct (N.eqb (Transaction.client_id transaction) (Transaction.client_id recorded));
      simpl in Hrun; [|discriminate].
    exists recorded. split; [reflexivity|].
    destruct (Transaction.amount recorded
              <=? Account.available (Client.account client))%float; [|reflexivity].
    exfalso. injection Hrun as Hrun.
    apply (f_equal PaymentsEngine._disputed_deposits_ids) in Hrun.
    simpl in Hrun. exact (append_changes _ _ Hrun). }
  exfalso.
  destruct (String.eqb (Transaction.type transaction) TransactionType.RESOLVE) eqn:Er.
  { destruct (settlement_decision self transaction Hrec)
      as [(recorded & Hin & Hled & Hclient)|Hnot].
    - rewrite (resolve_possible _ _ _ _ Hin Hled Hclient) in Hrun.
      injection Hrun as Hrun. apply (f_equal PaymentsEngine._disputed_deposits_ids) in Hrun.
      simpl in Hrun. exact (without_first_changes _ _ Hin Hrun).
    - rewrite (proj1 (settlement_impossible self transaction client Hrec Hnot)) in Hrun.
      discriminate. }
  destruct (String.eqb (Transaction.type transaction) TransactionType.CHARGEBACK) eqn:Ec.
  { destruct (settlement_decision self transaction Hrec)
      as [(recorded & Hin & Hled & Hclient)|Hnot].
    - rewrite (chargeback_possible _ _ _ _ Hin Hled Hclient) in Hrun.
      injection Hrun as Hrun. apply (f_equal PaymentsEngine._disputed_deposits_ids) in Hrun.
      simpl in Hrun. exact (without_first_changes _ _ Hin Hrun).
    - rewrite (proj2 (settlement_impossible self transaction client Hrec Hnot)) in Hrun.
      discriminate. }
  unfold TransactionValidator._is_valid_type, str_in, TransactionType.ALLTYPES in Hkind.
  simpl in Hkind. rewrite Ed, Ew, Ei, Er, Ec in Hkind. discriminate.
Qed.

(** ** Diagnostics *)

(** C8, at the input of the test suite: client 2 has 5.0 available and
    disputes its deposit of 10.0.  The dispute is refused for lack of funds
    and nothing is logged, where the withdrawal refused for the same reason
    logs an error. *)
Theorem dispute_without_funds_is_silent :
  let self := state_after [deposit 2 200 10.0; withdrawal 2 201 5.0] in
  Account.available (account_of self 2) = 5.0%float /\
  PaymentsEngine._handle_transaction self (dispute 2 200) = Ok (self, []) /\
  PaymentsEngine._handle_transaction self (withdrawal 2 202 10.0)
  = Ok (self, [(ERROR, "Not enough funds available")]).
Proof. repeat split. Qed.

(** ** Held funds *)

(** One unit is held, a deposit of 2^53 is disputed and resolved, and the
    first dispute is charged back: [held] is 1 + 2^53 = 2^53, then 0, then -1. *)
Lemma held_below_zero_after_chargeback :
  let records :=
    [deposit 1 1 1.0; dispute 1 1; deposit 1 2 9007199254740992.0; dispute 1 2;
     resolve 1 2] in
  let self := state_after records in
  let self' := state_after (records ++ [chargeback 1 1]) in
  reachable self /\
  Account.held (account_of self 1) = 0.0%float /\
  PaymentsEngine._handle_transaction self (chargeback 1 1) = Ok (self', []) /\
  PaymentsEngine._disputed_deposits_ids self' = [] /\
  Account.held (account_of self' 1) = (-1.0)%float /\
  (Account.held (account_of self' 1) <? 0)%float = true.
Proof.
  split; [apply state_after_reachable|]. repeat split.
Qed.

Example report_with_negative_held :
  output [deposit 1 1 1.0; dispute 1 1; deposit 1 2 9007199254740992.0;
          dispute 1 2; resolve 1 2; chargeback 1 1]
  = Ok ["client,available,held,total,locked";
        "1,9007199254740992.0,-1.0,9007199254740991.0,true"].
Proof. vm_compute. reflexivity. Qed.

(** C10, as the code has it.  In a reachable engine the ids under dispute
    are pairwise distinct, and each of them has a ledger entry, recorded
    under that id with an amount above zero for a client that has an
    account.  A chargeback that is accepted refers to such an id, of the
    client's own, and takes the amount of that entry from [held], the
    amount the dispute had added.  [held] is the binary64 result of these
    additions and subtractions. *)
Theorem active_disputes_are_recorded (self : PaymentsEngine.t) :
  reachable self ->
  NoDup (PaymentsEngine._disputed_deposits_ids self) /\
  (forall id,
     In id (PaymentsEngine._disputed_deposits_ids self) ->
     exists recorded,
       PyDict.get (PaymentsEngine._deposits_withdrawals self) id = Some recorded /\
       Transaction.id recorded = id /\
       (0 <? Transaction.amount recorded)%float = true /\
       PyDict.contains (PaymentsEngine._clients self) (Transaction.client_id recorded)
         = true) /\
  (forall transaction client self',
     Transaction.type transaction = TransactionType.CHARGEBACK ->
     PyDict.get (PaymentsEngine._clients self) (Transaction.client_id transaction)
       = Some client ->
     PaymentsEngine._handle_transaction self transaction = Ok (self', []) ->
     exists recorded,
       In (Transaction.id transaction) (PaymentsEngine._disputed_deposits_ids self) /\
       PyDict.get (PaymentsEngine._deposits_withdrawals self) (Transaction.id transaction)
         = Some recorded /\
       Transaction.client_id recorded = Transaction.client_id transaction /\
       (0 <? Transaction.amount recorded)%float = true /\
       Account.held (account_of self' (Transaction.client_id transaction))
       = (Account.held (Client.account client) - Transaction.amount recorded)%float).
Proof.
  intros Hreach. pose proof (reachable_well_formed _ Hreach) as Hwf.
  split; [exact (wf_disputes_distinct _ Hwf)|]. split.
  - intros id Hin. apply contains_In in Hin.
    destruct (recorded_dispute _ _ (wf_disputes_recorded _ Hwf) Hin) as [recorded Hled].
    exists recorded. split; [exact Hled|].
    destruct (wf_ledger_entry _ Hwf _ _ Hled) as (Hid & Hpos & _).
    split; [exact Hid|]. split; [exact Hpos|].
    exact (wf_ledger_client _ Hwf _ _ Hled).
  - intros transaction client self' Htype Hget Hrun.
    destruct (Account.locked (Client.account client)) eqn:Hlocked.
    { rewrite (handle_transaction_locked _ _ _ Hget Hlocked) in Hrun. discriminate. }
    rewrite (handle_transaction_unlocked _ _ _ Hget Hlocked) in Hrun. cbv zeta in Hrun.
    rewrite Htype in Hrun.
    kind_tests_in Hrun.
    destruct (settlement_decision self transaction (wf_disputes_recorded _ Hwf))
      as [(recorded & Hin & Hled & Hclient)|Hnot].
    + rewrite (chargeback_possible _ _ _ _ Hin Hled Hclient) in Hrun.
      injection Hrun as <-. exists recorded.
      split; [now apply contains_In|]. split; [exact Hled|]. split; [exact Hclient|].
      split; [now apply (wf_ledger_entry _ Hwf _ _ Hled)|].
      unfold account_of. simpl. now rewrite get_set_same.
    + rewrite (proj2 (settlement_impossible self transaction client
                        (wf_disputes_recorded _ Hwf) Hnot)) in Hrun.
      discriminate.
Qed.

(** ** The rules at the inputs of the test suite *)

Lemma locked_account_refuses_every_record_witness :
  let self := state_after [deposit 1 100 10.0; dispute 1 100; chargeback 1 100] in
  Account.locked (account_of self 1) = true /\
  PaymentsEngine._handle_transaction self (deposit 1 101 20.0)
  = Ok (self, [(ERROR, "Client account is locked, could not perform operation")]).
Proof.
  split; [reflexivity|].
  eapply locked_account_refuses_every_record; reflexivity.
Defined.

Lemma withdrawal_rule_witness :
  let self := state_after [deposit 1 100 10.0; deposit 1 101 20.0] in
  PaymentsEngine._handle_transaction self (withdrawal 1 102 5.0)
  = Ok ({| PaymentsEngine._deposits_withdrawals :=
             [(100%N, deposit 1 100 10.0); (101%N, deposit 1 101 20.0);
              (102%N, withdrawal 1 102 5.0)];
           PaymentsEngine._disputed_deposits_ids := [];
           PaymentsEngine._clients := [(1%N, client_with 1 25.0 0.0 false)] |}, []) /\
  PaymentsEngine._handle_transaction self (withdrawal 1 103 35.0)
  = Ok (self, [(ERROR, "Not enough funds available")]) /\
  PaymentsEngine._handle_transaction self (withdrawal 1 100 5.0)
  = Ok (self, [(ERROR, "Duplicated transaction id")]).
Proof.
  cbv zeta. split; [|split].
  - exact (proj1 (proj1 (withdrawal_rule
                           (state_after [deposit 1 100 10.0; deposit 1 101 20.0])
                           (withdrawal 1 102 5.0) (client_with 1 30.0 0.0 false)
                           eq_refl eq_refl eq_refl)
                   (conj eq_refl eq_refl))).
  - refine (proj2 (withdrawal_rule
                     (state_after [deposit 1 100 10.0; deposit 1 101 20.0])
                     (withdrawal 1 103 35.0) (client_with 1 30.0 0.0 false)
                     eq_refl eq_refl eq_refl) _).
    intros [_ H]. vm_compute in H. discriminate H.
  - refine (proj2 (withdrawal_rule
                     (state_after [deposit 1 100 10.0; deposit 1 101 20.0])
                     (withdrawal 1 100 5.0) (client_with 1 30.0 0.0 false)
                     eq_refl eq_refl eq_refl) _).
    intros [H _]. vm_compute in H. discriminate H.
Defined.

Lemma dispute_rule_witness :
  let self := state_after [deposit 1 100 10.0; deposit 2 201 10.0] in
  PaymentsEngine._handle_transaction self (dispute 2 201)
  = Ok ({| PaymentsEngine._deposits_withdrawals :=
             [(100%N, deposit 1 100 10.0); (201%N, deposit 2 201 10.0)];
           PaymentsEngine._disputed_deposits_ids := [201%N];
           PaymentsEngine._clients :=
             [(1%N, client_with 1 10.0 0.0 false);
              (2%N, client_with 2 0.0 10.0 false)] |}, []) /\
  PaymentsEngine._handle_transaction self (dispute 2 100)
  = Ok (self, [(ERROR, "Dispute not possible")]).
Proof.
  cbv zeta. split.
  - exact (proj1 (proj1 (dispute_rule
                           (state_after [deposit 1 100 10.0; deposit 2 201 10.0])
                           (dispute 2 201) (client_with 2 10.0 0.0 false)
                           eq_refl eq_refl eq_refl)
                   (deposit 2 201 10.0)
                   (conj eq_refl (conj eq_refl (conj eq_refl eq_refl))))).
  - destruct (proj2 (dispute_rule
                       (state_after [deposit 1 100 10.0; deposit 2 201 10.0])
                       (dispute 2 100) (client_with 2 10.0 0.0 false)
                       eq_refl eq_refl eq_refl)) as [H|H].
    + intros recorded (H1 & H2 & _). vm_compute in H1.
      injection H1 as <-. vm_compute in H2. discriminate H2.
    + exact H.
    + vm_compute in H. discriminate H.
Defined.

Lemma chargeback_rule_witness :
  let self := state_after [deposit 1 100 10.0; dispute 1 100] in
  let short :=
    state_after [deposit 1 1 1.0; dispute 1 1; deposit 1 2 9007199254740992.0;
                 dispute 1 2; resolve 1 2] in
  PaymentsEngine._handle_transaction self (chargeback 1 100)
  = Ok ({| PaymentsEngine._deposits_withdrawals := [(100%N, deposit 1 100 10.0)];
           PaymentsEngine._disputed_deposits_ids := [];
           PaymentsEngine._clients := [(1%N, client_with 1 0.0 0.0 true)] |}, []) /\
  PaymentsEngine._handle_transaction self (chargeback 1 101)
  = Ok (self, [(ERROR, "Chargeback not possible")]) /\
  Account.held (account_of short 1) = 0.0%float /\
  PaymentsEngine._handle_transaction short (chargeback 1 1)
  = Ok ({| PaymentsEngine._deposits_withdrawals :=
             [(1%N, deposit 1 1 1.0); (2%N, deposit 1 2 9007199254740992.0)];
           PaymentsEngine._disputed_deposits_ids := [];
           PaymentsEngine._clients :=
             [(1%N, client_with 1 9007199254740992.0 (-1.0) true)] |}, []).
Proof.
  cbv zeta. split; [|split; [|split]].
  - exact (proj1 (proj1 (chargeback_rule
                           (state_after [deposit 1 100 10.0; dispute 1 100])
                           (chargeback 1 100) (client_with 1 0.0 10.0 false)
                           eq_refl eq_refl eq_refl eq_refl)
                   (deposit 1 100 10.0)
                   (conj eq_refl (conj eq_refl eq_refl)))).
  - apply (proj2 (chargeback_rule
                    (state_after [deposit 1 100 10.0; dispute 1 100])
                    (chargeback 1 101) (client_with 1 0.0 10.0 false)
                    eq_refl eq_refl eq_refl eq_refl)).
    intros recorded (H & _). vm_compute in H. discriminate H.
  - reflexivity.
  - exact (proj1 (proj1 (chargeback_rule
                           (state_after [deposit 1 1 1.0; dispute 1 1;
                                         deposit 1 2 9007199254740992.0;
                                         dispute 1 2; resolve 1 2])
                           (chargeback 1 1)
                           (client_with 1 9007199254740992.0 0.0 false)
                           eq_refl eq_refl eq_refl eq_refl)
                   (deposit 1 1 1.0)
                   (conj eq_refl (conj eq_refl eq_refl)))).
Defined.

Lemma resolve_rule_witness :
  let self := state_after [deposit 1 100 10.0; dispute 1 100] in
  let resolved := state_after [deposit 1 100 10.0; dispute 1 100; resolve 1 100] in
  PaymentsEngine._handle_transaction self (resolve 1 100) = Ok (resolved, []) /\
  (exists self'',
     PaymentsEngine._handle_transaction resolved (dispute 1 100) = Ok (self'', []) /\
     PyList.contains (PaymentsEngine._disputed_deposits_ids self'') 100 = true) /\
  PaymentsEngine._handle_transaction self (resolve 1 101)
  = Ok (self, [(ERROR, "Resolve not possible")]).
Proof.
  cbv zeta.
  assert (Hnd : NoDup (PaymentsEngine._disputed_deposits_ids
                         (state_after [deposit 1 100 10.0; dispute 1 100]))).
  { vm_compute. constructor; [simpl; tauto | constructor]. }
  split; [|split].
  - exact (proj1 (proj1 (resolve_rule
                           (state_after [deposit 1 100 10.0; dispute 1 100])
                           (resolve 1 100) (client_with 1 0.0 10.0 false)
                           Hnd eq_refl eq_refl eq_refl eq_refl)
                   (deposit 1 100 10.0)
                   (conj eq_refl (conj eq_refl eq_refl)))).
  - exact (proj2 (proj2 (proj2 (proj1 (resolve_rule
                           (state_after [deposit 1 100 10.0; dispute 1 100])
                           (resolve 1 100) (client_with 1 0.0 10.0 false)
                           Hnd eq_refl eq_refl eq_refl eq_refl)
                   (deposit 1 100 10.0)
                   (conj eq_refl (conj eq_refl eq_refl)))))
             (dispute 1 100) eq_refl eq_refl eq_refl eq_refl).
  - apply (proj2 (resolve_rule
                    (state_after [deposit 1 100 10.0; dispute 1 100])
                    (resolve 1 101) (client_with 1 0.0 10.0 false)
                    Hnd eq_refl eq_refl eq_refl eq_refl)).
    intros recorded (H & _). vm_compute in H. discriminate H.
Defined.

Lemma transaction_ids_are_unique_witness :
  let self := state_after [deposit 1 100 10.0] in
  PaymentsEngine._handle_transaction self (withdrawal 1 100 5.0)
  = Ok (self, [(ERROR, "Duplicated transaction id")]) /\
  PaymentsEngine._handle_transaction self (deposit 2 100 10.0)
  = Ok ({| PaymentsEngine._deposits_withdrawals := [(100%N, deposit 1 100 10.0)];
           PaymentsEngine._disputed_deposits_ids := [];
           PaymentsEngine._clients :=
             [(1%N, client_with 1 10.0 0.0 false);
              (2%N, client_with 2 0.0 0.0 false)] |},
        [(ERROR, "Duplicated transaction id")]) /\
  (forall records,
   exists self'' log,
     PaymentsEngine.handle_all self records = Ok (self'', log) /\
     PyDict.get (PaymentsEngine._deposits_withdrawals self'') 100
     = Some (deposit 1 100 10.0)).
Proof.
  cbv zeta. split; [|split].
  - exact (proj1 (proj2 (transaction_ids_are_unique
                           (state_after [deposit 1 100 10.0]) (withdrawal 1 100 5.0)
                           (deposit 1 100 10.0)
                           (state_after_reachable [deposit 1 100 10.0])
                           (or_intror eq_refl) eq_refl))).
  - exact (proj1 (proj2 (transaction_ids_are_unique
                           (state_after [deposit 1 100 10.0]) (deposit 2 100 10.0)
                           (deposit 1 100 10.0)
                           (state_after_reachable [deposit 1 100 10.0])
                           (or_introl eq_refl) eq_refl))).
  - exact (proj2 (proj2 (transaction_ids_are_unique
                           (state_after [deposit 1 100 10.0]) (deposit 2 100 10.0)
                           (deposit 1 100 10.0)
                           (state_after_reachable [deposit 1 100 10.0])
                           (or_introl eq_refl) eq_refl))).
Defined.

Lemma available_never_below_zero_witness :
  let self := state_after [deposit 1 100 10.0] in
  exists self' log,
    PaymentsEngine._handle_transaction self (withdrawal 1 101 10.0) = Ok (self', log) /\
    (forall client_id client,
       PyDict.get (PaymentsEngine._clients self') client_id = Some client ->
       (Account.available (Client.account client) <? 0)%float = false) /\
    (forall client amount,
       PyDict.get (PaymentsEngine._clients self) 1 = Some client ->
       amount_to_subtract self (withdrawal 1 101 10.0) = Some amount ->
       (Account.available (Client.account client) <? amount)%float = true ->
       self' = self).
Proof.
  cbv zeta.
  exact (available_never_below_zero
           (state_after [deposit 1 100 10.0]) (withdrawal 1 101 10.0)
           (state_after_reachable [deposit 1 100 10.0])
           (or_introl eq_refl)).
Defined.

Lemma active_disputes_are_recorded_witness :
  let self := state_after [deposit 1 100 10.0; dispute 1 100] in
  let self' := state_after [deposit 1 100 10.0; dispute 1 100; chargeback 1 100] in
  PaymentsEngine._disputed_deposits_ids self = [100%N] /\
  (forall id,
     In id (PaymentsEngine._disputed_deposits_ids self) ->
     exists recorded,
       PyDict.get (PaymentsEngine._deposits_withdrawals self) id = Some recorded /\
       Transaction.id recorded = id /\
       (0 <? Transaction.amount recorded)%float = true /\
       PyDict.contains (PaymentsEngine._clients self) (Transaction.client_id recorded)
         = true) /\
  exists recorded,
    In 100%N (PaymentsEngine._disputed_deposits_ids self) /\
    PyDict.get (PaymentsEngine._deposits_withdrawals self) 100 = Some recorded /\
    Transaction.client_id recorded = 1%N /\
    (0 <? Transaction.amount recorded)%float = true /\
    Account.held (account_of self' 1) = (10.0 - Transaction.amount recorded)%float.
Proof.
  cbv zeta. split; [reflexivity|]. split.
  - exact (proj1 (proj2 (active_disputes_are_recorded
                           (state_after [deposit 1 100 10.0; dispute 1 100])
                           (state_after_reachable [deposit 1 100 10.0; dispute 1 100])))).
  - exact (proj2 (proj2 (active_disputes_are_recorded
                           (state_after [deposit 1 100 10.0; dispute 1 100])
                           (state_after_reachable [deposit 1 100 10.0; dispute 1 100])))
             (chargeback 1 100) (client_with 1 0.0 10.0 false)
             (state_after [deposit 1 100 10.0; dispute 1 100; chargeback 1 100])
             eq_refl eq_refl eq_refl).
Defined.

(** ** The numbers of the report *)

(** Adding zero to an amount above zero gives the amount back. *)
Lemma add_zero_l (a : float) : (0 <? a)%float = true -> (0 + a)%float = a.
Proof.
  intros H. apply Prim2SF_inj. rewrite add_spec. rewrite ltb_spec in H.
  change (Prim2SF 0) with (S754_zero false) in *.
  destruct (Prim2SF a) as [s|s| |s m e]; try discriminate H; reflexivity.
Qed.

Lemma add_zero_r (a : float) : (0 <? a)%float = true -> (a + 0)%float = a.
Proof.
  intros H. apply Prim2SF_inj. rewrite add_spec. rewrite ltb_spec in H.
  change (Prim2SF 0) with (S754_zero false) in *.
  destruct (Prim2SF a) as [s|s| |s m e]; try discriminate H; reflexivity.
Qed.

(** The report is made of the lines of the accounts, in the order of the
    dictionary. *)
Lemma report_of_state (records : list Transaction.t) :
  report_of records
  = Some (header_line
          :: map balance_line (PyDict.values (PaymentsEngine._clients (state_after records)))).
Proof.
  unfold report_of, state_after.
  destruct (handle_all_reachable records PaymentsEngine.init reachable_init)
    as (self & log & Hrun & _).
  rewrite Hrun. unfold ClientsBalancesReporter.get_balances.
  now rewrite (map_ext _ _ get_balance_line).
Qed.

(** The lines that the run on a file with rows writes are those of [report_of]. *)
Lemma output_report (rows : list Transaction.t) :
  rows <> [] ->
  exists lines, report_of rows = Some lines /\ output rows = Ok lines.
Proof.
  intros Hrows. destruct (run_of_rows rows Hrows) as (self & log & Hall & _ & Hrun).
  eexists. split.
  - rewrite report_of_state. unfold state_after. rewrite Hall. reflexivity.
  - unfold output. rewrite Hrun. reflexivity.
Qed.

(** *** One deposit for each client *)

Lemma get_app_missing {V : Type} (d : PyDict.t V) (k k' : N) (v : V) :
  PyDict.get d k' = None -> k' <> k -> PyDict.get (d ++ [(k, v)])%list k' = None.
Proof.
  intros Hnone Hne. induction d as [|[k0 v0] d IH]; simpl in *.
  - apply N.eqb_neq in Hne. now rewrite Hne.
  - destruct (N.eqb k' k0); [discriminate|]. now apply IH.
Qed.

Lemma set_last {V : Type} (d : PyDict.t V) (k : N) (v v' : V) :
  PyDict.get d k = None ->
  PyDict.set (d ++ [(k, v)])%list k v' = (d ++ [(k, v')])%list.
Proof.
  induction d as [|[k0 v0] d IH]; simpl.
  - now rewrite N.eqb_refl.
  - destruct (N.eqb k k0); [discriminate|]. intros H. now rewrite IH.
Qed.

Lemma deposit_is_valid (record : Transaction.t) :
  Transaction.type record = TransactionType.DEPOSIT ->
  (0 <? Transaction.amount record)%float = true ->
  TransactionValidator.is_valid record = true.
Proof.
  intros Htype Hpos.
  unfold TransactionValidator.is_valid, TransactionValidator._is_greater_than_zero.
  rewrite Htype. simpl. exact Hpos.
Qed.

(** A deposit with a new id, of a client seen for the first time. *)
Lemma first_deposit (self : PaymentsEngine.t) (record : Transaction.t) :
  Transaction.type record = TransactionType.DEPOSIT ->
  (0 <? Transaction.amount record)%float = true ->
  PyDict.get (PaymentsEngine._clients self) (Transaction.client_id record) = None ->
  PyDict.get (PaymentsEngine._deposits_withdrawals self) (Transaction.id record) = None ->
  PaymentsEngine._handle_transaction self record
  = Ok ({| PaymentsEngine._deposits_withdrawals :=
             (PaymentsEngine._deposits_withdrawals self
              ++ [(Transaction.id record, record)])%list;
           PaymentsEngine._disputed_deposits_ids :=
             PaymentsEngine._disputed_deposits_ids self;
           PaymentsEngine._clients :=
             (PaymentsEngine._clients self ++ [deposited_client record])%list |}, []).
Proof.
  intros Htype Hpos Hclient Hled.
  unfold PaymentsEngine._handle_transaction, PaymentsEngine.resolve_client,
    PyDict.setdefault.
  rewrite Hclient, (set_missing _ _ _ Hclient). simpl.
  rewrite Htype. kind_tests.
  unfold PaymentsEngine._is_transaction_unique, PyDict.contains. simpl. rewrite Hled.
  simpl. unfold PaymentsEngine._deposit, PaymentsEngine.store_account. simpl.
  rewrite (set_missing _ _ _ Hled), (set_last _ _ _ _ Hclient).
  unfold Client.set_account, Account.set_available, deposited_client. simpl.
  now rewrite (add_zero_l _ Hpos).
Qed.

(** Deposits of distinct clients under distinct ids, on an engine that knows
    none of the clients and none of the ids. *)
Lemma first_deposits (records : list Transaction.t) (self : PaymentsEngine.t) :
  (forall record, In record records ->
     Transaction.type record = TransactionType.DEPOSIT /\
     (0 <? Transaction.amount record)%float = true /\
     PyDict.get (PaymentsEngine._clients self) (Transaction.client_id record) = None /\
     PyDict.get (PaymentsEngine._deposits_withdrawals self) (Transaction.id record) = None) ->
  NoDup (map Transaction.client_id records) ->
  NoDup (map Transaction.id records) ->
  PaymentsEngine.handle_all self records
  = Ok ({| PaymentsEngine._deposits_withdrawals :=
             (PaymentsEngine._deposits_withdrawals self
              ++ map (fun record => (Transaction.id record, record)) records)%list;
           PaymentsEngine._disputed_deposits_ids :=
             PaymentsEngine._disputed_deposits_ids self;
           PaymentsEngine._clients :=
             (PaymentsEngine._clients self ++ map deposited_client records)%list |}, []).
Proof.
  revert self. induction records as [|record records IH]; intros self Hall Hclients Hids.
  - simpl. rewrite !app_nil_r. now destruct self.
  - destruct (Hall record (or_introl eq_refl)) as (Htype & Hpos & Hclient & Hled).
    simpl. rewrite (deposit_is_valid _ Htype Hpos).
    rewrite (first_deposit _ _ Htype Hpos Hclient Hled). simpl.
    inversion Hclients as [|? ? Hc1 Hc2]. inversion Hids as [|? ? Hi1 Hi2]. subst.
    rewrite IH; [|clear IH|assumption|assumption].
    + simpl. now rewrite <- !app_assoc.
    + intros r Hin. destruct (Hall r (or_intror Hin)) as (Ht & Hp & Hc & Hl).
      repeat (split; [assumption|]). simpl. split.
      * apply get_app_missing; [exact Hc|]. intros E. apply Hc1. rewrite <- E.
        now apply in_map.
      * apply get_app_missing; [exact Hl|]. intros E. apply Hi1. rewrite <- E.
        now apply in_map.
Qed.

(** The report of such an input has one line for each deposit, with the
    text of the amount of the deposit as the available and the total funds. *)
Lemma report_of_first_deposits (records : list Transaction.t) :
  (forall record, In record records ->
     Transaction.type record = TransactionType.DEPOSIT /\
     (0 <? Transaction.amount record)%float = true) ->
  NoDup (map Transaction.client_id records) ->
  NoDup (map Transaction.id records) ->
  report_of records = Some (header_line :: map deposited records).
Proof.
  intros Hall Hclients Hids. rewrite report_of_state. unfold state_after.
  rewrite (first_deposits records PaymentsEngine.init); [|clear - Hall|assumption|assumption].
  - simpl. unfold PyDict.values. rewrite !map_map. f_equal. f_equal.
    apply map_ext_in. intros record Hin. destruct (Hall record Hin) as [_ Hpos].
    unfold balance_line, deposited, deposited_client. cbn [snd Client.id Client.account
      Account.available Account.held Account.locked].
    rewrite (add_zero_r _ Hpos). reflexivity.
  - intros record Hin. destruct (Hall record Hin) as [Htype Hpos]. now repeat split.
Qed.

(** ** The text of a number is its shortest decimal *)

Section Decimals.

Local Open Scope Q_scope.

Lemma scaled (b : Q) (a t : Z) :
  0 < b ->
  (exists b' : Z, b == inject_Z b') ->
  inject_Z a * b ^ t * b ^ Z.max (- t) 0 == inject_Z a * b ^ Z.max t 0.
Proof.
  intros Hb _. rewrite <- Qmult_assoc. rewrite <- Qpower_plus.
  - replace (t + Z.max (- t) 0)%Z with (Z.max t 0) by lia. reflexivity.
  - intros E. rewrite E in Hb. discriminate.
Qed.

Lemma pow_pos_Q (b : Q) (t : Z) : 0 < b -> 0 < b ^ t.
Proof. apply Qpower_0_lt. Qed.

Lemma inject_pow (b t : Z) : (0 <= t)%Z -> inject_Z b ^ t == inject_Z (b ^ t).
Proof. intros H. symmetry. now apply Zpower_Qpower. Qed.

(** Both sides of [compare_scaled], as rationals. *)
Lemma compare_scaled_sides (a ta b eb : Z) :
  let p := (10 ^ Z.max (- ta) 0 * 2 ^ Z.max (- eb) 0)%Q in
  0 < p /\
  decimal a ta * p == inject_Z (a * 10 ^ Z.max ta 0 * 2 ^ Z.max (- eb) 0) /\
  binary b eb * p == inject_Z (b * 2 ^ Z.max eb 0 * 10 ^ Z.max (- ta) 0).
Proof.
  cbv zeta. split; [|split].
  - apply Qmult_lt_0_compat; apply Qpower_0_lt; reflexivity.
  - unfold decimal. rewrite Qmult_assoc.
    rewrite (scaled 10 a ta); [|reflexivity|exists 10%Z; reflexivity].
    rewrite !inject_Z_mult. rewrite <- !inject_pow by lia. reflexivity.
  - unfold binary.
    rewrite (Qmult_comm (10 ^ _)), Qmult_assoc.
    rewrite (scaled 2 b eb); [|reflexivity|exists 2%Z; reflexivity].
    rewrite !inject_Z_mult. rewrite <- !inject_pow by lia. reflexivity.
Qed.

Lemma compare_scaled_spec (a ta b eb : Z) :
  PyFloat.compare_scaled a ta b eb = (decimal a ta ?= binary b eb).
Proof.
  destruct (compare_scaled_sides a ta b eb) as (Hp & Ha & Hb).
  unfold PyFloat.compare_scaled.
  set (x := (a * 10 ^ Z.max ta 0 * 2 ^ Z.max (- eb) 0)%Z) in *.
  set (y := (b * 2 ^ Z.max eb 0 * 10 ^ Z.max (- ta) 0)%Z) in *.
  set (p := (10 ^ Z.max (- ta) 0 * 2 ^ Z.max (- eb) 0)%Q) in *.
  destruct (Z.compare_spec x y) as [E|E|E]; symmetry.
  - apply Qeq_alt. apply (Qmult_inj_r _ _ p).
    + intros E0. rewrite E0 in Hp. discriminate.
    + rewrite Ha, Hb, E. reflexivity.
  - apply Qlt_alt. apply (Qmult_lt_r _ _ p Hp). rewrite Ha, Hb.
    now rewrite <- Zlt_Qlt.
  - apply Qgt_alt. apply (Qmult_lt_r _ _ p Hp). rewrite Ha, Hb.
    now rewrite <- Zlt_Qlt.
Qed.

Lemma reads_back_spec (c t : Z) (m : positive) (e : Z) :
  PyFloat.reads_back c t m e = true <-> rounds_to (decimal c t) m e.
Proof.
  unfold PyFloat.reads_back, rounds_to. rewrite !compare_scaled_spec.
  set (below := if (Pos.eqb m 4503599627370496 && (-1074 <? e)%Z)%bool then 1%Z else 2%Z).
  set (lo := binary (4 * Z.pos m - below) (e - 2)).
  set (hi := binary (4 * Z.pos m + 2) (e - 2)).
  rewrite andb_true_iff.
  destruct (Qcompare_spec (decimal c t) lo) as [E1|E1|E1];
    destruct (Qcompare_spec (decimal c t) hi) as [E2|E2|E2];
    destruct (Z.even (Z.pos m)); split; intros [H1 H2];
    try discriminate; try (split; reflexivity);
    try (split; lra).
  all: try (exfalso; lra).
Qed.

Lemma rounds_to_comp (q q' : Q) (m : positive) (e : Z) :
  q == q' -> rounds_to q m e -> rounds_to q' m e.
Proof.
  intros E. unfold rounds_to. cbv zeta.
  destruct (Z.even (Z.pos m)); rewrite E; trivial.
Qed.

Lemma binary_lt (a b e : Z) : (a < b)%Z -> binary a e < binary b e.
Proof.
  intros H. unfold binary. apply Qmult_lt_r; [now apply Qpower_0_lt|].
  now rewrite <- Zlt_Qlt.
Qed.

Lemma binary_le (a b e : Z) : (a <= b)%Z -> binary a e <= binary b e.
Proof.
  intros H. unfold binary. apply Qmult_le_r; [now apply Qpower_0_lt|].
  now rewrite <- Zle_Qle.
Qed.

Lemma binary_shift (m e : Z) : binary m e == binary (4 * m) (e - 2).
Proof.
  unfold binary. replace e with (e - 2 + 2)%Z at 1 by lia.
  rewrite Qpower_plus by discriminate. rewrite inject_Z_mult.
  change (2 ^ 2) with 4. change (inject_Z 4) with 4. ring.
Qed.

(** The number itself is within its interval. *)
Lemma rounds_to_itself (m : positive) (e : Z) : rounds_to (binary (Zpos m) e) m e.
Proof.
  apply (rounds_to_comp (binary (4 * Zpos m) (e - 2)));
    [symmetry; apply binary_shift|].
  unfold rounds_to. cbv zeta.
  set (below := if (Pos.eqb m 4503599627370496 && (-1074 <? e)%Z)%bool then 1%Z else 2%Z).
  assert (Hb : (0 < below)%Z) by (unfold below; destruct (_ && _)%bool; lia).
  assert (H1 : binary (4 * Z.pos m - below) (e - 2) < binary (4 * Z.pos m) (e - 2))
    by (apply binary_lt; lia).
  assert (H2 : binary (4 * Z.pos m) (e - 2) < binary (4 * Z.pos m + 2) (e - 2))
    by (apply binary_lt; lia).
  destruct (Z.even (Z.pos m)); split; lra.
Qed.

Lemma exact_spec (m : positive) (e : Z) :
  decimal (fst (PyFloat.exact m e)) (snd (PyFloat.exact m e)) == binary (Zpos m) e.
Proof.
  unfold PyFloat.exact. destruct (Z.leb_spec 0 e) as [H|H]; cbn [fst snd].
  - unfold decimal, binary. rewrite inject_Z_mult, <- (inject_pow 2 e H).
    change (10 ^ 0) with 1. change (inject_Z 2) with 2. ring.
  - unfold decimal, binary. rewrite inject_Z_mult, <- (inject_pow 5 (- e)) by lia.
    change (inject_Z 5) with 5.
    assert (E : 10 ^ e == 2 ^ e * 5 ^ e).
    { rewrite <- Qmult_power. reflexivity. }
    rewrite E.
    assert (E5 : 5 ^ (- e) * 5 ^ e == 1).
    { rewrite <- Qpower_plus by discriminate.
      replace (- e + e)%Z with 0%Z by lia. reflexivity. }
    rewrite <- Qmult_assoc, (Qmult_assoc (5 ^ (- e))), (Qmult_comm (5 ^ (- e))).
    rewrite <- (Qmult_assoc (2 ^ e)), E5. ring.
Qed.

Lemma candidate_sound (m : positive) (e k n c t : Z) :
  PyFloat.candidate m e k n = Some (c, t) ->
  (0 < c)%Z /\ t = (k - n + 1)%Z /\ PyFloat.reads_back c t m e = true.
Proof.
  unfold PyFloat.candidate. cbv zeta.
  set (t0 := (k - n + 1)%Z).
  set (below := (Z.pos m * 2 ^ Z.max e 0 * 10 ^ Z.max (- t0) 0
                 / (2 ^ Z.max (- e) 0 * 10 ^ Z.max t0 0))%Z).
  assert (Hbelow : (0 <= below)%Z).
  { apply Z.div_pos.
    - assert (0 < 2 ^ Z.max e 0)%Z by (apply Z.pow_pos_nonneg; lia).
      assert (0 < 10 ^ Z.max (- t0) 0)%Z by (apply Z.pow_pos_nonneg; lia).
      nia.
    - assert (0 < 2 ^ Z.max (- e) 0)%Z by (apply Z.pow_pos_nonneg; lia).
      assert (0 < 10 ^ Z.max t0 0)%Z by (apply Z.pow_pos_nonneg; lia).
      nia. }
  destruct ((0 <? below)%Z && PyFloat.reads_back below t0 m e)%bool eqn:H1;
    destruct (PyFloat.reads_back (below + 1) t0 m e) eqn:H2;
    try discriminate.
  - apply andb_true_iff in H1. destruct H1 as [Hpos H1]. apply Z.ltb_lt in Hpos.
    destruct (PyFloat.compare_scaled (2 * below + 1) t0 (Z.pos m) (e + 1));
      [destruct (Z.even below)| |]; intros [= <- <-]; repeat split; trivial; lia.
  - apply andb_true_iff in H1. destruct H1 as [Hpos H1]. apply Z.ltb_lt in Hpos.
    intros [= <- <-]. repeat split; trivial.
  - intros [= <- <-]. repeat split; trivial. lia.
Qed.

Lemma search_sound (fuel : nat) (m : positive) (e k n : Z) :
  rounds_to (decimal (fst (PyFloat.search fuel m e k n))
                     (snd (PyFloat.search fuel m e k n))) m e.
Proof.
  revert n. induction fuel as [|fuel IH]; intros n; simpl.
  - apply (rounds_to_comp (binary (Zpos m) e)); [|apply rounds_to_itself].
    symmetry. apply exact_spec.
  - destruct (PyFloat.candidate m e k n) as [[c t]|] eqn:H; [|apply IH].
    apply candidate_sound in H. destruct H as (_ & _ & H).
    now apply reads_back_spec.
Qed.

Lemma strip_value (fuel : nat) (c t : Z) :
  decimal (fst (PyFloat.strip fuel c t)) (snd (PyFloat.strip fuel c t)) == decimal c t.
Proof.
  revert c t. induction fuel as [|fuel IH]; intros c t; simpl; [reflexivity|].
  destruct ((c mod 10 =? 0)%Z && (0 <? c)%Z)%bool eqn:H; [|reflexivity].
  apply andb_true_iff in H. destruct H as [H _]. apply Z.eqb_eq in H.
  rewrite IH. unfold decimal.
  rewrite Qpower_plus by discriminate. change (10 ^ 1) with (inject_Z 10).
  rewrite (Qmult_comm (10 ^ t)), Qmult_assoc, <- inject_Z_mult.
  replace (c / 10 * 10)%Z with c; [reflexivity|].
  pose proof (Z.div_mod c 10). lia.
Qed.

(** The decimal that [repr] writes is read back as the number. *)
Lemma shortest_reads_back (m : positive) (e : Z) :
  rounds_to (decimal (fst (PyFloat.shortest m e)) (snd (PyFloat.shortest m e))) m e.
Proof.
  unfold PyFloat.shortest.
  pose proof (search_sound 17 m e (PyFloat.decimal_exponent m e) 1) as H.
  destruct (PyFloat.search 17 m e (PyFloat.decimal_exponent m e) 1) as [c t].
  simpl fst in H; simpl snd in H.
  apply (rounds_to_comp (decimal c t)); [|exact H].
  symmetry. apply strip_value.
Qed.

(** The mantissa and the exponent of a binary64 number. *)
Lemma binary64_bounds (m : positive) (e : Z) :
  bounded prec emax m e = true ->
  (-1074 <= e <= 971 /\ Zpos m < 2 ^ 53 /\ (-1074 < e -> 2 ^ 52 <= Zpos m))%Z.
Proof.
  intros H. pose proof (bounded_digits m e H) as (H1 & H2 & H3).
  pose proof (digits2_pos_bounds m) as [H4 H5].
  unfold bounded in H. apply andb_true_iff in H. destruct H as [_ H].
  apply Z.leb_le in H.
  change emin with (-1074)%Z in *. change prec with 53%Z in *.
  change emax with 1024%Z in *.
  repeat split; try lia.
  - eapply Z.lt_le_trans; [exact H5|]. apply Z.pow_le_mono_r; lia.
  - intros He. rewrite (H3 He) in H4. exact H4.
Qed.

Lemma decimal_le (a b t : Z) : (a <= b)%Z -> decimal a t <= decimal b t.
Proof.
  intros H. unfold decimal. apply Qmult_le_r; [now apply Qpower_0_lt|].
  now rewrite <- Zle_Qle.
Qed.

Lemma decimal_lt (a b t : Z) : (a < b)%Z -> decimal a t < decimal b t.
Proof.
  intros H. unfold decimal. apply Qmult_lt_r; [now apply Qpower_0_lt|].
  now rewrite <- Zlt_Qlt.
Qed.

Lemma decimal_lt_inv (a b t : Z) : decimal a t < decimal b t -> (a < b)%Z.
Proof.
  intros H. destruct (Z.lt_ge_cases a b) as [|Hge]; [assumption|].
  apply (decimal_le _ _ t) in Hge. lra.
Qed.

Lemma decimal_le_inv (a b t : Z) : decimal a t <= decimal b t -> (a <= b)%Z.
Proof.
  intros H. destruct (Z.le_gt_cases a b) as [|Hgt]; [assumption|].
  apply (decimal_lt _ _ t) in Hgt. lra.
Qed.

(** [c * 10^(t + d)] is [c * 10^d * 10^t]. *)
Lemma decimal_shift (c t d : Z) :
  (0 <= d)%Z -> decimal c (t + d) == decimal (c * 10 ^ d) t.
Proof.
  intros H. unfold decimal. rewrite Qpower_plus by discriminate.
  rewrite inject_Z_mult, <- (inject_pow 10 d H). change (inject_Z 10) with 10. ring.
Qed.

Lemma decimal_one_le (a b : Z) : (a <= b)%Z -> decimal 1 a <= decimal 1 b.
Proof.
  intros H. unfold decimal. apply Qmult_le_l; [reflexivity|].
  apply Qpower_le_compat_l; [assumption|]. discriminate.
Qed.

Lemma binary_one_le (a b : Z) : (a <= b)%Z -> binary 1 a <= binary 1 b.
Proof.
  intros H. unfold binary. apply Qmult_le_l; [reflexivity|].
  apply Qpower_le_compat_l; [assumption|]. discriminate.
Qed.

Lemma binary_mantissa_shift (m e d : Z) :
  (0 <= d)%Z -> binary (m * 2 ^ d) e == binary m (e + d).
Proof.
  intros H. unfold binary. rewrite Qpower_plus by discriminate.
  rewrite inject_Z_mult, <- (inject_pow 2 d H). change (inject_Z 2) with 2. ring.
Qed.

(** A binary64 number above zero lies between 10^-324 and 10^309. *)
Lemma binary64_range (m : positive) (e : Z) :
  bounded prec emax m e = true ->
  decimal 1 (-324) <= binary (Zpos m) e /\ binary (Zpos m) e < decimal 1 309.
Proof.
  intros H. apply binary64_bounds in H. destruct H as ((He1 & He2) & Hm & _). split.
  - apply (Qle_trans _ (binary 1 (-1074))).
    + apply Qle_alt. rewrite <- compare_scaled_spec. vm_compute. discriminate.
    + apply (Qle_trans _ (binary 1 e)); [now apply binary_one_le|].
      apply binary_le. lia.
  - apply (Qlt_le_trans _ (binary (2 ^ 53) e)); [now apply binary_lt|].
    rewrite (binary_mantissa_shift 1 e 53) by lia.
    apply (Qle_trans _ (binary 1 1024)); [apply binary_one_le; lia|].
    apply Qle_alt. rewrite <- Qcompare_antisym, <- compare_scaled_spec.
    vm_compute. discriminate.
Qed.

Lemma exponent_down_spec (fuel : nat) (m : positive) (e k : Z) :
  decimal 1 (k - Z.of_nat fuel) <= binary (Zpos m) e ->
  let k' := PyFloat.exponent_down fuel m e k in
  decimal 1 k' <= binary (Zpos m) e /\
  (k' <= k)%Z /\
  ((k' < k)%Z -> binary (Zpos m) e < decimal 1 (k' + 1)).
Proof.
  revert k. induction fuel as [|fuel IH]; intros k H; cbv zeta.
  - simpl. replace (k - Z.of_nat 0)%Z with k in H by (simpl; lia).
    repeat split; [assumption|lia|lia].
  - simpl PyFloat.exponent_down. rewrite compare_scaled_spec.
    destruct (Qcompare_spec (decimal 1 k) (binary (Zpos m) e)) as [E|E|E].
    + repeat split; [lra|lia|lia].
    + repeat split; [lra|lia|lia].
    + destruct (IH (k - 1)%Z) as (H1 & H2 & H3).
      { replace (k - 1 - Z.of_nat fuel)%Z with (k - Z.of_nat (S fuel))%Z by lia.
        exact H. }
      repeat split; [assumption|lia|]. intros _.
      destruct (Z.eq_dec (PyFloat.exponent_down fuel m e (k - 1)) (k - 1)) as [Ek|Ek].
      * rewrite Ek. now replace (k - 1 + 1)%Z with k by lia.
      * apply H3. lia.
Qed.

Lemma exponent_up_spec (fuel : nat) (m : positive) (e k : Z) :
  decimal 1 k <= binary (Zpos m) e ->
  binary (Zpos m) e < decimal 1 (k + Z.of_nat fuel + 1) ->
  let k' := PyFloat.exponent_up fuel m e k in
  decimal 1 k' <= binary (Zpos m) e /\ binary (Zpos m) e < decimal 1 (k' + 1).
Proof.
  revert k. induction fuel as [|fuel IH]; intros k H1 H2; cbv zeta.
  - simpl. replace (k + Z.of_nat 0 + 1)%Z with (k + 1)%Z in H2 by (simpl; lia).
    now split.
  - simpl PyFloat.exponent_up. rewrite compare_scaled_spec.
    destruct (Qcompare_spec (decimal 1 (k + 1)) (binary (Zpos m) e)) as [E|E|E].
    + apply IH; [lra|].
      now replace (k + 1 + Z.of_nat fuel + 1)%Z with (k + Z.of_nat (S fuel) + 1)%Z by lia.
    + apply IH; [lra|].
      now replace (k + 1 + Z.of_nat fuel + 1)%Z with (k + Z.of_nat (S fuel) + 1)%Z by lia.
    + now split.
Qed.

(** The exponent of the first decimal digit. *)
Lemma decimal_exponent_spec (m : positive) (e : Z) :
  bounded prec emax m e = true ->
  let k := PyFloat.decimal_exponent m e in
  decimal 1 k <= binary (Zpos m) e /\ binary (Zpos m) e < decimal 1 (k + 1).
Proof.
  intros H. cbv zeta. unfold PyFloat.decimal_exponent.
  destruct (binary64_range m e H) as [Hlow Hhigh].
  apply binary64_bounds in H. destruct H as ((He1 & He2) & Hm & _).
  set (k0 := ((Z.log2 (Z.pos m) + e) * 1233 / 4096)%Z).
  assert (Hlog : (0 <= Z.log2 (Z.pos m) < 53)%Z).
  { split; [apply Z.log2_nonneg|]. apply Z.log2_lt_pow2; lia. }
  assert (Hk0 : (-324 <= k0 <= 308)%Z).
  { unfold k0. pose proof (Z.div_mod ((Z.log2 (Z.pos m) + e) * 1233) 4096).
    pose proof (Z.mod_pos_bound ((Z.log2 (Z.pos m) + e) * 1233) 4096). lia. }
  destruct (exponent_down_spec 700 m e k0) as (H1 & H2 & H3).
  { apply (Qle_trans _ (decimal 1 (-324))); [apply decimal_one_le; lia|assumption]. }
  apply exponent_up_spec; [assumption|].
  destruct (Z.eq_dec (PyFloat.exponent_down 700 m e k0) k0) as [Ek|Ek].
  - rewrite Ek. apply (Qlt_le_trans _ (decimal 1 309)); [assumption|].
    apply decimal_one_le. lia.
  - apply (Qlt_le_trans _ (decimal 1 (PyFloat.exponent_down 700 m e k0 + 1)));
      [apply H3; lia|]. apply decimal_one_le. lia.
Qed.

Lemma decimal_le_binary (a t b eb : Z) :
  decimal a t <= binary b eb <->
  (a * 10 ^ Z.max t 0 * 2 ^ Z.max (- eb) 0 <= b * 2 ^ Z.max eb 0 * 10 ^ Z.max (- t) 0)%Z.
Proof.
  rewrite Qle_alt, <- compare_scaled_spec. unfold PyFloat.compare_scaled.
  symmetry. apply Z.compare_le_iff.
Qed.

Lemma binary_lt_decimal (a t b eb : Z) :
  binary b eb < decimal a t <->
  (b * 2 ^ Z.max eb 0 * 10 ^ Z.max (- t) 0 < a * 10 ^ Z.max t 0 * 2 ^ Z.max (- eb) 0)%Z.
Proof.
  rewrite Qgt_alt, <- compare_scaled_spec. unfold PyFloat.compare_scaled.
  apply Z.compare_gt_iff.
Qed.

(** The quotient of [candidate] is the number of units [10^t] in [m * 2^e]. *)
Lemma units_spec (m : positive) (e t : Z) :
  let units :=
    (Z.pos m * 2 ^ Z.max e 0 * 10 ^ Z.max (- t) 0
     / (2 ^ Z.max (- e) 0 * 10 ^ Z.max t 0))%Z in
  decimal units t <= binary (Zpos m) e /\ binary (Zpos m) e < decimal (units + 1) t.
Proof.
  cbv zeta.
  set (n := (Z.pos m * 2 ^ Z.max e 0 * 10 ^ Z.max (- t) 0)%Z).
  set (d := (2 ^ Z.max (- e) 0 * 10 ^ Z.max t 0)%Z).
  assert (Hd : (0 < d)%Z).
  { assert (0 < 2 ^ Z.max (- e) 0)%Z by (apply Z.pow_pos_nonneg; lia).
    assert (0 < 10 ^ Z.max t 0)%Z by (apply Z.pow_pos_nonneg; lia).
    unfold d. nia. }
  split.
  - apply decimal_le_binary. fold n.
    replace (n / d * 10 ^ Z.max t 0 * 2 ^ Z.max (- e) 0)%Z with (d * (n / d))%Z
      by (unfold d; ring).
    now apply Z.mul_div_le.
  - apply binary_lt_decimal. fold n.
    replace ((n / d + 1) * 10 ^ Z.max t 0 * 2 ^ Z.max (- e) 0)%Z
      with (d * Z.succ (n / d))%Z by (unfold d; ring).
    now apply Z.mul_succ_div_gt.
Qed.

Lemma rounds_to_between (q1 q2 x : Q) (m : positive) (e : Z) :
  rounds_to q1 m e -> rounds_to q2 m e -> q1 <= x -> x <= q2 -> rounds_to x m e.
Proof.
  unfold rounds_to. cbv zeta. destruct (Z.even (Z.pos m)); intros [? ?] [? ?] ? ?;
    split; lra.
Qed.

Lemma candidate_found (m : positive) (e k n : Z) :
  let t := (k - n + 1)%Z in
  let units :=
    (Z.pos m * 2 ^ Z.max e 0 * 10 ^ Z.max (- t) 0
     / (2 ^ Z.max (- e) 0 * 10 ^ Z.max t 0))%Z in
  ((0 < units)%Z /\ rounds_to (decimal units t) m e) \/
  rounds_to (decimal (units + 1) t) m e ->
  PyFloat.candidate m e k n <> None.
Proof.
  cbv zeta. unfold PyFloat.candidate. cbv zeta.
  set (t := (k - n + 1)%Z).
  set (units := (Z.pos m * 2 ^ Z.max e 0 * 10 ^ Z.max (- t) 0
                 / (2 ^ Z.max (- e) 0 * 10 ^ Z.max t 0))%Z).
  intros [[Hpos H]|H].
  - apply reads_back_spec in H. apply Z.ltb_lt in Hpos. rewrite Hpos, H. cbn [andb].
    destruct (PyFloat.reads_back (units + 1) t m e); cbv iota; [|discriminate].
    destruct (PyFloat.compare_scaled (2 * units + 1) t (Z.pos m) (e + 1)); discriminate.
  - apply reads_back_spec in H. rewrite H.
    destruct ((0 <? units)%Z && PyFloat.reads_back units t m e)%bool; cbv iota;
      [|discriminate].
    destruct (PyFloat.compare_scaled (2 * units + 1) t (Z.pos m) (e + 1)); discriminate.
Qed.

(** When a decimal of [n] digits is read back as the number, [candidate]
    finds one. *)
Lemma candidate_complete (m : positive) (e k n c u : Z) :
  decimal 1 k <= binary (Zpos m) e ->
  binary (Zpos m) e < decimal 1 (k + 1) ->
  (0 < c < 10 ^ n)%Z ->
  rounds_to (decimal c u) m e ->
  PyFloat.candidate m e k n <> None.
Proof.
  intros Hk1 Hk2 Hc Hw.
  assert (Hn : (1 <= n)%Z).
  { destruct (Z.lt_ge_cases n 1) as [Hlt|]; [|assumption]. exfalso.
    destruct (Z.eq_dec n 0) as [->|]; [simpl in Hc; lia|].
    rewrite Z.pow_neg_r in Hc; lia. }
  apply candidate_found. cbv zeta.
  set (t := (k - n + 1)%Z).
  pose proof (units_spec m e t) as Hunits. cbv zeta in Hunits.
  set (units := (Z.pos m * 2 ^ Z.max e 0 * 10 ^ Z.max (- t) 0
                 / (2 ^ Z.max (- e) 0 * 10 ^ Z.max t 0))%Z) in *.
  destruct Hunits as [Hb1 Hb2].
  pose proof (rounds_to_itself m e) as Hv.
  set (v := binary (Z.pos m) e) in *.
  assert (Hfirst : decimal 1 k == decimal (10 ^ (n - 1)) t).
  { replace k with (t + (n - 1))%Z by (unfold t; lia).
    rewrite decimal_shift by lia. now rewrite Z.mul_1_l. }
  assert (Hfloor : (10 ^ (n - 1) <= units)%Z).
  { apply Z.lt_succ_r. apply (decimal_lt_inv _ _ t).
    unfold Z.succ. rewrite <- Hfirst. lra. }
  assert (Hpos : (0 < units)%Z).
  { assert (0 < 10 ^ (n - 1))%Z by (apply Z.pow_pos_nonneg; lia). lia. }
  destruct (Z.lt_ge_cases u t) as [Hu|Hu].
  - (* a finer unit: the decimal is below [10^k] *)
    left. split; [assumption|].
    apply (rounds_to_between (decimal c u) v); [assumption|assumption| |assumption].
    apply (Qle_trans _ (decimal 1 k)).
    + apply (Qle_trans _ (decimal (10 ^ n) u)); [apply decimal_le; lia|].
      rewrite <- (Z.mul_1_l (10 ^ n)), <- decimal_shift by lia.
      apply decimal_one_le. unfold t in Hu. lia.
    + rewrite Hfirst. now apply decimal_le.
  - (* a multiple of the unit *)
    assert (E : decimal c u == decimal (c * 10 ^ (u - t)) t).
    { replace u with (t + (u - t))%Z at 1 by lia. apply decimal_shift. lia. }
    destruct (Qlt_le_dec v (decimal c u)) as [Hlt|Hle].
    + right.
      apply (rounds_to_between v (decimal c u)); [assumption|assumption|lra|].
      rewrite E. apply decimal_le.
      assert (units < c * 10 ^ (u - t))%Z; [|lia].
      apply (decimal_lt_inv _ _ t). rewrite <- E. lra.
    + left. split; [assumption|].
      apply (rounds_to_between (decimal c u) v); [assumption|assumption| |assumption].
      rewrite E. apply decimal_le. apply Z.lt_succ_r.
      apply (decimal_lt_inv _ _ t). unfold Z.succ. rewrite <- E. lra.
Qed.

Lemma rounds_to_inside (q : Q) (m : positive) (e : Z) :
  let below :=
    if (Pos.eqb m 4503599627370496 && (-1074 <? e)%Z)%bool then 1%Z else 2%Z in
  binary (4 * Zpos m - below) (e - 2) < q ->
  q < binary (4 * Zpos m + 2) (e - 2) ->
  rounds_to q m e.
Proof.
  cbv zeta. unfold rounds_to. cbv zeta. intros H1 H2.
  destruct (Z.even (Z.pos m)); split; lra.
Qed.

(** Seventeen digits are enough: [10^16 > 2^53]. *)
Lemma candidate_17 (m : positive) (e k : Z) :
  bounded prec emax m e = true ->
  decimal 1 k <= binary (Zpos m) e ->
  binary (Zpos m) e < decimal 1 (k + 1) ->
  PyFloat.candidate m e k 17 <> None.
Proof.
  intros Hbounded Hk1 Hk2. apply candidate_found. cbv zeta.
  apply binary64_bounds in Hbounded. destruct Hbounded as (_ & Hm & _).
  replace (k - 17 + 1)%Z with (k - 16)%Z by lia.
  set (t := (k - 16)%Z).
  pose proof (units_spec m e t) as Hunits. cbv zeta in Hunits.
  set (units := (Z.pos m * 2 ^ Z.max e 0 * 10 ^ Z.max (- t) 0
                 / (2 ^ Z.max (- e) 0 * 10 ^ Z.max t 0))%Z) in *.
  destruct Hunits as [Hb1 Hb2].
  assert (Hfirst : decimal 1 k == decimal (10 ^ 16) t).
  { replace k with (t + 16)%Z by (unfold t; lia).
    rewrite decimal_shift by lia. now rewrite Z.mul_1_l. }
  assert (Hpos : (0 < units)%Z).
  { assert (10 ^ 16 <= units)%Z; [|lia].
    apply Z.lt_succ_r. apply (decimal_lt_inv _ _ t).
    unfold Z.succ. rewrite <- Hfirst. lra. }
  assert (Hnext : decimal (units + 1) t == decimal units t + decimal 1 t).
  { unfold decimal. rewrite inject_Z_plus. ring. }
  assert (Hunit : decimal (10 ^ 16) t == 10000000000000000 * decimal 1 t).
  { unfold decimal. change (inject_Z (10 ^ 16)) with 10000000000000000.
    change (inject_Z 1) with 1. ring. }
  rewrite Hfirst, Hunit in Hk1. clear Hk2 Hfirst Hunit.
  rewrite (binary_shift (Z.pos m) e) in Hb1, Hb2, Hk1.
  assert (Hw : 0 < 2 ^ (e - 2)) by now apply Qpower_0_lt.
  assert (Hmw : inject_Z (Z.pos m) * 2 ^ (e - 2) < 9007199254740992 * 2 ^ (e - 2)).
  { apply Qmult_lt_r; [assumption|].
    change 9007199254740992 with (inject_Z (2 ^ 53)). now rewrite <- Zlt_Qlt. }
  assert (Hlo : forall d,
            binary (4 * Z.pos m - d) (e - 2)
            == 4 * (inject_Z (Z.pos m) * 2 ^ (e - 2)) - inject_Z d * 2 ^ (e - 2)).
  { intros d. unfold binary. unfold Z.sub.
    rewrite inject_Z_plus, inject_Z_mult, inject_Z_opp.
    change (inject_Z 4) with 4. ring. }
  assert (Hhi : binary (4 * Z.pos m + 2) (e - 2)
                == 4 * (inject_Z (Z.pos m) * 2 ^ (e - 2)) + 2 * 2 ^ (e - 2)).
  { unfold binary. rewrite inject_Z_plus, inject_Z_mult.
    change (inject_Z 4) with 4. change (inject_Z 2) with 2. ring. }
  pose proof (Hlo 0%Z) as Hv. rewrite Z.sub_0_r in Hv.
  change (inject_Z 0) with 0 in Hv.
  rewrite Hv in Hb1, Hb2, Hk1.
  set (mw := inject_Z (Z.pos m) * 2 ^ (e - 2)) in *.
  set (w := 2 ^ (e - 2)) in *.
  set (unit := decimal 1 t) in *.
  set (b := decimal units t) in *.
  destruct (Pos.eqb m 4503599627370496 && (-1074 <? e)%Z)%bool eqn:Hcase.
  - (* the mantissa is 2^52: the number below is half as far *)
    apply andb_true_iff in Hcase. destruct Hcase as [Hcase _].
    apply Pos.eqb_eq in Hcase.
    assert (Emw : mw == 4503599627370496 * w).
    { unfold mw, w. rewrite Hcase. reflexivity. }
    right. apply rounds_to_inside; cbv zeta; rewrite ?(Hlo _), ?Hhi, Hnext;
      fold mw w unit b.
    + assert (0 <= inject_Z (if (Pos.eqb m 4503599627370496 && (-1074 <? e)%Z)%bool
                             then 1%Z else 2%Z) * w); [|lra].
      apply Qmult_le_0_compat; [|lra].
      destruct (_ && _)%bool; discriminate.
    + lra.
  - destruct (Qlt_le_dec (4 * mw - b) (2 * w)) as [Hnear|Hfar].
    + left. split; [assumption|].
      apply rounds_to_inside; cbv zeta; rewrite ?Hcase, ?(Hlo _), ?Hhi;
        fold mw w unit b; change (inject_Z 2) with 2; lra.
    + right.
      apply rounds_to_inside; cbv zeta; rewrite ?Hcase, ?(Hlo _), ?Hhi, Hnext;
        fold mw w unit b; change (inject_Z 2) with 2; lra.
Qed.

(** [search] stops at the first number of digits for which there is a
    candidate. *)
Lemma search_found (fuel : nat) (m : positive) (e k n : Z) :
  (exists j d,
     (n <= j < n + Z.of_nat fuel)%Z /\
     PyFloat.candidate m e k j = Some d /\
     PyFloat.search fuel m e k n = d /\
     forall i, (n <= i < j)%Z -> PyFloat.candidate m e k i = None) \/
  (forall i, (n <= i < n + Z.of_nat fuel)%Z -> PyFloat.candidate m e k i = None).
Proof.
  revert n. induction fuel as [|fuel IH]; intros n.
  - right. intros i Hi. simpl in Hi. lia.
  - simpl PyFloat.search.
    destruct (PyFloat.candidate m e k n) as [d|] eqn:Hn.
    + left. exists n, d. repeat split; [lia|lia|assumption|]. intros i Hi. lia.
    + destruct (IH (n + 1)%Z) as [(j & d & Hj & Hc & Hs & Hnone)|Hnone].
      * left. exists j, d. repeat split; [lia|lia|assumption|assumption|].
        intros i Hi. destruct (Z.eq_dec i n) as [->|]; [assumption|].
        apply Hnone. lia.
      * right. intros i Hi. destruct (Z.eq_dec i n) as [->|]; [assumption|].
        apply Hnone. lia.
Qed.

Lemma strip_le (fuel : nat) (c t : Z) :
  (0 < c)%Z -> (0 < fst (PyFloat.strip fuel c t) <= c)%Z.
Proof.
  revert c t. induction fuel as [|fuel IH]; intros c t Hc; simpl; [lia|].
  destruct ((c mod 10 =? 0)%Z && (0 <? c)%Z)%bool eqn:H; simpl; [|lia].
  apply andb_true_iff in H. destruct H as [H _]. apply Z.eqb_eq in H.
  pose proof (Z.div_mod c 10).
  destruct (IH (c / 10)%Z (t + 1)%Z); lia.
Qed.

Lemma strip_power (j fuel : nat) (t : Z) :
  (j <= fuel)%nat -> fst (PyFloat.strip fuel (10 ^ Z.of_nat j) t) = 1%Z.
Proof.
  revert fuel t. induction j as [|j IH]; intros fuel t Hj.
  - destruct fuel; reflexivity.
  - destruct fuel as [|fuel]; [lia|].
    rewrite Nat2Z.inj_succ, Z.pow_succ_r by lia.
    assert (Hp : (0 < 10 ^ Z.of_nat j)%Z) by (apply Z.pow_pos_nonneg; lia).
    remember (10 * 10 ^ Z.of_nat j)%Z as c eqn:Ec. simpl.
    assert (Hmod : (c mod 10 = 0)%Z) by (rewrite Ec, Z.mul_comm, Z.mod_mul; lia).
    assert (Hdiv : (c / 10 = 10 ^ Z.of_nat j)%Z) by (rewrite Ec, Z.mul_comm, Z.div_mul; lia).
    assert (Hc : (0 <? c)%Z = true) by (apply Z.ltb_lt; lia).
    rewrite Hmod, Hc, Hdiv. simpl.
    apply IH. lia.
Qed.

(** No decimal with fewer digits is read back as the number. *)
Lemma shortest_is_shortest (m : positive) (e c u n : Z) :
  bounded prec emax m e = true ->
  (0 < c < 10 ^ n)%Z ->
  rounds_to (decimal c u) m e ->
  (0 < fst (PyFloat.shortest m e) < 10 ^ n)%Z.
Proof.
  intros Hbounded Hc Hw.
  destruct (decimal_exponent_spec m e Hbounded) as [Hk1 Hk2].
  unfold PyFloat.shortest.
  set (k := PyFloat.decimal_exponent m e) in *.
  destruct (search_found 17 m e k 1) as [(j & [c0 t0] & Hj & Hcand & Hsearch & Hnone)|Hnone];
    [|exfalso; apply (candidate_17 m e k Hbounded Hk1 Hk2); apply Hnone; lia].
  rewrite Hsearch.
  pose proof (candidate_sound _ _ _ _ _ _ Hcand) as (Hpos & Ht & _).
  pose proof (strip_le 400 c0 t0 Hpos) as Hstrip.
  destruct (PyFloat.strip 400 c0 t0) as [c1 t1] eqn:Hs. simpl fst in *.
  split; [lia|].
  assert (Hn : (1 <= n)%Z).
  { destruct (Z.lt_ge_cases n 1) as [Hlt|]; [|assumption]. exfalso.
    destruct (Z.eq_dec n 0) as [->|]; [simpl in Hc; lia|].
    rewrite Z.pow_neg_r in Hc; lia. }
  destruct (Z.lt_ge_cases n j) as [Hshort|Hlong].
  { exfalso. apply (candidate_complete m e k n c u Hk1 Hk2 Hc Hw). apply Hnone. lia. }
  apply (Z.lt_le_trans _ (10 ^ j)); [|apply Z.pow_le_mono_r; lia].
  (* the candidate has [j] digits, or is [10^j] *)
  assert (Hc0 : (c0 <= 10 ^ j)%Z).
  { pose proof (units_spec m e t0) as Hunits. cbv zeta in Hunits.
    unfold PyFloat.candidate in Hcand. cbv zeta in Hcand. rewrite <- Ht in Hcand.
    set (units := (Z.pos m * 2 ^ Z.max e 0 * 10 ^ Z.max (- t0) 0
                   / (2 ^ Z.max (- e) 0 * 10 ^ Z.max t0 0))%Z) in *.
    assert (Hunits' : (units < 10 ^ j)%Z).
    { apply (decimal_lt_inv _ _ t0).
      rewrite <- (Z.mul_1_l (10 ^ j)), <- decimal_shift by lia.
      replace (t0 + j)%Z with (k + 1)%Z by lia. lra. }
    destruct ((0 <? units)%Z && PyFloat.reads_back units t0 m e)%bool;
      destruct (PyFloat.reads_back (units + 1) t0 m e); try discriminate;
      [destruct (PyFloat.compare_scaled (2 * units + 1) t0 (Z.pos m) (e + 1));
       [destruct (Z.even units)| |]| |];
      injection Hcand as <-; lia. }
  destruct (Z.eq_dec c0 (10 ^ j)) as [E|E]; [|lia].
  assert (Hone : c1 = 1%Z).
  { pose proof (strip_power (Z.to_nat j) 400 t0) as H.
    rewrite Z2Nat.id, <- E, Hs in H by lia. apply H. lia. }
  rewrite Hone. apply Z.pow_gt_1; lia.
Qed.

End Decimals.

(** ** The texts of the report *)

Example repr_of_some_numbers :
  map PyFloat.repr
    [0.1; 0.2; 0.1 + 0.2; 5; 10.5; 10.1234; 100; 123456.789; 0.0001; 0.00001;
     0.0000001; 1000000000000000; 10000000000000000; 18014398509481984;
     1e22; 1e23; 5e-324; 1.7976931348623157e308; -1; -0; infinity; nan]%float
  = ["0.1"; "0.2"; "0.30000000000000004"; "5.0"; "10.5"; "10.1234"; "100.0";
     "123456.789"; "0.0001"; "1e-05"; "1e-07"; "1000000000000000.0"; "1e+16";
     "1.8014398509481984e+16"; "1e+22"; "1e+23"; "5e-324";
     "1.7976931348623157e+308"; "-1.0"; "-0.0"; "inf"; "nan"].
Proof. vm_compute. reflexivity. Qed.

Ltac reading :=
  unfold reads_as;
  match goal with
  | |- context [Prim2SF ?x] =>
      let f := eval vm_compute in (Prim2SF x) in change (Prim2SF x) with f
  end;
  cbv iota; apply reads_back_spec; vm_compute; reflexivity.

Lemma finite_bounded (x : float) (s : bool) (m : positive) (e : Z) :
  Prim2SF x = S754_finite s m e -> bounded prec emax m e = true.
Proof.
  intros H. pose proof (Prim2SF_valid x) as Hvalid. now rewrite H in Hvalid.
Qed.

Lemma search_above_zero (fuel : nat) (m : positive) (e k n : Z) :
  (0 < fst (PyFloat.search fuel m e k n))%Z.
Proof.
  revert n. induction fuel as [|fuel IH]; intros n; simpl.
  - unfold PyFloat.exact. destruct (Z.leb_spec 0 e); cbn [fst].
    + assert (0 < 2 ^ e)%Z by (apply Z.pow_pos_nonneg; lia). nia.
    + assert (0 < 5 ^ (- e))%Z by (apply Z.pow_pos_nonneg; lia). nia.
  - destruct (PyFloat.candidate m e k n) as [[c t]|] eqn:H; [|apply IH].
    now apply candidate_sound in H.
Qed.

Lemma shortest_above_zero (m : positive) (e : Z) :
  (0 < fst (PyFloat.shortest m e))%Z.
Proof.
  unfold PyFloat.shortest.
  pose proof (search_above_zero 17 m e (PyFloat.decimal_exponent m e) 1) as H.
  destruct (PyFloat.search 17 m e (PyFloat.decimal_exponent m e) 1) as [c t].
  apply (strip_le 400 c t H).
Qed.

(** The text of a number that is neither zero, nor infinite, nor NaN. *)
Lemma repr_of_finite (x : float) (s : bool) (m : positive) (e : Z) :
  Prim2SF x = S754_finite s m e ->
  let c := fst (PyFloat.shortest m e) in
  let t := snd (PyFloat.shortest m e) in
  PyFloat.repr x
  = (if s then "-" else "")
    ++ PyFloat.layout (PyFloat.digits c)
         (Z.of_nat (String.length (PyFloat.digits c)) + t).
Proof.
  intros H. cbv zeta. unfold PyFloat.repr. rewrite H.
  now destruct (PyFloat.shortest m e) as [c t].
Qed.

(** The precision of the texts of a report is not that of the amounts of
    the input.  The amounts 0.1 and 0.2, of one digit after the point, leave
    0.1 + 0.2 on the account, which is written with seventeen; the amount 5,
    of no digit after the point, is written with one; the amount 10.50, of
    two digits, is written with one; and the amount 0.0000001 is written
    with an exponent. *)
Lemma precision_of_the_report_is_not_that_of_the_amounts :
  reads_as (decimal 1 (-1)) 0.1 /\
  reads_as (decimal 2 (-1)) 0.2 /\
  output [deposit 1 1 0.1; deposit 1 2 0.2]
  = Ok ["client,available,held,total,locked";
        "1,0.30000000000000004,0.0,0.30000000000000004,false"] /\
  digits_after_point "0.30000000000000004" = 17%nat /\
  reads_as (decimal 5 0) 5 /\
  output [deposit 1 1 5]
  = Ok ["client,available,held,total,locked"; "1,5.0,0.0,5.0,false"] /\
  reads_as (decimal 1050 (-2)) 10.5 /\
  output [deposit 1 1 10.5]
  = Ok ["client,available,held,total,locked"; "1,10.5,0.0,10.5,false"] /\
  reads_as (decimal 1 (-7)) 0.0000001 /\
  output [deposit 1 1 0.0000001]
  = Ok ["client,available,held,total,locked"; "1,1e-07,0.0,1e-07,false"].
Proof.
  split; [reading|]. split; [reading|]. split; [vm_compute; reflexivity|].
  split; [reflexivity|]. split; [reading|]. split; [vm_compute; reflexivity|].
  split; [reading|]. split; [vm_compute; reflexivity|].
  split; [reading|]. vm_compute; reflexivity.
Qed.

(** C9, as the code has it.  The run on a file that has rows completes, and
    each line of its report carries the texts of an account's numbers and
    of their binary64 sum.  The text of a number is made of the digits of
    the shortest decimal that is read back as that very number, so that
    nothing of the number is rounded away and no digit is added to those
    that tell it from the other numbers; [layout] puts the point in, with
    a zero after it when no digit follows, or an exponent.  When the rows are
    deposits of distinct clients under distinct ids, the numbers of a line
    are the amount of the client's deposit and zero. *)
Theorem report_writes_shortest_decimals :
  (forall rows : list Transaction.t,
     rows <> [] ->
     exists self log,
       PaymentsEngine.handle_all PaymentsEngine.init rows = Ok (self, log) /\
       run rows
       = Ok ("client,available,held,total,locked"
             :: map (fun client =>
                       PyInt.str (Client.id client) ++ ","
                       ++ PyFloat.repr (Account.available (Client.account client)) ++ ","
                       ++ PyFloat.repr (Account.held (Client.account client)) ++ ","
                       ++ PyFloat.repr (Account.available (Client.account client)
                                        + Account.held (Client.account client))%float
                       ++ ","
                       ++ (if Account.locked (Client.account client)
                           then "true" else "false"))
                    (PyDict.values (PaymentsEngine._clients self)),
             (log ++ [(INFO, "All transactions processed")])%list)) /\
  (forall (x : float) (s : bool) (m : positive) (e : Z),
     Prim2SF x = S754_finite s m e ->
     exists c t : Z,
       PyFloat.repr x
       = (if s then "-" else "")
         ++ PyFloat.layout (PyFloat.digits c)
              (Z.of_nat (String.length (PyFloat.digits c)) + t) /\
       (0 < c)%Z /\
       rounds_to (decimal c t) m e /\
       forall c' t' n : Z,
         (0 < c' < 10 ^ n)%Z -> rounds_to (decimal c' t') m e -> (c < 10 ^ n)%Z) /\
  (forall (x : float) (s : bool),
     Prim2SF x = S754_zero s -> PyFloat.repr x = if s then "-0.0" else "0.0") /\
  (forall rows : list Transaction.t,
     rows <> [] ->
     (forall record, In record rows ->
        Transaction.type record = TransactionType.DEPOSIT /\
        (0 <? Transaction.amount record)%float = true) ->
     NoDup (map Transaction.client_id rows) ->
     NoDup (map Transaction.id rows) ->
     output rows
     = Ok ("client,available,held,total,locked"
           :: map (fun record =>
                     PyInt.str (Transaction.client_id record) ++ ","
                     ++ PyFloat.repr (Transaction.amount record) ++ ",0.0,"
                     ++ PyFloat.repr (Transaction.amount record) ++ ",false")
                  rows)).
Proof.
  split; [|split; [|split]].
  - intros rows Hrows.
    destruct (run_of_rows rows Hrows) as (self & log & Hall & _ & Hrun).
    exists self, log. split; [exact Hall | exact Hrun].
  - intros x s m e Hx.
    exists (fst (PyFloat.shortest m e)), (snd (PyFloat.shortest m e)).
    split; [exact (repr_of_finite x s m e Hx)|].
    pose proof (shortest_reads_back m e) as Hback.
    pose proof (fun c u n => shortest_is_shortest m e c u n (finite_bounded x s m e Hx))
      as Hshortest.
    split; [apply shortest_above_zero|]. split; [exact Hback|].
    intros c' t' n Hc' Hreads. exact (proj2 (Hshortest c' t' n Hc' Hreads)).
  - intros x s Hx. unfold PyFloat.repr. now rewrite Hx.
  - intros rows Hrows Hall Hclients Hids.
    destruct (output_report rows Hrows) as (lines & Hreport & Houtput).
    rewrite Houtput. f_equal.
    rewrite (report_of_first_deposits rows Hall Hclients Hids) in Hreport.
    now injection Hreport as <-.
Qed.

(** The rule at the input of [test_correct_output_formatting], and the
    digits of the last of its amounts. *)
Lemma report_writes_shortest_decimals_witness :
  output [deposit 1 101 10.1; deposit 2 102 10.12; deposit 3 103 10.123;
          deposit 4 104 10.1234]
  = Ok ["client,available,held,total,locked";
        "1,10.1,0.0,10.1,false";
        "2,10.12,0.0,10.12,false";
        "3,10.123,0.0,10.123,false";
        "4,10.1234,0.0,10.1234,false"] /\
  exists c t : Z,
    PyFloat.repr 10.1234
    = PyFloat.layout (PyFloat.digits c)
        (Z.of_nat (String.length (PyFloat.digits c)) + t) /\
    (0 < c)%Z /\
    rounds_to (decimal c t) 5698967558465310 (-49) /\
    forall c' t' n : Z,
      (0 < c' < 10 ^ n)%Z ->
      rounds_to (decimal c' t') 5698967558465310 (-49) -> (c < 10 ^ n)%Z.
Proof.
  split.
  - assert (Hall : forall record,
              In record [deposit 1 101 10.1; deposit 2 102 10.12; deposit 3 103 10.123;
                         deposit 4 104 10.1234] ->
              Transaction.type record = TransactionType.DEPOSIT /\
              (0 <? Transaction.amount record)%float = true).
    { intros record [<-|[<-|[<-|[<-|[]]]]]; split; reflexivity. }
    assert (Hclients : NoDup (map Transaction.client_id
                                [deposit 1 101 10.1; deposit 2 102 10.12;
                                 deposit 3 103 10.123; deposit 4 104 10.1234])).
    { simpl. repeat constructor; simpl; intuition discriminate. }
    assert (Hids : NoDup (map Transaction.id
                            [deposit 1 101 10.1; deposit 2 102 10.12;
                             deposit 3 103 10.123; deposit 4 104 10.1234])).
    { simpl. repeat constructor; simpl; intuition discriminate. }
    rewrite (proj2 (proj2 (proj2 report_writes_shortest_decimals))
               [deposit 1 101 10.1; deposit 2 102 10.12; deposit 3 103 10.123;
                deposit 4 104 10.1234] ltac:(discriminate) Hall Hclients Hids).
    vm_compute. reflexivity.
  - exact (proj1 (proj2 report_writes_shortest_decimals)
             10.1234%float false 5698967558465310%positive (-49)%Z eq_refl).
Defined.

(** ** What one record can do, in any engine *)

Lemma handle_transaction_outcome
    (self self' : PaymentsEngine.t) (transaction : Transaction.t) (log : list log_record) :
  PaymentsEngine._handle_transaction self transaction = Ok (self', log) ->
  let self1 := fst (PaymentsEngine.resolve_client self (Transaction.client_id transaction)) in
  let client := snd (PaymentsEngine.resolve_client self (Transaction.client_id transaction)) in
  (self' = self1 /\
   (log = [] \/
    exists message,
      log = [(ERROR, message)] /\
      In message ["Client account is locked, could not perform operation";
                  "Duplicated transaction id"; "Not enough funds available";
                  "Dispute not possible"; "Resolve not possible";
                  "Chargeback not possible"])) \/
  (log = [] /\
   Account.locked (Client.account client) = false /\
   exists ledger ids account,
     self' = {| PaymentsEngine._deposits_withdrawals := ledger;
                PaymentsEngine._disputed_deposits_ids := ids;
                PaymentsEngine._clients :=
                  PyDict.set (PaymentsEngine._clients self1)
                    (Transaction.client_id transaction)
                    (Client.set_account client account) |}).
Proof.
  unfold PaymentsEngine._handle_transaction.
  destruct (PaymentsEngine.resolve_client self (Transaction.client_id transaction))
    as [self1 client].
  cbn [fst snd]. intros H.
  destruct (Account.locked (Client.account client)) eqn:Hlocked; cbn [negb] in H.
  { injection H as <- <-. left. split; [reflexivity|]. right. eexists.
    split; [reflexivity|]. simpl. tauto. }
  unfold PaymentsEngine._deposit, PaymentsEngine._withdrawal, PaymentsEngine._dispute,
    PaymentsEngine._resolve, PaymentsEngine._chargeback, PaymentsEngine._is_client_correct,
    PaymentsEngine.store_account, PaymentsEngine.set_clients, PaymentsEngine.py_and, bind in H.
  repeat match type of H with
         | context [match ?x with _ => _ end] =>
             destruct x eqn:?; cbn beta iota in H; try discriminate H
         end;
    injection H as <- <-;
    first [ left; split; [reflexivity|];
            first [ left; reflexivity
                  | right; eexists; split; [reflexivity|]; simpl; tauto ]
          | right; split; [reflexivity|]; split; [reflexivity|];
            do 3 eexists; reflexivity ].
Qed.

(** What handling a record does when it returns, in any engine: one of the
    effects of the rules, on the engine that holds the account of the
    record's client. *)
Lemma handle_transaction_returns_effect
    (self self' : PaymentsEngine.t) (transaction : Transaction.t) (log : list log_record) :
  PaymentsEngine._handle_transaction self transaction = Ok (self', log) ->
  effect (fst (PaymentsEngine.resolve_client self (Transaction.client_id transaction)))
    transaction
    (snd (PaymentsEngine.resolve_client self (Transaction.client_id transaction)))
    self'.
Proof.
  unfold PaymentsEngine._handle_transaction.
  destruct (PaymentsEngine.resolve_client self (Transaction.client_id transaction))
    as [self1 client].
  cbn [fst snd]. intros H.
  destruct (Account.locked (Client.account client)) eqn:Hlocked; cbn [negb] in H.
  { injection H as <- <-. constructor. }
  unfold PaymentsEngine._deposit, PaymentsEngine._withdrawal, PaymentsEngine._dispute,
    PaymentsEngine._resolve, PaymentsEngine._chargeback, PaymentsEngine._is_client_correct,
    PaymentsEngine._is_transaction_unique, PaymentsEngine._is_transaction_disputable,
    PaymentsEngine._is_under_dispute, PaymentsEngine._are_enough_funds,
    PyDict.contains, PyDict.getitem,
    PaymentsEngine.store_account, PaymentsEngine.set_clients,
    PaymentsEngine.set_deposits_withdrawals, PaymentsEngine.set_disputed_deposits_ids,
    PaymentsEngine.py_and, bind in H.
  cbn [PaymentsEngine._deposits_withdrawals PaymentsEngine._disputed_deposits_ids
       PaymentsEngine._clients] in H.
  repeat match type of H with
         | context [match ?x with _ => _ end] =>
             lazymatch x with
             | context [match _ with _ => _ end] => fail
             | _ => idtac
             end;
             destruct x eqn:?;
             cbn [negb andb PaymentsEngine._deposits_withdrawals
                  PaymentsEngine._disputed_deposits_ids PaymentsEngine._clients] in H;
             try discriminate H
         end;
    injection H as <- <-;
    repeat match goal with
           | E : String.eqb _ _ = true |- _ => apply String.eqb_eq in E
           | E : N.eqb _ _ = true |- _ => apply N.eqb_eq in E
           | E : negb _ = true |- _ => apply negb_true_iff in E
           | E : negb _ = false |- _ => apply negb_false_iff in E
           | E : Ok _ = Ok _ |- _ => injection E as <-
           | Hin : PyList.contains ?l ?x = true, E : PyList.remove ?l ?x = Ok _ |- _ =>
               rewrite (remove_present _ _ Hin) in E
           end;
    first [ apply effect_none
          | apply effect_deposit; assumption
          | apply effect_withdrawal; assumption
          | eapply effect_dispute; eauto
          | eapply effect_resolve; eauto
          | eapply effect_chargeback; eauto ].
Qed.

(** ** Exceptions *)

(** [_resolve] and [_chargeback] index the ledger with an id they have found
    under dispute: an id under dispute that the ledger does not hold makes
    them raise [KeyError]. *)
Lemma settlement_raises
    (self : PaymentsEngine.t) (transaction : Transaction.t) (client : Client.t) :
  PyList.contains (PaymentsEngine._disputed_deposits_ids self) (Transaction.id transaction)
    = true ->
  PyDict.get (PaymentsEngine._deposits_withdrawals self) (Transaction.id transaction)
    = None ->
  PaymentsEngine._resolve self transaction client
    = Raise (KeyError (Transaction.id transaction)) /\
  PaymentsEngine._chargeback self transaction client
    = Raise (KeyError (Transaction.id transaction)).
Proof.
  intros Hin Hled.
  unfold PaymentsEngine._resolve, PaymentsEngine._chargeback,
    PaymentsEngine._is_under_dispute, PaymentsEngine._is_client_correct, PyDict.getitem.
  rewrite Hin, Hled. simpl. now split.
Qed.

Lemma handle_transaction_raises
    (self : PaymentsEngine.t) (transaction : Transaction.t) (e : exn) :
  PaymentsEngine._handle_transaction self transaction = Raise e ->
  e = KeyError (Transaction.id transaction) /\
  Account.locked
    (Client.account
       (snd (PaymentsEngine.resolve_client self (Transaction.client_id transaction))))
    = false /\
  (Transaction.type transaction = TransactionType.RESOLVE \/
   Transaction.type transaction = TransactionType.CHARGEBACK) /\
  PyList.contains (PaymentsEngine._disputed_deposits_ids self) (Transaction.id transaction)
    = true /\
  PyDict.get (PaymentsEngine._deposits_withdrawals self) (Transaction.id transaction)
    = None.
Proof.
  pose proof (resolve_client_spec self (Transaction.client_id transaction)) as Hspec.
  cbv zeta in Hspec. destruct Hspec as (Hledger & Hids & _).
  unfold PaymentsEngine._handle_transaction.
  destruct (PaymentsEngine.resolve_client self (Transaction.client_id transaction))
    as [self1 client].
  cbn [fst snd] in *. rewrite <- Hledger, <- Hids. clear Hledger Hids. intros H.
  destruct (Account.locked (Client.account client)) eqn:Hlocked; cbn [negb] in H;
    [discriminate H|].
  unfold PaymentsEngine._deposit, PaymentsEngine._withdrawal, PaymentsEngine._dispute,
    PaymentsEngine._resolve, PaymentsEngine._chargeback, PaymentsEngine._is_client_correct,
    PaymentsEngine._is_transaction_unique, PaymentsEngine._is_transaction_disputable,
    PaymentsEngine._is_under_dispute, PaymentsEngine._are_enough_funds,
    PyDict.contains, PyDict.getitem,
    PaymentsEngine.store_account, PaymentsEngine.set_clients,
    PaymentsEngine.set_deposits_withdrawals, PaymentsEngine.set_disputed_deposits_ids,
    PaymentsEngine.py_and, bind in H.
  cbn [PaymentsEngine._deposits_withdrawals PaymentsEngine._disputed_deposits_ids
       PaymentsEngine._clients] in H.
  repeat match type of H with
         | context [match ?x with _ => _ end] =>
             lazymatch x with
             | context [match _ with _ => _ end] => fail
             | _ => idtac
             end;
             destruct x eqn:?;
             cbn [negb andb PaymentsEngine._deposits_withdrawals
                  PaymentsEngine._disputed_deposits_ids PaymentsEngine._clients] in H;
             try discriminate H
         end;
    repeat match goal with
           | E : String.eqb _ _ = true |- _ => apply String.eqb_eq in E
           | Hin : PyList.contains ?l ?x = true, E : PyList.remove ?l ?x = Raise _ |- _ =>
               rewrite (remove_present _ _ Hin) in E; discriminate E
           end;
    injection H as <-; auto.
Qed.

(** ** Deposits *)

(** X1.  A deposit on an unlocked account is accepted exactly when its id has no
    ledger entry, whatever the balances are: it is recorded in the ledger
    and its amount is added to [available], [held] and the lock staying as
    they are.  A deposit under a recorded id is refused with a diagnostic
    and the engine is unchanged. *)
Theorem deposit_rule
    (self : PaymentsEngine.t) (transaction : Transaction.t) (client : Client.t) :
  Transaction.type transaction = TransactionType.DEPOSIT ->
  PyDict.get (PaymentsEngine._clients self) (Transaction.client_id transaction)
    = Some client ->
  Account.locked (Client.account client) = false ->
  let ledger := PaymentsEngine._deposits_withdrawals self in
  let account := Client.account client in
  let accepted :=
    {| PaymentsEngine._deposits_withdrawals :=
         PyDict.set ledger (Transaction.id transaction) transaction;
       PaymentsEngine._disputed_deposits_ids := PaymentsEngine._disputed_deposits_ids self;
       PaymentsEngine._clients :=
         PyDict.set (PaymentsEngine._clients self) (Transaction.client_id transaction)
           {| Client.id := Client.id client;
              Client.account :=
                {| Account.available :=
                     (Account.available account + Transaction.amount transaction)%float;
                   Account.held := Account.held account;
                   Account.locked := false |} |} |} in
  (PyDict.get ledger (Transaction.id transaction) = None ->
   PaymentsEngine._handle_transaction self transaction = Ok (accepted, []) /\
   accepted <> self) /\
  (PyDict.get ledger (Transaction.id transaction) <> None ->
   PaymentsEngine._handle_transaction self transaction
   = Ok (self, [(ERROR, "Duplicated transaction id")])).
Proof.
  intros Htype Hget Hlocked ledger account accepted. subst ledger account accepted.
  rewrite (handle_transaction_unlocked _ _ _ Hget Hlocked). cbv zeta.
  rewrite Htype. kind_tests.
  unfold PaymentsEngine._is_transaction_unique, PyDict.contains, PaymentsEngine._deposit.
  split.
  - intros Hnone. rewrite Hnone. simpl. split.
    + unfold PaymentsEngine.store_account, Client.set_account, Account.set_available.
      simpl. now rewrite Hlocked.
    + intros Heq. apply (f_equal PaymentsEngine._deposits_withdrawals) in Heq.
      simpl in Heq. exact (set_changes_missing _ _ _ Hnone Heq).
  - intros Hsome.
    destruct (PyDict.get (PaymentsEngine._deposits_withdrawals self)
                (Transaction.id transaction)); [reflexivity | contradiction].
Qed.

Lemma deposit_rule_witness :
  let self := state_after [deposit 1 100 10.0] in
  PaymentsEngine._handle_transaction self (deposit 1 101 20.0)
  = Ok (state_after [deposit 1 100 10.0; deposit 1 101 20.0], []) /\
  PaymentsEngine._handle_transaction self (deposit 1 100 20.0)
  = Ok (self, [(ERROR, "Duplicated transaction id")]).
Proof.
  cbv zeta. split.
  - exact (proj1 (proj1 (deposit_rule (state_after [deposit 1 100 10.0])
                           (deposit 1 101 20.0) (client_with 1 10.0 0.0 false)
                           eq_refl eq_refl eq_refl)
                   eq_refl)).
  - apply (proj2 (deposit_rule (state_after [deposit 1 100 10.0])
                    (deposit 1 100 20.0) (client_with 1 10.0 0.0 false)
                    eq_refl eq_refl eq_refl)).
    discriminate.
Defined.

(** ** The accounts of the other clients *)

Lemma handle_transaction_frame
    (self self' : PaymentsEngine.t) (transaction : Transaction.t) (log : list log_record)
    (client_id : N) :
  PaymentsEngine._handle_transaction self transaction = Ok (self', log) ->
  client_id <> Transaction.client_id transaction ->
  PyDict.get (PaymentsEngine._clients self') client_id
  = PyDict.get (PaymentsEngine._clients self) client_id.
Proof.
  intros Hrun Hne.
  pose proof (resolve_client_spec self (Transaction.client_id transaction)) as Hspec.
  cbv zeta in Hspec. destruct Hspec as (_ & _ & _ & Hother & _).
  destruct (handle_transaction_outcome _ _ _ _ Hrun)
    as [[-> _] | (_ & _ & ledger & ids & account & ->)].
  - now apply Hother.
  - simpl. rewrite get_set_other by assumption. now apply Hother.
Qed.

(** X2.  A record changes no account but the one of its own client: the
    accounts of the others, and their absence, are as before. *)
Theorem other_accounts_are_untouched
    (self self' : PaymentsEngine.t) (transaction : Transaction.t) (log : list log_record)
    (client_id : N) :
  PaymentsEngine._handle_transaction self transaction = Ok (self', log) ->
  client_id <> Transaction.client_id transaction ->
  PyDict.get (PaymentsEngine._clients self') client_id
  = PyDict.get (PaymentsEngine._clients self) client_id.
Proof. exact (handle_transaction_frame self self' transaction log client_id). Qed.

Lemma other_accounts_are_untouched_witness :
  let self := state_after [deposit 1 100 10.0; deposit 2 201 10.0] in
  let self' := state_after [deposit 1 100 10.0; deposit 2 201 10.0; dispute 2 201] in
  PyDict.get (PaymentsEngine._clients self') 1
  = Some (client_with 1 10.0 0.0 false) /\
  PyDict.get (PaymentsEngine._clients self') 3 = None.
Proof.
  cbv zeta. split.
  - exact (other_accounts_are_untouched
             (state_after [deposit 1 100 10.0; deposit 2 201 10.0])
             (state_after [deposit 1 100 10.0; deposit 2 201 10.0; dispute 2 201])
             (dispute 2 201) [] 1%N eq_refl ltac:(discriminate)).
  - exact (other_accounts_are_untouched
             (state_after [deposit 1 100 10.0; deposit 2 201 10.0])
             (state_after [deposit 1 100 10.0; deposit 2 201 10.0; dispute 2 201])
             (dispute 2 201) [] 3%N eq_refl ltac:(discriminate)).
Defined.

(** ** Locked accounts *)

(** X3.  A locked account is never unlocked nor changed: after any further
    records, of its client or of others, it is the account it was. *)
Theorem locked_account_is_frozen
    (records : list Transaction.t) (self self' : PaymentsEngine.t)
    (log : list log_record) (client_id : N) (client : Client.t) :
  PyDict.get (PaymentsEngine._clients self) client_id = Some client ->
  Account.locked (Client.account client) = true ->
  PaymentsEngine.handle_all self records = Ok (self', log) ->
  PyDict.get (PaymentsEngine._clients self') client_id = Some client.
Proof.
  revert self log. induction records as [|record records IH]; intros self log Hget Hlocked.
  - simpl. intros H. injection H as <- <-. exact Hget.
  - simpl. destruct (TransactionValidator.is_valid record); [|now apply IH].
    destruct (PaymentsEngine._handle_transaction self record) as [[self1 log1]|e] eqn:Hrun;
      simpl; [|discriminate].
    destruct (PaymentsEngine.handle_all self1 records) as [[self2 log2]|e] eqn:Hrest;
      simpl; [|discriminate].
    intros H. injection H as <- <-.
    apply (IH self1 log2); [|assumption|assumption].
    destruct (N.eq_dec client_id (Transaction.client_id record)) as [->|Hne].
    + rewrite (handle_transaction_locked _ _ _ Hget Hlocked) in Hrun.
      injection Hrun as <- <-. exact Hget.
    + now rewrite (handle_transaction_frame _ _ _ _ _ Hrun Hne).
Qed.

Lemma locked_account_is_frozen_witness :
  let records := [deposit 1 101 5.0; deposit 2 200 1.0; resolve 1 100; withdrawal 1 102 1.0] in
  PyDict.get (PaymentsEngine._clients (state_after
     ([deposit 1 100 10.0; dispute 1 100; chargeback 1 100] ++ records))) 1
  = Some (client_with 1 0.0 0.0 true).
Proof.
  cbv zeta.
  apply (locked_account_is_frozen
           [deposit 1 101 5.0; deposit 2 200 1.0; resolve 1 100; withdrawal 1 102 1.0]
           (state_after [deposit 1 100 10.0; dispute 1 100; chargeback 1 100])
           (state_after ([deposit 1 100 10.0; dispute 1 100; chargeback 1 100]
                         ++ [deposit 1 101 5.0; deposit 2 200 1.0; resolve 1 100;
                             withdrawal 1 102 1.0]))
           [(ERROR, "Client account is locked, could not perform operation");
            (ERROR, "Client account is locked, could not perform operation");
            (ERROR, "Client account is locked, could not perform operation")]
           1%N (client_with 1 0.0 0.0 true)); reflexivity.
Defined.

(** X4.  An account that a record leaves locked was locked before, and is the
    account it was, or the record is a chargeback of its client for an id
    under dispute that the ledger holds for that client: nothing else
    locks an account. *)
Theorem only_a_chargeback_locks
    (self self' : PaymentsEngine.t) (transaction : Transaction.t) (log : list log_record)
    (client_id : N) (client' : Client.t) :
  PaymentsEngine._handle_transaction self transaction = Ok (self', log) ->
  PyDict.get (PaymentsEngine._clients self') client_id = Some client' ->
  Account.locked (Client.account client') = true ->
  PyDict.get (PaymentsEngine._clients self) client_id = Some client' \/
  (Transaction.type transaction = TransactionType.CHARGEBACK /\
   Transaction.client_id transaction = client_id /\
   PyList.contains (PaymentsEngine._disputed_deposits_ids self) (Transaction.id transaction)
     = true /\
   exists recorded,
     PyDict.get (PaymentsEngine._deposits_withdrawals self) (Transaction.id transaction)
       = Some recorded /\
     Transaction.client_id recorded = client_id).
Proof.
  intros Hrun Hget' Hlocked'.
  destruct (N.eq_dec client_id (Transaction.client_id transaction)) as [->|Hne].
  2:{ left. now rewrite <- (handle_transaction_frame _ _ _ _ _ Hrun Hne). }
  pose proof (resolve_client_spec self (Transaction.client_id transaction)) as Hspec.
  cbv zeta in Hspec. destruct Hspec as (Hledger & Hids & Hget1 & _ & Hknown).
  pose proof (handle_transaction_returns_effect _ _ _ _ Hrun) as Heff.
  inversion Heff as [ Hsame | Ht Hl Hled Hstate | Ht Hl Hled Hle Hstate
                    | recorded Ht Hl Hled Hclient Hin Hle Hstate
                    | recorded Ht Hl Hin Hled Hclient Hstate
                    | recorded Ht Hl Hin Hled Hclient Hstate ];
    subst self'; simpl in Hget'; try rewrite get_set_same in Hget';
    try (injection Hget' as <-; simpl in Hlocked'; congruence).
  - rewrite Hget1 in Hget'. injection Hget' as <-.
    destruct Hknown as [[Hget _] | [_ Hinit]]; [now left|].
    rewrite Hinit in Hlocked'. discriminate.
  - right. rewrite <- Hledger, <- Hids. split; [exact Ht|]. split; [reflexivity|].
    split; [exact Hin|]. now exists recorded.
Qed.

Lemma only_a_chargeback_locks_witness :
  let self := state_after [deposit 1 100 10.0; dispute 1 100] in
  PaymentsEngine._handle_transaction self (chargeback 1 100)
  = Ok (state_after [deposit 1 100 10.0; dispute 1 100; chargeback 1 100], []) /\
  (PyDict.get (PaymentsEngine._clients self) 1 = Some (client_with 1 0.0 0.0 true) \/
   (Transaction.type (chargeback 1 100) = TransactionType.CHARGEBACK /\
    Transaction.client_id (chargeback 1 100) = 1%N /\
    PyList.contains (PaymentsEngine._disputed_deposits_ids self) 100 = true /\
    exists recorded,
      PyDict.get (PaymentsEngine._deposits_withdrawals self) 100 = Some recorded /\
      Transaction.client_id recorded = 1%N)).
Proof.
  cbv zeta. split; [reflexivity|].
  exact (only_a_chargeback_locks
           (state_after [deposit 1 100 10.0; dispute 1 100])
           (state_after [deposit 1 100 10.0; dispute 1 100; chargeback 1 100])
           (chargeback 1 100) [] 1%N (client_with 1 0.0 0.0 true)
           eq_refl eq_refl eq_refl).
Defined.

(** ** The log *)

(** X5.  Handling a record logs at most one record, an error with one of the
    six messages of the engine, and logs it only for a record it refuses:
    the engine is then as it was, but for the empty account of a client
    seen for the first time. *)
Theorem an_error_is_logged_for_a_refusal_only
    (self self' : PaymentsEngine.t) (transaction : Transaction.t) (log : list log_record) :
  PaymentsEngine._handle_transaction self transaction = Ok (self', log) ->
  log = [] \/
  (exists message,
     log = [(ERROR, message)] /\
     In message ["Client account is locked, could not perform operation";
                 "Duplicated transaction id"; "Not enough funds available";
                 "Dispute not possible"; "Resolve not possible";
                 "Chargeback not possible"]) /\
  self' = fst (PaymentsEngine.resolve_client self (Transaction.client_id transaction)) /\
  (PyDict.contains (PaymentsEngine._clients self) (Transaction.client_id transaction) = true ->
   self' = self).
Proof.
  intros Hrun.
  destruct (handle_transaction_outcome _ _ _ _ Hrun) as [[Hsame [Hlog|Hlog]] | [Hlog _]];
    [now left | | now left].
  right. split; [exact Hlog|]. split; [exact Hsame|].
  intros Hknown. rewrite Hsame. unfold PyDict.contains in Hknown.
  destruct (PyDict.get (PaymentsEngine._clients self) (Transaction.client_id transaction))
    as [client|] eqn:Hget; [|discriminate].
  now rewrite (resolve_client_known _ _ _ Hget).
Qed.

Lemma an_error_is_logged_for_a_refusal_only_witness :
  let self := state_after [deposit 1 100 10.0] in
  PaymentsEngine._handle_transaction self (withdrawal 1 101 35.0)
  = Ok (self, [(ERROR, "Not enough funds available")]) /\
  ([(ERROR, "Not enough funds available")] = @nil log_record \/
   (exists message,
      [(ERROR, "Not enough funds available")] = [(ERROR, message)] /\
      In message ["Client account is locked, could not perform operation";
                  "Duplicated transaction id"; "Not enough funds available";
                  "Dispute not possible"; "Resolve not possible";
                  "Chargeback not possible"]) /\
   self = fst (PaymentsEngine.resolve_client self 1) /\
   (PyDict.contains (PaymentsEngine._clients self) 1 = true -> self = self)).
Proof.
  cbv zeta. split; [reflexivity|].
  exact (an_error_is_logged_for_a_refusal_only
           (state_after [deposit 1 100 10.0]) (state_after [deposit 1 100 10.0])
           (withdrawal 1 101 35.0) [(ERROR, "Not enough funds available")] eq_refl).
Defined.

Lemma handle_all_log
    (records : list Transaction.t) (self self' : PaymentsEngine.t) (log : list log_record) :
  PaymentsEngine.handle_all self records = Ok (self', log) ->
  Forall (fun record => fst record = ERROR) log /\
  (List.length log <= List.length (filter TransactionValidator.is_valid records))%nat.
Proof.
  revert self log. induction records as [|record records IH]; intros self log; simpl.
  - intros H. injection H as <- <-. split; [constructor | simpl; lia].
  - destruct (TransactionValidator.is_valid record); [|now apply IH].
    destruct (PaymentsEngine._handle_transaction self record) as [[self1 log1]|e] eqn:Hrun;
      simpl; [|discriminate].
    destruct (PaymentsEngine.handle_all self1 records) as [[self2 log2]|e] eqn:Hrest;
      simpl; [|discriminate].
    intros H. injection H as <- <-. destruct (IH _ _ Hrest) as [Herrors Hlength].
    destruct (handle_transaction_outcome _ _ _ _ Hrun)
      as [[_ [->|(message & -> & _)]] | [-> _]]; simpl.
    + split; [assumption | lia].
    + split; [now constructor | lia].
    + split; [assumption | lia].
Qed.

(** X6.  The log of the run on a file that has rows is made of errors, at
    most one for each record that the validator accepts, followed by the
    one information that all the transactions are processed. *)
Theorem log_of_a_run (rows : list Transaction.t) :
  rows <> [] ->
  exists lines errors,
    run rows = Ok (lines, (errors ++ [(INFO, "All transactions processed")])%list) /\
    Forall (fun record => fst record = ERROR) errors /\
    (List.length errors <= List.length (filter TransactionValidator.is_valid rows))%nat.
Proof.
  intros Hrows. destruct (run_of_rows rows Hrows) as (self & log & Hall & _ & Hrun).
  rewrite Hrun. do 2 eexists. split; [reflexivity|].
  exact (handle_all_log _ _ _ _ Hall).
Qed.

(** The log of the rows of [test_withdrawal_or_dispute_fails_if_no_funds]. *)
Lemma log_of_a_run_witness :
  let rows := [withdrawal 1 100 15.0; deposit 1 100 10.0; withdrawal 1 101 15.0;
               deposit 2 200 10.0; withdrawal 2 201 5.0; dispute 2 200] in
  run rows
  = Ok (["client,available,held,total,locked"; "1,10.0,0.0,10.0,false";
         "2,5.0,0.0,5.0,false"],
        [(ERROR, "Not enough funds available"); (ERROR, "Not enough funds available");
         (INFO, "All transactions processed")]) /\
  exists lines errors,
    run rows = Ok (lines, (errors ++ [(INFO, "All transactions processed")])%list) /\
    Forall (fun record => fst record = ERROR) errors /\
    (List.length errors <= 6)%nat.
Proof.
  cbv zeta. split; [vm_compute; reflexivity|].
  exact (log_of_a_run
           [withdrawal 1 100 15.0; deposit 1 100 10.0; withdrawal 1 101 15.0;
            deposit 2 200 10.0; withdrawal 2 201 5.0; dispute 2 200]
           ltac:(discriminate)).
Defined.

(** X7.  The one exception that handling a record can raise, in any engine at
    all, is the [KeyError] of a resolve or a chargeback, on an unlocked
    account, for an id that is under dispute while the ledger has no entry
    for it.  A deposit, a withdrawal and a dispute never raise: the lookups
    of [_dispute] are guarded by its test that the ledger has the id, and
    [remove] is called for ids found in the list only. *)
Theorem exceptions_of_handle_transaction
    (self : PaymentsEngine.t) (transaction : Transaction.t) (e : exn) :
  PaymentsEngine._handle_transaction self transaction = Raise e <->
  e = KeyError (Transaction.id transaction) /\
  Account.locked (account_of self (Transaction.client_id transaction)) = false /\
  (Transaction.type transaction = TransactionType.RESOLVE \/
   Transaction.type transaction = TransactionType.CHARGEBACK) /\
  PyList.contains (PaymentsEngine._disputed_deposits_ids self) (Transaction.id transaction)
    = true /\
  PyDict.get (PaymentsEngine._deposits_withdrawals self) (Transaction.id transaction)
    = None.
Proof.
  pose proof (resolve_client_spec self (Transaction.client_id transaction)) as Hspec.
  cbv zeta in Hspec. destruct Hspec as (Hledger & Hids & Hget1 & _ & Hknown).
  assert (Haccount :
            account_of self (Transaction.client_id transaction)
            = Client.account
                (snd (PaymentsEngine.resolve_client self
                        (Transaction.client_id transaction)))).
  { unfold account_of. destruct Hknown as [[-> _] | [-> ->]]; reflexivity. }
  rewrite Haccount. split.
  - apply handle_transaction_raises.
  - intros (-> & Hlocked & Htype & Hin & Hled).
    rewrite handle_transaction_resolved.
    rewrite (handle_transaction_unlocked _ _ _ Hget1 Hlocked). cbv zeta.
    rewrite <- Hids in Hin. rewrite <- Hledger in Hled.
    destruct Htype as [-> | ->]; kind_tests.
    + exact (proj1 (settlement_raises _ _ _ Hin Hled)).
    + exact (proj2 (settlement_raises _ _ _ Hin Hled)).
Qed.

(** An engine that no run reaches, with an id under dispute and an empty
    ledger: a resolve of the id raises. *)
Example resolve_of_an_unrecorded_dispute_raises :
  PaymentsEngine._handle_transaction
    {| PaymentsEngine._deposits_withdrawals := PyDict.empty;
       PaymentsEngine._disputed_deposits_ids := [100%N];
       PaymentsEngine._clients := PyDict.empty |}
    (resolve 1 100)
  = Raise (KeyError 100).
Proof. reflexivity. Qed.

(** X8.  No record, valid or not, makes an engine that a run has reached
    raise, and no list of records does: the run goes on to its report. *)
Theorem reachable_engine_never_raises (self : PaymentsEngine.t) :
  reachable self ->
  (forall transaction,
     exists self' log,
       PaymentsEngine._handle_transaction self transaction = Ok (self', log)) /\
  (forall records,
     exists self' log,
       PaymentsEngine.handle_all self records = Ok (self', log) /\ reachable self').
Proof.
  intros Hreach. split.
  - intros transaction. now apply reachable_handles_every_record.
  - intros records. now apply handle_all_reachable.
Qed.

Lemma reachable_engine_never_raises_witness :
  let self := state_after [deposit 1 100 10.0; dispute 1 100] in
  (forall transaction,
     exists self' log,
       PaymentsEngine._handle_transaction self transaction = Ok (self', log)) /\
  (forall records,
     exists self' log,
       PaymentsEngine.handle_all self records = Ok (self', log) /\ reachable self').
Proof.
  cbv zeta.
  exact (reachable_engine_never_raises
           (state_after [deposit 1 100 10.0; dispute 1 100])
           (state_after_reachable [deposit 1 100 10.0; dispute 1 100])).
Defined.

(** ** The lines of the report *)

Lemma keys_contains {V : Type} (d : PyDict.t V) (k : N) :
  PyList.contains (PyDict.keys d) k = PyDict.contains d k.
Proof.
  unfold PyList.contains, PyDict.contains.
  induction d as [|[k' v] d IH]; simpl; [reflexivity|].
  destruct (N.eqb k k'); simpl; [reflexivity | exact IH].
Qed.

Lemma keys_set {V : Type} (d : PyDict.t V) (k : N) (v : V) :
  PyDict.keys (PyDict.set d k v)
  = if PyDict.contains d k then PyDict.keys d else (PyDict.keys d ++ [k])%list.
Proof.
  unfold PyDict.contains. induction d as [|[k' v'] d IH]; simpl; [reflexivity|].
  destruct (N.eqb k k') eqn:E; simpl; [reflexivity|].
  rewrite IH. now destruct (PyDict.get d k).
Qed.

Lemma get_In {V : Type} (d : PyDict.t V) (k : N) (v : V) :
  PyDict.get d k = Some v -> In (k, v) d.
Proof.
  induction d as [|[k' v'] d IH]; simpl; [discriminate|].
  destruct (N.eqb k k') eqn:E.
  - apply N.eqb_eq in E. subst. intros H. injection H as <-. now left.
  - intros H. right. now apply IH.
Qed.

Lemma Forall_set {V : Type} (P : N * V -> Prop) (d : PyDict.t V) (k : N) (v : V) :
  Forall P d -> P (k, v) -> Forall P (PyDict.set d k v).
Proof.
  intros Hd Hv. induction Hd as [|[k' v'] d Hx Hd IH]; simpl.
  - now constructor.
  - destruct (N.eqb k k') eqn:E.
    + apply N.eqb_eq in E. subst. now constructor.
    + now constructor.
Qed.

(** The keys of [_clients] after a record: the id of its client is added
    behind the others when it is new, and that is all. *)
Lemma handle_transaction_keys
    (self self' : PaymentsEngine.t) (transaction : Transaction.t) (log : list log_record) :
  PaymentsEngine._handle_transaction self transaction = Ok (self', log) ->
  PyDict.keys (PaymentsEngine._clients self')
  = first_seen (PyDict.keys (PaymentsEngine._clients self))
      [Transaction.client_id transaction].
Proof.
  intros Hrun. simpl. rewrite keys_contains.
  pose proof (resolve_client_spec self (Transaction.client_id transaction)) as Hspec.
  cbv zeta in Hspec. destruct Hspec as (_ & _ & Hget1 & _ & _).
  assert (Hkeys1 :
            PyDict.keys (PaymentsEngine._clients
                           (fst (PaymentsEngine.resolve_client self
                                   (Transaction.client_id transaction))))
            = if PyDict.contains (PaymentsEngine._clients self)
                   (Transaction.client_id transaction)
              then PyDict.keys (PaymentsEngine._clients self)
              else (PyDict.keys (PaymentsEngine._clients self)
                    ++ [Transaction.client_id transaction])%list).
  { unfold PaymentsEngine.resolve_client, PyDict.setdefault, PyDict.contains.
    destruct (PyDict.get (PaymentsEngine._clients self)
                (Transaction.client_id transaction)) eqn:Hget; simpl; [reflexivity|].
    rewrite keys_set. unfold PyDict.contains. now rewrite Hget. }
  rewrite <- Hkeys1.
  destruct (handle_transaction_outcome _ _ _ _ Hrun)
    as [[-> _] | (_ & _ & ledger & ids & account & ->)]; [reflexivity|].
  simpl. rewrite keys_set. unfold PyDict.contains. now rewrite Hget1.
Qed.

Lemma handle_all_keys
    (records : list Transaction.t) (self self' : PaymentsEngine.t) (log : list log_record) :
  PaymentsEngine.handle_all self records = Ok (self', log) ->
  PyDict.keys (PaymentsEngine._clients self')
  = first_seen (PyDict.keys (PaymentsEngine._clients self))
      (map Transaction.client_id (filter TransactionValidator.is_valid records)).
Proof.
  revert self log. induction records as [|record records IH]; intros self log; simpl.
  - intros H. now injection H as <- <-.
  - destruct (TransactionValidator.is_valid record); [|now apply IH].
    destruct (PaymentsEngine._handle_transaction self record) as [[self1 log1]|e] eqn:Hrun;
      simpl; [|discriminate].
    destruct (PaymentsEngine.handle_all self1 records) as [[self2 log2]|e] eqn:Hrest;
      simpl; [|discriminate].
    intros H. injection H as <- <-.
    rewrite (IH _ _ Hrest), (handle_transaction_keys _ _ _ _ Hrun). simpl.
    now destruct (PyList.contains (PyDict.keys (PaymentsEngine._clients self))
                    (Transaction.client_id record)).
Qed.

(** Every account is stored under the id it carries. *)
Lemma handle_transaction_ids
    (self self' : PaymentsEngine.t) (transaction : Transaction.t) (log : list log_record) :
  PaymentsEngine._handle_transaction self transaction = Ok (self', log) ->
  Forall (fun entry => Client.id (snd entry) = fst entry) (PaymentsEngine._clients self) ->
  Forall (fun entry => Client.id (snd entry) = fst entry) (PaymentsEngine._clients self').
Proof.
  intros Hrun Hids.
  pose proof (resolve_client_spec self (Transaction.client_id transaction)) as Hspec.
  cbv zeta in Hspec. destruct Hspec as (_ & _ & Hget1 & _ & _).
  assert (Hids1 : Forall (fun entry => Client.id (snd entry) = fst entry)
                    (PaymentsEngine._clients
                       (fst (PaymentsEngine.resolve_client self
                               (Transaction.client_id transaction))))).
  { unfold PaymentsEngine.resolve_client, PyDict.setdefault.
    destruct (PyDict.get (PaymentsEngine._clients self)
                (Transaction.client_id transaction)); simpl; [assumption|].
    apply Forall_set; [assumption | reflexivity]. }
  destruct (handle_transaction_outcome _ _ _ _ Hrun)
    as [[-> _] | (_ & _ & ledger & ids & account & ->)]; [assumption|].
  simpl. apply Forall_set; [assumption|]. simpl.
  apply get_In in Hget1. rewrite Forall_forall in Hids1. exact (Hids1 _ Hget1).
Qed.

Lemma handle_all_ids
    (records : list Transaction.t) (self self' : PaymentsEngine.t) (log : list log_record) :
  PaymentsEngine.handle_all self records = Ok (self', log) ->
  Forall (fun entry => Client.id (snd entry) = fst entry) (PaymentsEngine._clients self) ->
  Forall (fun entry => Client.id (snd entry) = fst entry) (PaymentsEngine._clients self').
Proof.
  revert self log. induction records as [|record records IH]; intros self log; simpl.
  - intros H. now injection H as <- <-.
  - destruct (TransactionValidator.is_valid record); [|now apply IH].
    destruct (PaymentsEngine._handle_transaction self record) as [[self1 log1]|e] eqn:Hrun;
      simpl; [|discriminate].
    destruct (PaymentsEngine.handle_all self1 records) as [[self2 log2]|e] eqn:Hrest;
      simpl; [|discriminate].
    intros H. injection H as <- <-. intros Hids.
    apply (IH _ _ Hrest). exact (handle_transaction_ids _ _ _ _ Hrun Hids).
Qed.

(** The clients of the lines of a report, in the order of the lines. *)
Lemma report_clients (records : list Transaction.t) :
  exists accounts,
    report_of records = Some (header_line :: map balance_line accounts) /\
    (records <> [] -> output records = Ok (header_line :: map balance_line accounts)) /\
    map Client.id accounts
    = first_seen [] (map Transaction.client_id
                       (filter TransactionValidator.is_valid records)).
Proof.
  destruct (handle_all_reachable records PaymentsEngine.init reachable_init)
    as (self & log & Hrun & _).
  exists (PyDict.values (PaymentsEngine._clients self)).
  assert (Hreport : report_of records
                    = Some (header_line
                            :: map balance_line
                                 (PyDict.values (PaymentsEngine._clients self)))).
  { rewrite report_of_state. unfold state_after. now rewrite Hrun. }
  split; [exact Hreport|]. split.
  - intros Hrows. destruct (output_report records Hrows) as (lines & Hlines & Houtput).
    rewrite Houtput. rewrite Hreport in Hlines. now injection Hlines as <-.
  - rewrite <- (handle_all_keys _ _ _ _ Hrun : _ = first_seen [] _).
    pose proof (handle_all_ids _ _ _ _ Hrun (Forall_nil _)) as Hids.
    unfold PyDict.values, PyDict.keys. rewrite map_map.
    apply map_ext_in. intros entry Hin. rewrite Forall_forall in Hids. now apply Hids.
Qed.

Lemma first_seen_In (ids seen : list N) (id : N) :
  In id (first_seen seen ids) <-> In id seen \/ In id ids.
Proof.
  revert seen. induction ids as [|x ids IH]; intros seen; simpl; [tauto|].
  destruct (PyList.contains seen x) eqn:E.
  - apply contains_In in E. rewrite IH. split; [tauto|].
    intros [H|[<-|H]]; auto.
  - rewrite IH, in_app_iff. simpl. tauto.
Qed.

Lemma first_seen_NoDup (ids seen : list N) :
  NoDup seen -> NoDup (first_seen seen ids).
Proof.
  revert seen. induction ids as [|x ids IH]; intros seen Hseen; simpl; [assumption|].
  destruct (PyList.contains seen x) eqn:E; [now apply IH|].
  apply IH. apply NoDup_append; [assumption|].
  intros Hin. apply contains_In in Hin. congruence.
Qed.

(** X11.  The report has its lines in the order in which the clients are first
    seen among the records that the validator accepts; it is what the run
    on a file with these rows writes. *)
Theorem report_is_in_first_seen_order (records : list Transaction.t) :
  exists accounts,
    report_of records = Some (header_line :: map balance_line accounts) /\
    (records <> [] -> output records = Ok (header_line :: map balance_line accounts)) /\
    map Client.id accounts
    = first_seen [] (map Transaction.client_id
                       (filter TransactionValidator.is_valid records)).
Proof. exact (report_clients records). Qed.

(** X12.  The report has one line for each client of a record that the validator
    accepts, whatever became of the record, and no client has two lines; it
    is what the run on a file with these rows writes. *)
Theorem report_has_one_line_for_each_client (records : list Transaction.t) :
  exists accounts,
    report_of records = Some (header_line :: map balance_line accounts) /\
    (records <> [] -> output records = Ok (header_line :: map balance_line accounts)) /\
    NoDup (map Client.id accounts) /\
    forall client_id,
      In client_id (map Client.id accounts) <->
      exists record,
        In record records /\
        TransactionValidator.is_valid record = true /\
        Transaction.client_id record = client_id.
Proof.
  destruct (report_clients records) as (accounts & Hreport & Houtput & Hids).
  exists accounts. split; [exact Hreport|]. split; [exact Houtput|]. rewrite Hids. split.
  - apply first_seen_NoDup. constructor.
  - intros client_id. rewrite first_seen_In, in_map_iff. split.
    + intros [[]|(record & Hclient & Hin)]. apply filter_In in Hin.
      exists record. tauto.
    + intros (record & Hin & Hvalid & Hclient). right. exists record.
      split; [assumption|]. apply filter_In. now split.
Qed.

(** ** The ledger *)

(** X13.  In an engine that a run has reached, every entry of the ledger is a
    deposit or a withdrawal, stored under its own id, with an amount above
    zero (not a NaN), of a client that has an account: a dispute, a resolve
    or a chargeback is never recorded. *)
Theorem ledger_holds_valid_deposits_and_withdrawals (self : PaymentsEngine.t) :
  reachable self ->
  forall id recorded,
    PyDict.get (PaymentsEngine._deposits_withdrawals self) id = Some recorded ->
    Transaction.id recorded = id /\
    (Transaction.type recorded = TransactionType.DEPOSIT \/
     Transaction.type recorded = TransactionType.WITHDRAWAL) /\
    (0 <? Transaction.amount recorded)%float = true /\
    PyDict.contains (PaymentsEngine._clients self) (Transaction.client_id recorded) = true.
Proof.
  intros Hreach id recorded Hled.
  pose proof (reachable_well_formed _ Hreach) as Hwf.
  destruct (wf_ledger_entry _ Hwf _ _ Hled) as (Hid & Hpos & Hkind).
  split; [exact Hid|]. split; [|split; [exact Hpos | exact (wf_ledger_client _ Hwf _ _ Hled)]].
  unfold str_in in Hkind. simpl in Hkind.
  apply orb_true_iff in Hkind. destruct Hkind as [H|H].
  - left. now apply String.eqb_eq.
  - right. apply orb_true_iff in H. destruct H as [H|H]; [|discriminate].
    now apply String.eqb_eq.
Qed.

Lemma ledger_holds_valid_deposits_and_withdrawals_witness :
  let self := state_after [deposit 1 100 10.0; withdrawal 1 101 4.0; dispute 1 100] in
  PyDict.get (PaymentsEngine._deposits_withdrawals self) 101 = Some (withdrawal 1 101 4.0) /\
  Transaction.id (withdrawal 1 101 4.0) = 101%N /\
  (Transaction.type (withdrawal 1 101 4.0) = TransactionType.DEPOSIT \/
   Transaction.type (withdrawal 1 101 4.0) = TransactionType.WITHDRAWAL) /\
  (0 <? Transaction.amount (withdrawal 1 101 4.0))%float = true /\
  PyDict.contains (PaymentsEngine._clients self)
    (Transaction.client_id (withdrawal 1 101 4.0)) = true.
Proof.
  cbv zeta. split; [reflexivity|].
  exact (ledger_holds_valid_deposits_and_withdrawals
           (state_after [deposit 1 100 10.0; withdrawal 1 101 4.0; dispute 1 100])
           (state_after_reachable
              [deposit 1 100 10.0; withdrawal 1 101 4.0; dispute 1 100])
           101%N (withdrawal 1 101 4.0) eq_refl).
Defined.

(** ** What the rules leave alone *)

Lemma account_of_resolved (self : PaymentsEngine.t) (client_id : N) :
  account_of self client_id
  = Client.account (snd (PaymentsEngine.resolve_client self client_id)).
Proof.
  unfold account_of, PaymentsEngine.resolve_client, PyDict.setdefault.
  now destruct (PyDict.get (PaymentsEngine._clients self) client_id).
Qed.

(** X14.  A deposit or a withdrawal, accepted or not, changes neither the ids
    under dispute nor the held funds or the lock of any account; a
    dispute, a resolve or a chargeback, accepted or not, never changes the
    ledger. *)
Theorem rules_leave_the_rest_alone
    (self self' : PaymentsEngine.t) (transaction : Transaction.t) (log : list log_record) :
  PaymentsEngine._handle_transaction self transaction = Ok (self', log) ->
  (Transaction.type transaction = TransactionType.DEPOSIT \/
   Transaction.type transaction = TransactionType.WITHDRAWAL ->
   PaymentsEngine._disputed_deposits_ids self' = PaymentsEngine._disputed_deposits_ids self /\
   forall client_id,
     Account.held (account_of self' client_id) = Account.held (account_of self client_id) /\
     Account.locked (account_of self' client_id)
     = Account.locked (account_of self client_id)) /\
  (Transaction.type transaction = TransactionType.DISPUTE \/
   Transaction.type transaction = TransactionType.RESOLVE \/
   Transaction.type transaction = TransactionType.CHARGEBACK ->
   PaymentsEngine._deposits_withdrawals self' = PaymentsEngine._deposits_withdrawals self).
Proof.
  intros Hrun.
  pose proof (resolve_client_spec self (Transaction.client_id transaction)) as Hspec.
  cbv zeta in Hspec. destruct Hspec as (Hledger & Hids & Hget1 & _ & _).
  pose proof (account_of_resolved self (Transaction.client_id transaction)) as Haccount.
  assert (Hother : forall client_id,
            client_id <> Transaction.client_id transaction ->
            account_of self' client_id = account_of self client_id).
  { intros client_id Hne. unfold account_of.
    now rewrite (handle_transaction_frame _ _ _ _ _ Hrun Hne). }
  assert (Hown : forall client_id,
            (client_id <> Transaction.client_id transaction ->
             account_of self' client_id = account_of self client_id) ->
            Account.held (account_of self' (Transaction.client_id transaction))
            = Account.held (account_of self (Transaction.client_id transaction)) ->
            Account.locked (account_of self' (Transaction.client_id transaction))
            = Account.locked (account_of self (Transaction.client_id transaction)) ->
            Account.held (account_of self' client_id)
            = Account.held (account_of self client_id) /\
            Account.locked (account_of self' client_id)
            = Account.locked (account_of self client_id)).
  { intros client_id Hframe Hheld Hlock.
    destruct (N.eq_dec client_id (Transaction.client_id transaction)) as [->|Hne];
      [now split | now rewrite Hframe]. }
  pose proof (handle_transaction_returns_effect _ _ _ _ Hrun) as Heff.
  inversion Heff as [ Hsame | Ht Hl Hled Hstate | Ht Hl Hled Hle Hstate
                    | recorded Ht Hl Hled Hclient Hin Hle Hstate
                    | recorded Ht Hl Hin Hled Hclient Hstate
                    | recorded Ht Hl Hin Hled Hclient Hstate ];
    (split; [intros Hkind | intros Hkind]);
    try (exfalso; rewrite Ht in Hkind; intuition discriminate);
    try (subst self'; simpl; assumption).
  - subst self'. split; [assumption|]. intros client_id.
    apply Hown; [now apply Hother | |];
      unfold account_of at 1; rewrite Hget1; now rewrite Haccount.
  - subst self'. split; [assumption|]. intros client_id.
    apply Hown; [now apply Hother | |];
      unfold account_of at 1; simpl; rewrite get_set_same; now rewrite Haccount.
  - subst self'. split; [assumption|]. intros client_id.
    apply Hown; [now apply Hother | |];
      unfold account_of at 1; simpl; rewrite get_set_same; now rewrite Haccount.
Qed.

Lemma rules_leave_the_rest_alone_witness :
  let self := state_after [deposit 1 100 10.0; deposit 2 200 5.0; dispute 2 200] in
  let self' := state_after [deposit 1 100 10.0; deposit 2 200 5.0; dispute 2 200;
                            withdrawal 2 201 1.0] in
  PaymentsEngine._disputed_deposits_ids self' = [200%N] /\
  Account.held (account_of self' 2) = 5.0%float.
Proof.
  cbv zeta.
  destruct (proj1 (rules_leave_the_rest_alone
                     (state_after [deposit 1 100 10.0; deposit 2 200 5.0; dispute 2 200])
                     (state_after [deposit 1 100 10.0; deposit 2 200 5.0; dispute 2 200;
                                   withdrawal 2 201 1.0])
                     (withdrawal 2 201 1.0) [(ERROR, "Not enough funds available")]
                     eq_refl)
              (or_intror eq_refl)) as [Hids Hheld].
  split; [exact Hids|]. exact (proj1 (Hheld 2%N)).
Defined.

(** ** The validator *)

(** The binary64 numbers above zero: the positive finite numbers and
    +infinity.  A NaN, which is what an empty amount is read as, a zero
    and a negative number are not above zero. *)
Lemma above_zero (a : float) :
  (0 <? a)%float = true <->
  Prim2SF a = S754_infinity false \/
  exists m e, Prim2SF a = S754_finite false m e.
Proof.
  rewrite ltb_spec. change (Prim2SF 0) with (S754_zero false).
  destruct (Prim2SF a) as [s|s| |s m e]; try destruct s; simpl; split;
    try discriminate; try reflexivity; eauto;
    intros [H|(m' & e' & H)]; discriminate.
Qed.

(** X15.  The validator accepts a dispute, a resolve and a chargeback whatever
    their amount is, and a deposit or a withdrawal exactly when the amount
    is above zero; it rejects a record of any other kind. *)
Theorem records_that_the_validator_accepts (transaction : Transaction.t) :
  TransactionValidator.is_valid transaction = true <->
  (Transaction.type transaction = TransactionType.DISPUTE \/
   Transaction.type transaction = TransactionType.RESOLVE \/
   Transaction.type transaction = TransactionType.CHARGEBACK) \/
  ((Transaction.type transaction = TransactionType.DEPOSIT \/
    Transaction.type transaction = TransactionType.WITHDRAWAL) /\
   (Prim2SF (Transaction.amount transaction) = S754_infinity false \/
    exists m e, Prim2SF (Transaction.amount transaction) = S754_finite false m e)).
Proof.
  rewrite <- above_zero.
  unfold TransactionValidator.is_valid, TransactionValidator._is_valid_type,
    TransactionValidator._is_greater_than_zero.
  split.
  - intros H. apply andb_true_iff in H. destruct H as [Htype Hpos].
    unfold str_in, TransactionType.ALLTYPES in Htype. cbn [existsb] in Htype.
    repeat (apply orb_true_iff in Htype; destruct Htype as [Htype|Htype]);
      try discriminate Htype; apply String.eqb_eq in Htype; rewrite Htype in *;
      simpl in Hpos; auto.
  - intros [[H | [H | H]] | [[H | H] Hpos]]; rewrite H; simpl; auto.
Qed.

(** ** Amounts of the records that refer to a transaction *)

(** X16.  The amount of a dispute, a resolve or a chargeback is never read:
    records of one of these kinds for the same client and id are handled
    alike, in any engine, whatever amounts they carry. *)
Theorem amount_of_a_settlement_is_ignored
    (self : PaymentsEngine.t) (type : string) (client tx : N) (amount amount' : float) :
  type = TransactionType.DISPUTE \/ type = TransactionType.RESOLVE \/
  type = TransactionType.CHARGEBACK ->
  TransactionValidator.is_valid (row type client tx amount) = true /\
  PaymentsEngine._handle_transaction self (row type client tx amount)
  = PaymentsEngine._handle_transaction self (row type client tx amount').
Proof.
  intros [-> | [-> | ->]]; split; reflexivity.
Qed.

Lemma amount_of_a_settlement_is_ignored_witness :
  let self := state_after [deposit 1 100 10.0] in
  TransactionValidator.is_valid (row "dispute" 1 100 (-3.5)) = true /\
  PaymentsEngine._handle_transaction self (row "dispute" 1 100 (-3.5))
  = PaymentsEngine._handle_transaction self (dispute 1 100).
Proof.
  cbv zeta.
  exact (amount_of_a_settlement_is_ignored (state_after [deposit 1 100 10.0])
           "dispute" 1%N 100%N (-3.5)%float nan (or_introl eq_refl)).
Defined.

(** ** A dispute and its resolve *)

Lemma without_first_last (l : list N) (x : N) :
  PyList.contains l x = false -> without_first (l ++ [x]) x = l.
Proof.
  unfold PyList.contains. induction l as [|y l IH]; simpl.
  - now rewrite N.eqb_refl.
  - destruct (N.eqb x y); simpl; [discriminate|]. intros H. now rewrite IH.
Qed.

(** X17.  A dispute that is accepted can be resolved at once, by a resolve of
    the same client for the same id: the resolve is accepted, and the ids
    under dispute, the ledger and the lock are then as they were before
    the dispute.  The balances are the binary64 results of the two steps. *)
Theorem resolve_undoes_the_dispute_of_an_id
    (self self1 : PaymentsEngine.t) (transaction transaction' : Transaction.t)
    (log : list log_record) :
  Transaction.type transaction = TransactionType.DISPUTE ->
  Transaction.type transaction' = TransactionType.RESOLVE ->
  Transaction.client_id transaction' = Transaction.client_id transaction ->
  Transaction.id transaction' = Transaction.id transaction ->
  PaymentsEngine._handle_transaction self transaction = Ok (self1, log) ->
  PyList.contains (PaymentsEngine._disputed_deposits_ids self) (Transaction.id transaction)
    = false ->
  PyList.contains (PaymentsEngine._disputed_deposits_ids self1) (Transaction.id transaction)
    = true ->
  exists self2 recorded,
    PaymentsEngine._handle_transaction self1 transaction' = Ok (self2, []) /\
    PaymentsEngine._disputed_deposits_ids self2 = PaymentsEngine._disputed_deposits_ids self /\
    PaymentsEngine._deposits_withdrawals self2 = PaymentsEngine._deposits_withdrawals self /\
    PyDict.get (PaymentsEngine._deposits_withdrawals self) (Transaction.id transaction)
      = Some recorded /\
    let account := account_of self (Transaction.client_id transaction) in
    let amount := Transaction.amount recorded in
    account_of self2 (Transaction.client_id transaction)
    = {| Account.available := (Account.available account - amount + amount)%float;
         Account.held := (Account.held account + amount - amount)%float;
         Account.locked := false |}.
Proof.
  intros Htype Htype' Hclient' Hid' Hrun Hfree Hdisputed.
  pose proof (resolve_client_spec self (Transaction.client_id transaction)) as Hspec.
  cbv zeta in Hspec. destruct Hspec as (Hledger & Hids & _).
  pose proof (account_of_resolved self (Transaction.client_id transaction)) as Haccount.
  pose proof (handle_transaction_returns_effect _ _ _ _ Hrun) as Heff.
  inversion Heff as [ Hsame | Ht Hl Hled Hstate | Ht Hl Hled Hle Hstate
                    | recorded Ht Hl Hled Hclient Hin Hle Hstate
                    | recorded Ht Hl Hin Hled Hclient Hstate
                    | recorded Ht Hl Hin Hled Hclient Hstate ];
    try (exfalso; rewrite Htype in Ht; discriminate Ht).
  { exfalso. subst self1. rewrite Hids in Hdisputed. congruence. }
  rewrite Hstate. rewrite Hledger in Hled.
  set (client := snd (PaymentsEngine.resolve_client self
                        (Transaction.client_id transaction))) in *.
  set (stored := Client.set_account client
         {| Account.available :=
              (Account.available (Client.account client)
               - Transaction.amount recorded)%float;
            Account.held :=
              (Account.held (Client.account client) + Transaction.amount recorded)%float;
            Account.locked := Account.locked (Client.account client) |}) in *.
  assert (Hget1 : PyDict.get (PaymentsEngine._clients self1)
                    (Transaction.client_id transaction') = Some stored).
  { rewrite Hclient'. subst self1. simpl. apply get_set_same. }
  assert (Hunlocked : Account.locked (Client.account stored) = false) by exact Hl.
  assert (Hin1 : PyList.contains (PaymentsEngine._disputed_deposits_ids self1)
                   (Transaction.id transaction') = true).
  { rewrite Hid'. exact Hdisputed. }
  assert (Hled1 : PyDict.get (PaymentsEngine._deposits_withdrawals self1)
                    (Transaction.id transaction') = Some recorded).
  { rewrite Hid'. subst self1. simpl. rewrite Hledger. exact Hled. }
  assert (Hclient1 : Transaction.client_id recorded = Transaction.client_id transaction')
    by congruence.
  eexists. exists recorded. split.
  { rewrite (handle_transaction_unlocked _ _ _ Hget1 Hunlocked). cbv zeta.
    rewrite Htype'. kind_tests.
    exact (resolve_possible _ _ _ _ Hin1 Hled1 Hclient1). }
  rewrite Hid', Hclient'. subst self1. simpl. rewrite Hids.
  split; [now apply without_first_last|]. split; [exact Hledger|]. split; [exact Hled|].
  rewrite Haccount. unfold account_of. simpl. rewrite get_set_same. simpl.
  now rewrite Hl.
Qed.

Lemma resolve_undoes_the_dispute_of_an_id_witness :
  let self := state_after [deposit 1 100 10.0; deposit 1 101 2.5] in
  exists self2 recorded,
    PaymentsEngine._handle_transaction
      (state_after [deposit 1 100 10.0; deposit 1 101 2.5; dispute 1 100]) (resolve 1 100)
    = Ok (self2, []) /\
    PaymentsEngine._disputed_deposits_ids self2 = PaymentsEngine._disputed_deposits_ids self /\
    PaymentsEngine._deposits_withdrawals self2 = PaymentsEngine._deposits_withdrawals self /\
    PyDict.get (PaymentsEngine._deposits_withdrawals self) 100 = Some recorded /\
    account_of self2 1
    = {| Account.available :=
           (Account.available (account_of self 1) - Transaction.amount recorded
            + Transaction.amount recorded)%float;
         Account.held :=
           (Account.held (account_of self 1) + Transaction.amount recorded
            - Transaction.amount recorded)%float;
         Account.locked := false |}.
Proof.
  cbv zeta.
  exact (resolve_undoes_the_dispute_of_an_id
           (state_after [deposit 1 100 10.0; deposit 1 101 2.5])
           (state_after [deposit 1 100 10.0; deposit 1 101 2.5; dispute 1 100])
           (dispute 1 100) (resolve 1 100) []
           eq_refl eq_refl eq_refl eq_refl eq_refl eq_refl eq_refl).
Defined.
